(** * Word search engine: the indexing pipeline and the exact-match query engine

    A shallow embedding of [scripts/preprocess.py] and [scripts/search.py].

    - Python [str] values are lists of code points ([pystr]).
    - Python objects that travel through [json.dump] / [json.load] are the
      values of [pyval]; floats are IEEE binary64 numbers ([PrimFloat.float]).
    - The [json] module is embedded as a printer ([encode], the pure-Python
      encoder run with [indent=2]) and a parser ([scan_once], the scanner and
      decoder); the two builtins it calls on floats, [float.__repr__] and
      [float(text)], are the fields of the class [FloatText].
    - Effects (console, files, log, annotated images, exceptions) are threaded
      through the monad [M]; what the operating system, LibreOffice, the OCR
      model and the imaging library answer is read from an [env].

    Interpreter resource limits (recursion depth, memory) are not modelled. *)

From Stdlib Require Import Ascii String.
From Stdlib Require Import List NArith ZArith Bool Lia.
From Stdlib Require Import Floats Uint63 DecimalN DecimalFacts.
Import ListNotations.

Set Warnings "-inexact-float".
Set Implicit Arguments.

Local Open Scope N_scope.
Local Open Scope list_scope.

(* ================================================================= *)
(** ** Python strings *)

Definition pystr := list N.

Definition ch (a : ascii) : N := N_of_ascii a.
Arguments ch a%_char.

(** An ASCII string literal of the source. *)
Definition str (s : string) : pystr := map N_of_ascii (list_ascii_of_string s).
Arguments str s%_string.

Fixpoint pystr_eqb (a b : pystr) : bool :=
  match a, b with
  | [], [] => true
  | x :: a', y :: b' => N.eqb x y && pystr_eqb a' b'
  | _, _ => false
  end.

Fixpoint drop_while (p : N -> bool) (s : pystr) : pystr :=
  match s with
  | [] => []
  | c :: r => if p c then drop_while p r else s
  end.

Fixpoint take_while (p : N -> bool) (s : pystr) : pystr :=
  match s with
  | [] => []
  | c :: r => if p c then c :: take_while p r else []
  end.

(** [str.isspace] on one code point (the interpreter's whitespace table). *)
Definition py_isspace (c : N) : bool :=
  ((9 <=? c) && (c <=? 13)) || ((28 <=? c) && (c <=? 32))
  || (c =? 133) || (c =? 160) || (c =? 5760)
  || ((8192 <=? c) && (c <=? 8202))
  || (c =? 8232) || (c =? 8233) || (c =? 8239) || (c =? 8287) || (c =? 12288).

(** [s.strip()] *)
Definition strip (s : pystr) : pystr :=
  rev (drop_while py_isspace (rev (drop_while py_isspace s))).

(** [s.lower()], on the ASCII letters; other code points are kept.  The
    source only tests the result against the ASCII suffixes ".pdf", ".jpg",
    ".jpeg" and ".png", none of whose letters is the lower case of a
    non-ASCII code point. *)
Definition lower_char (c : N) : N :=
  if (65 <=? c) && (c <=? 90) then c + 32 else c.
Definition lower (s : pystr) : pystr := map lower_char s.

Fixpoint startswith (s pre : pystr) {struct pre} : bool :=
  match pre, s with
  | [], _ => true
  | p :: pre', c :: s' => N.eqb c p && startswith s' pre'
  | _ :: _, [] => false
  end.

(** [s.endswith(suf)] *)
Definition endswith (s suf : pystr) : bool := startswith (rev s) (rev suf).

(** [s.replace(old, new)] for a non-empty [old]: occurrences are replaced
    from the left and do not overlap; [skip] counts the code points of an
    occurrence that are still to be passed over. *)
Fixpoint replace_from (old new : pystr) (skip : nat) (s : pystr) : pystr :=
  match s with
  | [] => []
  | c :: r =>
      match skip with
      | S k => replace_from old new k r
      | O =>
          if startswith s old
          then new ++ replace_from old new (length old - 1)%nat r
          else c :: replace_from old new 0 r
      end
  end.
Definition replace (s old new : pystr) : pystr := replace_from old new 0 s.

Definition SLASH : N := 47.

(** [os.path.basename(p)]: what follows the last slash. *)
Definition basename (p : pystr) : pystr :=
  rev (take_while (fun c => negb (c =? SLASH)) (rev p)).

(** [os.path.join(a, b)] *)
Definition path_join (a b : pystr) : pystr :=
  if startswith b [SLASH] then b
  else if orb (pystr_eqb a []) (endswith a [SLASH]) then a ++ b
  else a ++ SLASH :: b.

(** Decimal text of an integer, as [int.__repr__] and [str.format] print it. *)
Definition digit_char (d : N) : N := 48 + d.

Fixpoint uint_text (d : Decimal.uint) : pystr :=
  match d with
  | Decimal.Nil => []
  | Decimal.D0 r => digit_char 0 :: uint_text r
  | Decimal.D1 r => digit_char 1 :: uint_text r
  | Decimal.D2 r => digit_char 2 :: uint_text r
  | Decimal.D3 r => digit_char 3 :: uint_text r
  | Decimal.D4 r => digit_char 4 :: uint_text r
  | Decimal.D5 r => digit_char 5 :: uint_text r
  | Decimal.D6 r => digit_char 6 :: uint_text r
  | Decimal.D7 r => digit_char 7 :: uint_text r
  | Decimal.D8 r => digit_char 8 :: uint_text r
  | Decimal.D9 r => digit_char 9 :: uint_text r
  end.

Definition MINUS : N := 45.

Definition int_repr (z : Z) : pystr :=
  if (z <? 0)%Z then MINUS :: uint_text (N.to_uint (Z.abs_N z))
  else uint_text (N.to_uint (Z.abs_N z)).

(** [int(text)] on a text matched by the integer part of a JSON number. *)
Fixpoint text_uint (s : pystr) : Decimal.uint :=
  match s with
  | [] => Decimal.Nil
  | c :: r =>
      let t := text_uint r in
      if c =? 48 then Decimal.D0 t else if c =? 49 then Decimal.D1 t
      else if c =? 50 then Decimal.D2 t else if c =? 51 then Decimal.D3 t
      else if c =? 52 then Decimal.D4 t else if c =? 53 then Decimal.D5 t
      else if c =? 54 then Decimal.D6 t else if c =? 55 then Decimal.D7 t
      else if c =? 56 then Decimal.D8 t else Decimal.D9 t
  end.

Definition int_of_text (s : pystr) : Z :=
  match s with
  | c :: r => if c =? MINUS then Z.opp (Z.of_N (N.of_uint (text_uint r)))
              else Z.of_N (N.of_uint (text_uint s))
  | [] => 0%Z
  end.

(* ================================================================= *)
(** ** Python values, exceptions and the effect monad *)

Unset Elimination Schemes.
Inductive pyval : Type :=
| PNone
| PBool (b : bool)
| PInt (z : Z)
| PFloat (f : float)
| PStr (s : pystr)
| PList (l : list pyval)
| PDict (d : list (pystr * pyval)).
Set Elimination Schemes.

Inductive exn_class : Type :=
| FileNotFoundError | JSONDecodeError | EOFError | TypeError | KeyError
| IndexError | ValueError | OtherError.

(** An exception: its class and [str(e)]. *)
Record exn : Type := Exn { exn_cls : exn_class; exn_str : pystr }.

Inductive outcome (A : Type) : Type :=
| Done (a : A)
| Raised (e : exn).
Arguments Done {A} a.
Arguments Raised {A} e.

(* ================================================================= *)
(** ** The [json] module: encoder *)

(** [float.__repr__] and [float(text)], the two builtins the [json] module
    calls on floats. *)
Class FloatText : Type := {
  float_repr : float -> pystr;
  float_of_string : pystr -> float
}.

Definition QUOTE : N := 34.
Definition BACKSLASH : N := 92.

(** One lower-case hexadecimal digit, as ['{0:04x}'.format] prints it. *)
Definition hex_char (d : N) : N := if d <? 10 then 48 + d else 87 + d.

(** ['\\u{0:04x}'.format(n)] for [n < 0x10000]. *)
Definition u_escape (n : N) : pystr :=
  [BACKSLASH; 117; hex_char (n / 4096 mod 16); hex_char (n / 256 mod 16);
   hex_char (n / 16 mod 16); hex_char (n mod 16)].

(** The [replace] function of [py_encode_basestring_ascii], on one code
    point: the short escapes of [ESCAPE_DCT], a [\uXXXX] escape for the
    other code points outside [' '..'~'], a surrogate pair above the basic
    plane. *)
Definition escape_char (c : N) : pystr :=
  if c =? BACKSLASH then [BACKSLASH; BACKSLASH]
  else if c =? QUOTE then [BACKSLASH; QUOTE]
  else if c =? 8 then [BACKSLASH; 98]
  else if c =? 12 then [BACKSLASH; 102]
  else if c =? 10 then [BACKSLASH; 110]
  else if c =? 13 then [BACKSLASH; 114]
  else if c =? 9 then [BACKSLASH; 116]
  else if (32 <=? c) && (c <=? 126) then [c]
  else if c <? 65536 then u_escape c
  else
    let n := c - 65536 in
    u_escape (N.lor 55296 (N.land (N.shiftr n 10) 1023))
    ++ u_escape (N.lor 56320 (N.land n 1023)).

Definition encode_basestring_ascii (s : pystr) : pystr :=
  QUOTE :: flat_map escape_char s ++ [QUOTE].

Section Encoder.
Context {FT : FloatText}.

(** [floatstr] of [json.encoder] with [allow_nan=True]. *)
Definition floatstr (o : float) : pystr :=
  if negb (PrimFloat.eqb o o) then str "NaN"
  else if PrimFloat.eqb o infinity then str "Infinity"
  else if PrimFloat.eqb o neg_infinity then str "-Infinity"
  else float_repr o.

(** ['\n' + _indent * _current_indent_level] with [indent=2]. *)
Definition newline_indent (level : nat) : pystr :=
  10 :: repeat 32 (2 * level)%nat.

(** The chunks of a container's items, joined by the item separator. *)
Fixpoint join_items (sep : pystr) (chunks : list pystr) : pystr :=
  match chunks with
  | [] => []
  | [c] => c
  | c :: rest => c ++ sep ++ join_items sep rest
  end.

(** [_iterencode] with [indent=2], separators [(',', ': ')],
    [ensure_ascii=True]; [level] is [_current_indent_level]. *)
Fixpoint encode (level : nat) (v : pyval) {struct v} : pystr :=
  match v with
  | PNone => str "null"
  | PBool true => str "true"
  | PBool false => str "false"
  | PInt z => int_repr z
  | PFloat f => floatstr f
  | PStr s => encode_basestring_ascii s
  | PList [] => str "[]"
  | PList l =>
      ch "[" :: newline_indent (S level)
      ++ join_items (ch "," :: newline_indent (S level))
                    (map (encode (S level)) l)
      ++ newline_indent level ++ [ch "]"]
  | PDict [] => str "{}"
  | PDict d =>
      ch "{" :: newline_indent (S level)
      ++ join_items (ch "," :: newline_indent (S level))
                    (map (fun kv => encode_basestring_ascii (fst kv)
                                    ++ str ": " ++ encode (S level) (snd kv)) d)
      ++ newline_indent level ++ [ch "}"]
  end.

(** The text [json.dump(obj, f, indent=2)] writes. *)
Definition json_dumps (obj : pyval) : pystr := encode 0 obj.
End Encoder.

(* ================================================================= *)
(** ** The [json] module: scanner and decoder *)

(** [WHITESPACE.match(s, end).end()] *)
Definition is_ws (c : N) : bool :=
  (c =? 32) || (c =? 9) || (c =? 10) || (c =? 13).
Definition skip_ws (s : pystr) : pystr := drop_while is_ws s.

Definition hex_val (c : N) : option N :=
  if (48 <=? c) && (c <=? 57) then Some (c - 48)
  else if (97 <=? c) && (c <=? 102) then Some (c - 87)
  else if (65 <=? c) && (c <=? 70) then Some (c - 55)
  else None.

(** The four hexadecimal digits of a [\uXXXX] escape. *)
Definition decode_hex4 (a b c d : N) : option N :=
  match hex_val a, hex_val b, hex_val c, hex_val d with
  | Some x, Some y, Some z, Some w => Some (x * 4096 + y * 256 + z * 16 + w)
  | _, _, _, _ => None
  end.

(** The [BACKSLASH] table of [json.decoder]. *)
Definition unescape (e : N) : option N :=
  if e =? QUOTE then Some QUOTE
  else if e =? BACKSLASH then Some BACKSLASH
  else if e =? 47 then Some 47
  else if e =? 98 then Some 8
  else if e =? 102 then Some 12
  else if e =? 110 then Some 10
  else if e =? 114 then Some 13
  else if e =? 116 then Some 9
  else None.

Definition is_high_surrogate (u : N) : bool := (55296 <=? u) && (u <=? 56319).
Definition is_low_surrogate (u : N) : bool := (56320 <=? u) && (u <=? 57343).

(** What follows a high surrogate: anything but an escape ([NoPair]), a
    [\\uXXXX] escape that is not four hexadecimal digits ([BadEscape]), or
    the escape of a code unit; a low surrogate makes a pair. *)
Inductive lookahead : Type :=
| NoPair
| BadEscape
| Pair (uni2 : N).

Definition low_surrogate_ahead (s : pystr) : lookahead :=
  match s with
  | b :: u :: g1 :: g2 :: g3 :: g4 :: _ =>
      if (b =? BACKSLASH) && (u =? 117) then
        match decode_hex4 g1 g2 g3 g4 with
        | None => BadEscape
        | Some uni2 => if is_low_surrogate uni2 then Pair uni2 else NoPair
        end
      else NoPair
  | _ => NoPair
  end.

(** [_append(char)] on the chunks decoded after [char]. *)
Definition prepend (c : N) (scanned : option (pystr * pystr))
  : option (pystr * pystr) :=
  match scanned with
  | Some (t, rest) => Some (c :: t, rest)
  | None => None
  end.

(** [scanstring(s, end, strict=True)], entered after the opening quote:
    the decoded string and what follows the closing quote; [None] is a
    [JSONDecodeError].  A [\\uXXXX] escape has exactly four hexadecimal
    digits, as in the accelerated scanner. *)
Fixpoint scanstring (s : pystr) : option (pystr * pystr) :=
  match s with
  | [] => None
  | c :: r =>
      if c =? QUOTE then Some ([], r)
      else if c =? BACKSLASH then
        match r with
        | [] => None
        | e :: r1 =>
            if e =? 117 then
              match r1 with
              | h1 :: h2 :: h3 :: h4 :: r5 =>
                  match decode_hex4 h1 h2 h3 h4 with
                  | None => None
                  | Some uni =>
                      if is_high_surrogate uni then
                        match low_surrogate_ahead r5 with
                        | NoPair => prepend uni (scanstring r5)
                        | BadEscape => None
                        | Pair uni2 =>
                            match r5 with
                            | _ :: _ :: _ :: _ :: _ :: _ :: r11 =>
                                prepend (65536 + N.lor (N.shiftl (uni - 55296) 10)
                                                       (uni2 - 56320))
                                        (scanstring r11)
                            | _ => None
                            end
                        end
                      else prepend uni (scanstring r5)
                  end
              | _ => None
              end
            else
              match unescape e with
              | Some x => prepend x (scanstring r1)
              | None => None
              end
        end
      else if c <? 32 then None
      else prepend c (scanstring r)
  end.

Definition is_digit (c : N) : bool := (48 <=? c) && (c <=? 57).

Fixpoint span_digits (s : pystr) : pystr * pystr :=
  match s with
  | [] => ([], [])
  | c :: r =>
      if is_digit c then let (d, t) := span_digits r in (c :: d, t)
      else ([], s)
  end.

(** The integer part of [NUMBER_RE]: an optional minus sign, then a single
    zero or a non-zero digit and the digits that follow it. *)
Definition lex_int (s : pystr) : option (pystr * pystr) :=
  let (sign, s1) :=
    match s with
    | c :: r => if c =? MINUS then ([MINUS], r) else ([], s)
    | [] => ([], s)
    end in
  match s1 with
  | [] => None
  | c :: r =>
      if c =? 48 then Some (sign ++ [c], r)
      else if is_digit c then
        let (d, t) := span_digits r in Some (sign ++ c :: d, t)
      else None
  end.

(** The optional fraction: a dot and at least one digit. *)
Definition lex_frac (s : pystr) : pystr * pystr :=
  match s with
  | c :: r =>
      if c =? 46 then
        match span_digits r with
        | ([], _) => ([], s)
        | (d, t) => (c :: d, t)
        end
      else ([], s)
  | [] => ([], s)
  end.

(** The optional exponent: [e] or [E], an optional sign, at least one digit. *)
Definition lex_exp (s : pystr) : pystr * pystr :=
  match s with
  | c :: r =>
      if (c =? 101) || (c =? 69) then
        let (sg, r1) :=
          match r with
          | x :: r' => if (x =? MINUS) || (x =? 43) then ([x], r') else ([], r)
          | [] => ([], r)
          end in
        match span_digits r1 with
        | ([], _) => ([], s)
        | (d, t) => (c :: sg ++ d, t)
        end
      else ([], s)
  | [] => ([], s)
  end.

(** [NUMBER_RE.match]: the three groups and what follows the match. *)
Definition match_number (s : pystr) : option (pystr * pystr * pystr * pystr) :=
  match lex_int s with
  | None => None
  | Some (i, s1) =>
      let (f, s2) := lex_frac s1 in
      let (e, s3) := lex_exp s2 in
      Some (i, f, e, s3)
  end.

(** [dict(pairs)]: a later pair with a key already present replaces the
    value and keeps the key's place; a new key goes to the end. *)
Fixpoint dict_set (d : list (pystr * pyval)) (k : pystr) (v : pyval)
  : list (pystr * pyval) :=
  match d with
  | [] => [(k, v)]
  | (k', v') :: r =>
      if pystr_eqb k' k then (k', v) :: r else (k', v') :: dict_set r k v
  end.

Definition dict_of_pairs (pairs : list (pystr * pyval)) : list (pystr * pyval) :=
  fold_left (fun d kv => dict_set d (fst kv) (snd kv)) pairs [].

(** What a scanning function returns: a value and the rest of the text, a
    [JSONDecodeError], or no answer because the fuel ran out. *)
Inductive scan (A : Type) : Type :=
| Scanned (a : A) (rest : pystr)
| DecodeError
| NoFuel.
Arguments Scanned {A} a rest.
Arguments DecodeError {A}.
Arguments NoFuel {A}.

Section Decoder.
Context {FT : FloatText}.

(** A scalar at the head of the text: string, literal name, number or
    float constant, in the order [_scan_once] tries them. *)
Definition scan_scalar (s : pystr) : scan pyval :=
  match s with
  | [] => DecodeError
  | c :: r =>
      if c =? QUOTE then
        match scanstring r with
        | Some (t, rest) => Scanned (PStr t) rest
        | None => DecodeError
        end
      else if startswith s (str "null") then Scanned PNone (skipn 4 s)
      else if startswith s (str "true") then Scanned (PBool true) (skipn 4 s)
      else if startswith s (str "false") then Scanned (PBool false) (skipn 5 s)
      else
        match match_number s with
        | Some (i, f, e, rest) =>
            match f, e with
            | [], [] => Scanned (PInt (int_of_text i)) rest
            | _, _ => Scanned (PFloat (float_of_string (i ++ f ++ e))) rest
            end
        | None =>
            if startswith s (str "NaN") then Scanned (PFloat nan) (skipn 3 s)
            else if startswith s (str "Infinity")
            then Scanned (PFloat infinity) (skipn 8 s)
            else if startswith s (str "-Infinity")
            then Scanned (PFloat neg_infinity) (skipn 9 s)
            else DecodeError
        end
  end.

(** [_scan_once], with [JSONArray] ([scan_elements], entered before an
    element) and [JSONObject] ([scan_members], entered after the opening
    quote of a key).  Every call spends one unit of fuel. *)
Fixpoint scan_once (fuel : nat) (s : pystr) {struct fuel} : scan pyval :=
  match fuel with
  | O => NoFuel
  | S n =>
      match s with
      | [] => DecodeError
      | c :: r =>
          if c =? ch "{" then
            match skip_ws r with
            | c1 :: r1 =>
                if c1 =? ch "}" then Scanned (PDict []) r1
                else if c1 =? QUOTE then scan_members n r1 []
                else DecodeError
            | [] => DecodeError
            end
          else if c =? ch "[" then
            match skip_ws r with
            | c1 :: r1 =>
                if c1 =? ch "]" then Scanned (PList []) r1
                else scan_elements n (c1 :: r1) []
            | [] => DecodeError
            end
          else scan_scalar s
      end
  end
with scan_elements (fuel : nat) (s : pystr) (acc : list pyval) {struct fuel}
  : scan pyval :=
  match fuel with
  | O => NoFuel
  | S n =>
      match scan_once n s with
      | Scanned v s1 =>
          match skip_ws s1 with
          | c :: r =>
              if c =? ch "]" then Scanned (PList (rev (v :: acc))) r
              else if c =? ch "," then scan_elements n (skip_ws r) (v :: acc)
              else DecodeError
          | [] => DecodeError
          end
      | DecodeError => DecodeError
      | NoFuel => NoFuel
      end
  end
with scan_members (fuel : nat) (s : pystr) (acc : list (pystr * pyval))
       {struct fuel} : scan pyval :=
  match fuel with
  | O => NoFuel
  | S n =>
      match scanstring s with
      | None => DecodeError
      | Some (key, s1) =>
          match skip_ws s1 with
          | c :: s2 =>
              if c =? ch ":" then
                match scan_once n (skip_ws s2) with
                | Scanned v s3 =>
                    match skip_ws s3 with
                    | c3 :: r =>
                        if c3 =? ch "}"
                        then Scanned (PDict (dict_of_pairs (rev ((key, v) :: acc)))) r
                        else if c3 =? ch "," then
                          match skip_ws r with
                          | q :: r' =>
                              if q =? QUOTE
                              then scan_members n r' ((key, v) :: acc)
                              else DecodeError
                          | [] => DecodeError
                          end
                        else DecodeError
                    | [] => DecodeError
                    end
                | DecodeError => DecodeError
                | NoFuel => NoFuel
                end
              else DecodeError
          | [] => DecodeError
          end
      end
  end.

(** [JSONDecoder.decode]: leading whitespace, one value, trailing
    whitespace, nothing else.  The fuel is two units per code point and
    two more, which no text uses up (lemma [decode_has_fuel]). *)
Definition decode (s : pystr) : scan pyval :=
  match scan_once (2 * length s + 2) (skip_ws s) with
  | Scanned v rest =>
      match skip_ws rest with
      | [] => Scanned v []
      | _ :: _ => DecodeError
      end
  | DecodeError => DecodeError
  | NoFuel => NoFuel
  end.

(** [json.loads(s)]: the value, or [None] for a [JSONDecodeError]. *)
Definition json_loads (s : pystr) : option pyval :=
  match decode s with
  | Scanned v _ => Some v
  | _ => None
  end.
End Decoder.

(* ================================================================= *)
(** ** The process state and the environment *)

(** The OCR collaborator's result: pages, blocks, lines, words; a word has
    its text and a geometry, a sequence of points. *)
Record Word : Type := { value : pystr; geometry : list (list float) }.
Record Line : Type := { words : list Word }.
Record Block : Type := { lines : list Line }.
Record Page : Type := { blocks : list Block }.

(** The dictionary built for one word (preprocess.py, lines 151-161). *)
Record WordRecord : Type := {
  document : pystr;
  page : Z;
  word : pystr;
  bounding_box : list float
}.

(** A file as [open(path, 'r')] and [read] find it: its text, or the
    exception they raise.  A path with no entry is a missing file. *)
Inductive file_state : Type :=
| Text (content : pystr)
| Unreadable (e : exn).

(** A rectangle handed to [draw.rectangle]: [[(x0, y0), (x1, y1)]]. *)
Definition rectangle : Type := (float * float) * (float * float).

(** One call of [logging.info] or [logging.error], kept as the values its
    message interpolates. *)
Inductive log_entry : Type :=
| LogConverted (docx pdf : pystr)
| LogConvertError (docx msg : pystr)
| LogPageImage (page_num : Z) (pdf image : pystr)
| LogPageImageError (page_num : Z) (pdf msg : pystr)
| LogDrew (w : pystr) (bbox : list float) (image : pystr)
| LogAnnotated (path : pystr)
| LogDrawError (image msg : pystr)
| LogInvalidFolder (folder : pystr)
| LogProcessing (file : pystr)
| LogOcrCompleted (file : pystr) (pages : nat)
| LogProcessError (file msg : pystr)
| LogSavedIndex (path : pystr).

(** The entries written with [logging.error]. *)
Definition is_error (e : log_entry) : bool :=
  match e with
  | LogConvertError _ _ | LogPageImageError _ _ _ | LogDrawError _ _
  | LogInvalidFolder _ | LogProcessError _ _ => true
  | _ => false
  end.

Record state : Type := {
  stdin : list pystr;                     (* lines still to be read *)
  stdout : list pystr;                    (* texts written, oldest first *)
  files : list (pystr * file_state);      (* latest write first *)
  log : list log_entry;                   (* oldest first *)
  annotated : list (pystr * list rectangle);  (* saved annotated images *)
  removed : list pystr;                   (* directory trees removed *)
  results : list WordRecord               (* the list [results] of the run *)
}.

(** What the world outside the two scripts answers. *)
Record env : Type := {
  isdir : pystr -> bool;
  open_w_error : pystr -> option exn;
  listdir : pystr -> list pystr;
  temp_dir : pystr;
  (** [soffice] on a document: [None] when it succeeds, else the text the
      handlers log. *)
  soffice : pystr -> option pystr;
  (** [DocumentFile.from_pdf] ([true]) or [from_images] ([false]) on a
      path, then the predictor on the loaded document. *)
  ocr : bool -> pystr -> outcome (list Page);
  (** [convert_from_path] and [save] of one page: [None] when they succeed. *)
  rasterize : pystr -> Z -> option exn;
  (** [Image.open(path).size] *)
  image_size : pystr -> outcome (Z * Z);
  draw_error : rectangle -> option exn;
  save_error : pystr -> option exn
}.

Definition M (A : Type) : Type := state -> outcome A * state.

Definition ret {A} (a : A) : M A := fun st => (Done a, st).

Definition bind {A B} (c : M A) (k : A -> M B) : M B :=
  fun st =>
    match c st with
    | (Done a, st') => k a st'
    | (Raised e, st') => (Raised e, st')
    end.

Definition raise {A} (e : exn) : M A := fun st => (Raised e, st).

(** [try: body / except ...: handler]; a handler that answers [None] does
    not catch the exception. *)
Definition try_except {A} (body : M A) (handler : exn -> option (M A)) : M A :=
  fun st =>
    match body st with
    | (Done a, st') => (Done a, st')
    | (Raised e, st') =>
        match handler e with
        | Some h => h st'
        | None => (Raised e, st')
        end
    end.

(** [try: body / finally: cleanup] *)
Definition try_finally {A} (body : M A) (cleanup : M unit) : M A :=
  fun st =>
    match body st with
    | (Done a, st') =>
        match cleanup st' with
        | (Done _, st2) => (Done a, st2)
        | (Raised e, st2) => (Raised e, st2)
        end
    | (Raised e, st') =>
        match cleanup st' with
        | (Done _, st2) => (Raised e, st2)
        | (Raised e2, st2) => (Raised e2, st2)
        end
    end.

Definition lift {A} (o : outcome A) : M A := fun st => (o, st).

Notation "x <- c ;; k" := (bind c (fun x => k))
  (at level 61, c at next level, right associativity).
Notation "c ;; k" := (bind c (fun _ => k))
  (at level 61, right associativity).

(** [for x in xs: body x] *)
Fixpoint for_each {A} (xs : list A) (body : A -> M unit) : M unit :=
  match xs with
  | [] => ret tt
  | x :: rest => body x ;; for_each rest body
  end.

Definition modify (f : state -> state) : M unit := fun st => (Done tt, f st).

Definition add_stdout (msg : pystr) (st : state) : state :=
  {| stdin := stdin st; stdout := stdout st ++ [msg]; files := files st;
     log := log st; annotated := annotated st; removed := removed st;
     results := results st |}.

Definition set_stdin (l : list pystr) (st : state) : state :=
  {| stdin := l; stdout := stdout st; files := files st;
     log := log st; annotated := annotated st; removed := removed st;
     results := results st |}.

Definition add_file (p : pystr) (f : file_state) (st : state) : state :=
  {| stdin := stdin st; stdout := stdout st; files := (p, f) :: files st;
     log := log st; annotated := annotated st; removed := removed st;
     results := results st |}.

Definition add_log (e : log_entry) (st : state) : state :=
  {| stdin := stdin st; stdout := stdout st; files := files st;
     log := log st ++ [e]; annotated := annotated st; removed := removed st;
     results := results st |}.

Definition add_annotated (p : pystr) (r : list rectangle) (st : state) : state :=
  {| stdin := stdin st; stdout := stdout st; files := files st;
     log := log st; annotated := annotated st ++ [(p, r)]; removed := removed st;
     results := results st |}.

Definition add_removed (p : pystr) (st : state) : state :=
  {| stdin := stdin st; stdout := stdout st; files := files st;
     log := log st; annotated := annotated st; removed := removed st ++ [p];
     results := results st |}.

Definition set_results (r : list WordRecord) (st : state) : state :=
  {| stdin := stdin st; stdout := stdout st; files := files st;
     log := log st; annotated := annotated st; removed := removed st;
     results := r |}.

(** [print(msg)] *)
Definition print (msg : pystr) : M unit := modify (add_stdout msg).

(** [input(prompt)]: the prompt is written, the next line is read; at the
    end of the input [EOFError] is raised. *)
Definition input (prompt : pystr) : M pystr :=
  fun st =>
    match stdin st with
    | [] => (Raised (Exn EOFError (str "EOF when reading a line")),
             add_stdout prompt st)
    | l :: rest => (Done l, set_stdin rest (add_stdout prompt st))
    end.

Definition logging (e : log_entry) : M unit := modify (add_log e).

Fixpoint lookup_file (p : pystr) (fs : list (pystr * file_state))
  : option file_state :=
  match fs with
  | [] => None
  | (q, f) :: rest => if pystr_eqb q p then Some f else lookup_file p rest
  end.

(** [with open(path, 'r') as f: f.read()] *)
Definition read_text (path : pystr) : M pystr :=
  fun st =>
    match lookup_file path (files st) with
    | None => (Raised (Exn FileNotFoundError
                 (str "[Errno 2] No such file or directory: '" ++ path ++ str "'")), st)
    | Some (Unreadable e) => (Raised e, st)
    | Some (Text t) => (Done t, st)
    end.

Section Scripts.
Context {FT : FloatText}.
Variable E : env.

(** [with open(path, 'w') as f: json.dump(obj, f, indent=2)] *)
Definition dump_to_file (path : pystr) (obj : pyval) : M unit :=
  fun st =>
    match open_w_error E path with
    | Some e => (Raised e, st)
    | None => (Done tt, add_file path (Text (json_dumps obj)) st)
    end.

(** [json.load(f)] on the text read; the message of the [JSONDecodeError]
    is not modelled. *)
Definition json_load (text : pystr) : M pyval :=
  match json_loads text with
  | Some v => ret v
  | None => raise (Exn JSONDecodeError (str "invalid JSON text"))
  end.

(* ================================================================= *)
(** ** scripts/search.py *)

(** [load_json_file]: Python's [None] is [PNone]. *)
Definition load_json_file (json_path : pystr) : M pyval :=
  try_except
    (text <- read_text json_path ;; json_load text)
    (fun e =>
       match exn_cls e with
       | FileNotFoundError =>
           Some (print (str "Error: The file " ++ json_path ++ str " was not found.") ;;
                 ret PNone)
       | JSONDecodeError =>
           Some (print (str "Error: The file " ++ json_path
                        ++ str " is not a valid JSON file.") ;;
                 ret PNone)
       | _ => None
       end).

(** [for entry in data]: the items the iteration yields. *)
Definition py_iter (data : pyval) : outcome (list pyval) :=
  match data with
  | PList l => Done l
  | PDict d => Done (map (fun kv => PStr (fst kv)) d)
  | PStr s => Done (map (fun c => PStr [c]) s)
  | _ => Raised (Exn TypeError (str "object is not iterable"))
  end.

Fixpoint dict_get (d : list (pystr * pyval)) (k : pystr) : option pyval :=
  match d with
  | [] => None
  | (k', v) :: r => if pystr_eqb k' k then Some v else dict_get r k
  end.

(** [entry[key]] for a string key. *)
Definition getitem (entry : pyval) (key : pystr) : outcome pyval :=
  match entry with
  | PDict d =>
      match dict_get d key with
      | Some v => Done v
      | None => Raised (Exn KeyError (ch "'" :: key ++ [ch "'"]))
      end
  | PStr _ | PList _ =>
      Raised (Exn TypeError (str "indices must be integers"))
  | _ => Raised (Exn TypeError (str "object is not subscriptable"))
  end.

(** [v == s] for a string [s]. *)
Definition py_eq_str (v : pyval) (s : pystr) : bool :=
  match v with
  | PStr t => pystr_eqb t s
  | _ => false
  end.

(** [[entry for entry in entries if entry["word"] == search_word]] *)
Fixpoint select_entries (entries : list pyval) (search_word : pystr)
  : outcome (list pyval) :=
  match entries with
  | [] => Done []
  | entry :: rest =>
      match getitem entry (str "word") with
      | Raised e => Raised e
      | Done w =>
          match select_entries rest search_word with
          | Raised e => Raised e
          | Done m => Done (if py_eq_str w search_word then entry :: m else m)
          end
      end
  end.

Definition find_matches (data : pyval) (search_word : pystr)
  : outcome (list pyval) :=
  match py_iter data with
  | Raised e => Raised e
  | Done entries => select_entries entries search_word
  end.

(** The [while not os.path.isdir(documents_dir)] loop: the accepted
    directory, or [None] when an empty answer ends the search.  A turn reads
    one line, so the loop is run for one turn more than there are lines:
    the last turn finds the input at its end and [input] raises. *)
Fixpoint validate_documents_dir (turns : nat) (documents_dir : pystr)
  : M (option pystr) :=
  if isdir E documents_dir then ret (Some documents_dir)
  else
    print (str "Error: The documents directory " ++ documents_dir
           ++ str " does not exist.") ;;
    answer <- input (str "Please enter a valid documents directory path: ") ;;
    let documents_dir := strip answer in
    match documents_dir with
    | [] => print (str "No path provided. Exiting.") ;; ret None
    | _ :: _ =>
        match turns with
        | S n => validate_documents_dir n documents_dir
        | O => raise (Exn EOFError (str "EOF when reading a line"))
        end
    end.

Definition search_word (documents_dir json_path output_json : pystr) : M unit :=
  fun st0 =>
  (dir <- validate_documents_dir (length (stdin st0)) documents_dir ;;
   match dir with
   | None => ret tt
   | Some _ =>
       data <- load_json_file json_path ;;
       match data with
       | PNone => ret tt
       | _ =>
           line <- input (str "Enter the word to search: ") ;;
           let search_word := strip line in
           matches <- lift (find_matches data search_word) ;;
           match matches with
           | _ :: _ =>
               try_except
                 (dump_to_file output_json (PList matches) ;;
                  print (10 :: str "Found "
                         ++ int_repr (Z.of_nat (length matches))
                         ++ str " occurrence(s) of the word '" ++ search_word
                         ++ str "'.") ;;
                  print (str "Results saved to " ++ output_json ++ str "."))
                 (fun e =>
                    Some (print (str "Error saving results to " ++ output_json
                                 ++ str ": " ++ exn_str e)))
           | [] =>
               print (10 :: str "No matches found for the word '" ++ search_word
                      ++ str "'.") ;;
               try_except
                 (dump_to_file output_json (PList []) ;;
                  print (str "Empty results saved to " ++ output_json ++ str "."))
                 (fun e =>
                    Some (print (str "Error saving empty results to " ++ output_json
                                 ++ str ": " ++ exn_str e)))
           end
       end
   end) st0.

(** [input(prompt).strip() or default] *)
Definition input_or (prompt default : pystr) : M pystr :=
  answer <- input prompt ;;
  match strip answer with
  | [] => ret default
  | a => ret a
  end.

Definition search_main : M unit :=
  documents_dir <- input_or (str "Enter the do cuments directory path: ")
                            (str "/home/litzchill/Boon_sai/doc_search/DATA/data") ;;
  json_path <- input_or (str "Enter the JSON file path: ")
                        (str "/home/litzchill/Boon_sai/doc_search/word_index.json") ;;
  output_json <- input_or (str "Enter the output JSON file path: ")
                          (str "/home/litzchill/Boon_sai/doc_search/search_results.json") ;;
  search_word documents_dir json_path output_json.

(* ================================================================= *)
(** ** scripts/preprocess.py *)

(** [glob.glob(os.path.join(folder, "*" + suffix))]: the names of the
    folder that end with the suffix and do not start with a dot, in the
    order the folder lists them, each joined to the folder. *)
Definition glob_star (folder suffix : pystr) : list pystr :=
  map (path_join folder)
      (filter (fun name => endswith name suffix && negb (startswith name (str ".")))
              (listdir E folder)).

Definition preprocess_docx_file (output_folder docx_file : pystr)
  : M (list pystr) :=
  let pdf_path :=
    path_join output_folder
              (replace (basename docx_file) (str ".docx") (str ".pdf")) in
  match soffice E docx_file with
  | None => logging (LogConverted docx_file pdf_path) ;; ret [pdf_path]
  | Some msg => logging (LogConvertError docx_file msg) ;; ret []
  end.

Fixpoint preprocess_docx_loop (output_folder : pystr) (docx_files : list pystr)
  : M (list pystr) :=
  match docx_files with
  | [] => ret []
  | docx_file :: rest =>
      here <- preprocess_docx_file output_folder docx_file ;;
      more <- preprocess_docx_loop output_folder rest ;;
      ret (here ++ more)
  end.

(** [preprocess_docx]: the paths of the converted documents. *)
Definition preprocess_docx (input_folder output_folder : pystr) : M (list pystr) :=
  preprocess_docx_loop output_folder (glob_star input_folder (str ".docx")).

(** [convert_page_to_image]: the path of the page image, or [None]. *)
Definition convert_page_to_image (pdf_path : pystr) (page_num : Z)
           (output_dir doc_name : pystr) : M (option pystr) :=
  match rasterize E pdf_path page_num with
  | None =>
      let image_path :=
        path_join output_dir
                  (doc_name ++ str "_page_" ++ int_repr page_num ++ str ".jpg") in
      logging (LogPageImage page_num pdf_path image_path) ;;
      ret (Some image_path)
  | Some e =>
      logging (LogPageImageError page_num pdf_path (exn_str e)) ;;
      ret None
  end.

(** [seq[i]] *)
Definition index {A} (seq : list A) (i : nat) : outcome A :=
  match nth_error seq i with
  | Some a => Done a
  | None => Raised (Exn IndexError (str "index out of range"))
  end.

(** [float * int]: the integer is converted to a float first.  Image sizes
    are non-negative and below 2^53, where the conversion is exact. *)
Definition float_of_int (z : Z) : float := PrimFloat.of_uint63 (Uint63.of_Z z).

(** The four scaled coordinates of one box (lines 65-70). *)
Definition scale_box (bbox : list float) (img_width img_height : Z)
  : outcome rectangle :=
  match index bbox 0 with
  | Raised e => Raised e
  | Done b0 =>
      match index bbox 1 with
      | Raised e => Raised e
      | Done b1 =>
          match index bbox 2 with
          | Raised e => Raised e
          | Done b2 =>
              match index bbox 3 with
              | Raised e => Raised e
              | Done b3 =>
                  Done ((PrimFloat.mul b0 (float_of_int img_width),
                         PrimFloat.mul b1 (float_of_int img_height)),
                        (PrimFloat.mul b2 (float_of_int img_width),
                         PrimFloat.mul b3 (float_of_int img_height)))
              end
          end
      end
  end.

(** The [for word in words] loop of [draw_bounding_boxes]: the rectangles
    drawn on the image. *)
Fixpoint draw_words (image_path : pystr) (img_width img_height : Z)
         (page_words : list WordRecord) : M (list rectangle) :=
  match page_words with
  | [] => ret []
  | w :: rest =>
      rect <- lift (scale_box (bounding_box w) img_width img_height) ;;
      match draw_error E rect with
      | Some e => raise e
      | None =>
          logging (LogDrew (word w) (bounding_box w) image_path) ;;
          more <- draw_words image_path img_width img_height rest ;;
          ret (rect :: more)
      end
  end.

(** [draw_bounding_boxes]: the path of the annotated image, or [None]. *)
Definition draw_bounding_boxes (image_path : pystr) (page_words : list WordRecord)
           (output_dir doc_name : pystr) (page_num : Z) : M (option pystr) :=
  try_except
    (size <- lift (image_size E image_path) ;;
     let (img_width, img_height) := size in
     rects <- draw_words image_path img_width img_height page_words ;;
     let output_path :=
       path_join output_dir
                 (str "annotated_" ++ doc_name ++ str "_page_"
                  ++ int_repr page_num ++ str ".jpg") in
     match save_error E output_path with
     | Some e => raise e
     | None =>
         modify (add_annotated output_path rects) ;;
         logging (LogAnnotated output_path) ;;
         ret (Some output_path)
     end)
    (fun e => Some (logging (LogDrawError image_path (exn_str e)) ;; ret None)).

(** The dictionary appended for one word (lines 151-161). *)
Definition word_record (file_path : pystr) (page_idx : nat) (w : Word)
  : outcome WordRecord :=
  match index (geometry w) 0 with
  | Raised e => Raised e
  | Done p0 =>
      match index p0 0 with
      | Raised e => Raised e
      | Done g00 =>
          match index p0 1 with
          | Raised e => Raised e
          | Done g01 =>
              match index (geometry w) 1 with
              | Raised e => Raised e
              | Done p1 =>
                  match index p1 0 with
                  | Raised e => Raised e
                  | Done g10 =>
                      match index p1 1 with
                      | Raised e => Raised e
                      | Done g11 =>
                          Done {| document := basename file_path;
                                  page := Z.of_nat page_idx + 1;
                                  word := value w;
                                  bounding_box := [g00; g01; g10; g11] |}
                      end
                  end
              end
          end
      end
  end.

(** The words of a page in the order the three nested loops visit them. *)
Definition words_of_page (p : Page) : list Word :=
  flat_map (fun b => flat_map words (lines b)) (blocks p).

Fixpoint word_records (file_path : pystr) (page_idx : nat) (ws : list Word)
  : outcome (list WordRecord) :=
  match ws with
  | [] => Done []
  | w :: rest =>
      match word_record file_path page_idx w with
      | Raised e => Raised e
      | Done r =>
          match word_records file_path page_idx rest with
          | Raised e => Raised e
          | Done rs => Done (r :: rs)
          end
      end
  end.

Definition is_pdf (file_path : pystr) : bool :=
  endswith (lower file_path) (str ".pdf").

Definition is_image (file_path : pystr) : bool :=
  endswith (lower file_path) (str ".jpg")
  || endswith (lower file_path) (str ".jpeg")
  || endswith (lower file_path) (str ".png").

(** The body of the loop over the pages of one document (lines 146-168). *)
Definition process_page (file_path doc_name image_dir : pystr)
           (page_idx : nat) (p : Page) : M unit :=
  page_words <- lift (word_records file_path page_idx (words_of_page p)) ;;
  modify (fun st => set_results (results st ++ page_words) st) ;;
  image_path <- (if is_image file_path then ret (Some file_path)
                 else convert_page_to_image file_path (Z.of_nat page_idx + 1)
                                            image_dir doc_name) ;;
  match image_path with
  | Some ((_ :: _) as path) =>
      draw_bounding_boxes path page_words image_dir doc_name
                          (Z.of_nat page_idx + 1) ;;
      ret tt
  | _ => ret tt
  end.

Fixpoint process_pages (file_path doc_name image_dir : pystr)
         (page_idx : nat) (pages : list Page) : M unit :=
  match pages with
  | [] => ret tt
  | p :: rest =>
      process_page file_path doc_name image_dir page_idx p ;;
      process_pages file_path doc_name image_dir (S page_idx) rest
  end.

Definition logs_dir : pystr := str "logs".

(** The body of the loop over the files (lines 128-172). *)
Definition process_file (file_path : pystr) : M unit :=
  let doc_name := replace (basename file_path) (str ".") (str "_") in
  let image_dir := path_join logs_dir doc_name in
  logging (LogProcessing file_path) ;;
  try_except
    (pages <- lift (ocr E (is_pdf file_path) file_path) ;;
     logging (LogOcrCompleted file_path (length pages)) ;;
     process_pages file_path doc_name image_dir 0 pages)
    (fun e => Some (logging (LogProcessError file_path (exn_str e)))).

Definition folder_path : pystr :=
  str "/home/litzchill/Boon_sai/doc_search/DATA/data".
Definition output_json : pystr := str "word_index.json".

(** The files of the run, in the order they are processed (lines 120-124). *)
Definition all_files (converted_pdfs : list pystr) : list pystr :=
  flat_map (glob_star folder_path)
           [str ".pdf"; str ".jpg"; str ".jpeg"; str ".png"]
  ++ converted_pdfs.

(** The JSON object written for one record. *)
Definition record_to_py (r : WordRecord) : pyval :=
  PDict [(str "document", PStr (document r));
         (str "page", PInt (page r));
         (str "word", PStr (word r));
         (str "bounding_box", PList (map PFloat (bounding_box r)))].

Definition index_to_py (records : list WordRecord) : pyval :=
  PList (map record_to_py records).

(** [preprocess_documents].  The calls the source does not guard
    ([os.makedirs], [setup_logging], [ocr_predictor], [tempfile.mkdtemp])
    are taken to succeed. *)
Definition preprocess_documents : M (list WordRecord) :=
  if negb (isdir E folder_path) then
    logging (LogInvalidFolder folder_path) ;;
    raise (Exn ValueError (str "Invalid folder path: " ++ folder_path))
  else
    modify (set_results []) ;;
    try_finally
      (converted_pdfs <- preprocess_docx folder_path (temp_dir E) ;;
       for_each (all_files converted_pdfs) process_file)
      (modify (add_removed (temp_dir E))) ;;
    res <- (fun st => (Done (results st), st)) ;;
    dump_to_file output_json (index_to_py res) ;;
    logging (LogSavedIndex output_json) ;;
    ret res.

Definition preprocess_main : M unit :=
  res <- preprocess_documents ;;
  print (str "Processed " ++ int_repr (Z.of_nat (length res))
         ++ str " words across all documents.") ;;
  print (str "Word index saved to word_index.json") ;;
  print (str "Logs and images saved to logs") ;;
  print (str "Log file: logs/preprocess.log").

End Scripts.

(* ================================================================= *)
(** ** What a run of the pipeline should leave in the index

    These definitions are not embeddings of source functions: they state,
    as plain list functions, the records and files the properties below
    compare the run against. *)

(** The records the page loop adds for one document: the pages in order, up
    to the first page with a word whose geometry cannot be indexed. *)
Fixpoint pages_records (file_path : pystr) (page_idx : nat) (pages : list Page)
  : list WordRecord :=
  match pages with
  | [] => []
  | p :: rest =>
      match word_records file_path page_idx (words_of_page p) with
      | Done rs => rs ++ pages_records file_path (S page_idx) rest
      | Raised _ => []
      end
  end.

(** The records of one document: none when loading it or the OCR pass
    raises. *)
Definition doc_records (E : env) (file_path : pystr) : list WordRecord :=
  match ocr E (is_pdf file_path) file_path with
  | Done pages => pages_records file_path 0 pages
  | Raised _ => []
  end.

(** The path [preprocess_docx] gives the PDF of a word-processor document. *)
Definition converted_path (E : env) (docx_file : pystr) : pystr :=
  path_join (temp_dir E)
            (replace (basename docx_file) (str ".docx") (str ".pdf")).

Definition conversion_ok (E : env) (docx_file : pystr) : bool :=
  match soffice E docx_file with
  | None => true
  | Some _ => false
  end.

(** The converted documents: one path per document whose conversion
    succeeds, in the order of the folder. *)
Definition converted (E : env) : list pystr :=
  map (converted_path E)
      (filter (conversion_ok E) (glob_star E folder_path (str ".docx"))).

(** The index a run should produce. *)
Definition expected_index (E : env) : list WordRecord :=
  flat_map (doc_records E) (all_files E (converted E)).

(** The parts of the state the pipeline leaves alone, and its log, which
    only grows. *)
Definition frame (st st' : state) : Prop :=
  stdin st' = stdin st /\ stdout st' = stdout st /\ files st' = files st
  /\ removed st' = removed st /\ exists l, log st' = log st ++ l.

(** ** What the index must be made of to survive a save and a load *)

(** A text: code points of the interpreter's range, with no high surrogate
    directly followed by a low surrogate (two code points the decoder would
    read back as one). *)
Fixpoint no_surrogate_pair (s : pystr) : bool :=
  match s with
  | a :: r =>
      match r with
      | b :: _ => negb (is_high_surrogate a && is_low_surrogate b)
      | [] => true
      end && no_surrogate_pair r
  | [] => true
  end.

Definition text_ok (s : pystr) : bool :=
  forallb (fun c => c <? 1114112) s && no_surrogate_pair s.

(** A text the scanner reads as a number with a fraction or an exponent. *)
Definition is_float_literal (t : pystr) : bool :=
  match match_number t with
  | Some (_, f, e, []) =>
      match f, e with
      | [], [] => false
      | _, _ => true
      end
  | _ => false
  end.

Definition is_finite (f : float) : bool :=
  PrimFloat.eqb f f && negb (PrimFloat.eqb f infinity)
  && negb (PrimFloat.eqb f neg_infinity).

(** A finite float whose [repr] is a JSON number that [float] reads back as
    the same float: what the interpreter guarantees of every finite float. *)
Definition float_roundtrips {FT : FloatText} (f : float) : Prop :=
  is_finite f = true
  /\ is_float_literal (float_repr f) = true
  /\ float_of_string (float_repr f) = f.

Definition record_serializable {FT : FloatText} (r : WordRecord) : Prop :=
  text_ok (document r) = true /\ text_ok (word r) = true
  /\ Forall float_roundtrips (bounding_box r).

(** The values the round trip is proved for. *)
Unset Elimination Schemes.
Inductive serializable {FT : FloatText} : pyval -> Prop :=
| ser_none : serializable PNone
| ser_bool b : serializable (PBool b)
| ser_int z : serializable (PInt z)
| ser_float f : float_roundtrips f -> serializable (PFloat f)
| ser_str s : text_ok s = true -> serializable (PStr s)
| ser_list l : Forall serializable l -> serializable (PList l)
| ser_dict d :
    NoDup (map fst d) ->
    Forall (fun kv => text_ok (fst kv) = true /\ serializable (snd kv)) d ->
    serializable (PDict d).
Set Elimination Schemes.

(** The fuel the scanner spends on the text of a value. *)
Fixpoint cost (v : pyval) : nat :=
  match v with
  | PList l => S (fold_right (fun x acc => S (cost x + acc)) O l)
  | PDict d => S (fold_right (fun kv acc => S (cost (snd kv) + acc)) O d)
  | _ => 1
  end.

Definition head_is_digit (s : pystr) : bool :=
  match s with
  | c :: _ => is_digit c
  | [] => false
  end.

(** A decimal numeral as [N.to_uint] writes it: a single zero, or digits
    that start with a non-zero digit. *)
Definition canonical (d : Decimal.uint) : Prop :=
  match d with
  | Decimal.Nil => False
  | Decimal.D0 r => r = Decimal.Nil
  | _ => True
  end.

(** The first code point of a text is not a low surrogate. *)
Definition head_not_low (s : pystr) : Prop :=
  match s with
  | c :: _ => is_low_surrogate c = false
  | [] => True
  end.

(** The code points a JSON value can start with. *)
Definition value_head (c : N) : bool :=
  (c =? QUOTE) || (c =? ch "{") || (c =? ch "[") || (c =? ch "n")
  || (c =? ch "t") || (c =? ch "f") || (c =? ch "N") || (c =? ch "I")
  || (c =? MINUS) || is_digit c.

Definition elements_cost (l : list pyval) : nat :=
  fold_right (fun x acc => S (cost x + acc)) O l.

Definition members_cost (d : list (pystr * pyval)) : nat :=
  fold_right (fun kv acc => S (cost (snd kv) + acc)) O d.

(** The text that ends a token: nothing, or a comma or a line feed. *)
Definition token_end (rest : pystr) : Prop :=
  match rest with
  | [] => True
  | c :: _ => c = 44 \/ c = 10
  end.

(** The text of a value, followed by a delimiter, is scanned back as the
    value and leaves what followed. *)
Definition scans_back {FT : FloatText} (v : pyval) : Prop :=
  forall level rest fuel,
    (cost v <= fuel)%nat -> token_end rest ->
    scan_once fuel (encode level v ++ rest) = Scanned v rest.

(** The item separator and the text of one member of an object. *)
Definition item_separator {FT : FloatText} (level : nat) : pystr :=
  ch "," :: newline_indent (S level).

Definition member_text {FT : FloatText} (level : nat) (kv : pystr * pyval) : pystr :=
  encode_basestring_ascii (fst kv) ++ str ": " ++ encode (S level) (snd kv).


(** A file name: no slash in it. *)
Definition no_slash (s : pystr) : Prop := Forall (fun c => c <> SLASH) s.





(* ================================================================= *)
(** ** Sample data for the worked examples *)

(** A finite fragment of [float.__repr__] and [float(text)]: the floats the
    examples below use, with the texts the interpreter gives them.  Outside
    these values the fragment answers ["0.0"] and [0.0] and says nothing
    about the interpreter. *)
Definition sample_repr (f : float) : pystr :=
  if PrimFloat.eqb f 0.1 then str "0.1"
  else if PrimFloat.eqb f 0.25 then str "0.25"
  else if PrimFloat.eqb f 0.5 then str "0.5"
  else if PrimFloat.eqb f 0.9 then str "0.9"
  else if PrimFloat.eqb f 1 then str "1.0"
  else str "0.0".

Definition sample_float (s : pystr) : float :=
  if pystr_eqb s (str "0.1") then 0.1
  else if pystr_eqb s (str "0.25") then 0.25
  else if pystr_eqb s (str "0.5") then 0.5
  else if pystr_eqb s (str "0.9") then 0.9
  else if pystr_eqb s (str "1.0") then 1
  else 0.

Definition sample_float_text : FloatText :=
  {| float_repr := sample_repr; float_of_string := sample_float |}.

Definition empty_state : state :=
  {| stdin := []; stdout := []; files := []; log := []; annotated := [];
     removed := []; results := [] |}.

(** An environment with an empty document folder in which every call to the
    outside succeeds. *)
Definition quiet_env : env :=
  {| isdir := fun _ => true;
     open_w_error := fun _ => None;
     listdir := fun _ => [];
     temp_dir := str "/tmp/tmpdir";
     soffice := fun _ => None;
     ocr := fun _ _ => Done [];
     rasterize := fun _ _ => None;
     image_size := fun _ => Done (1000, 2000)%Z;
     draw_error := fun _ => None;
     save_error := fun _ => None |}.

Definition with_listdir (names : list pystr) (e : env) : env :=
  {| isdir := isdir e; open_w_error := open_w_error e;
     listdir := fun _ => names; temp_dir := temp_dir e; soffice := soffice e;
     ocr := ocr e; rasterize := rasterize e; image_size := image_size e;
     draw_error := draw_error e; save_error := save_error e |}.

Definition with_ocr (f : bool -> pystr -> outcome (list Page)) (e : env) : env :=
  {| isdir := isdir e; open_w_error := open_w_error e;
     listdir := listdir e; temp_dir := temp_dir e; soffice := soffice e;
     ocr := f; rasterize := rasterize e; image_size := image_size e;
     draw_error := draw_error e; save_error := save_error e |}.

Definition with_soffice (f : pystr -> option pystr) (e : env) : env :=
  {| isdir := isdir e; open_w_error := open_w_error e;
     listdir := listdir e; temp_dir := temp_dir e; soffice := f;
     ocr := ocr e; rasterize := rasterize e; image_size := image_size e;
     draw_error := draw_error e; save_error := save_error e |}.

(** A page with a single word. *)
Definition one_word_page (text : pystr) (points : list (list float)) : Page :=
  {| blocks := [ {| lines := [ {| words := [ {| value := text;
                                                geometry := points |} ] |} ] |} ] |}.

Definition sample_record (doc : pystr) (p : Z) (w : pystr) : WordRecord :=
  {| document := doc; page := p; word := w;
     bounding_box := [0.1; 0.25; 0.5; 0.9]%float |}.

(** An index of three words, and a state in which it has been saved and
    the user is about to type a word that is not in it. *)
Definition sample_index : list WordRecord :=
  [sample_record (str "a.pdf") 1 (str "Invoice");
   sample_record (str "a.pdf") 2 (str "total");
   sample_record (str "a.pdf") 3 (str "Invoice")].

Definition ghost_state : state :=
  {| stdin := [str " ghost "]; stdout := [];
     files := [(str "word_index.json",
                Text (json_dumps (FT := sample_float_text)
                        (index_to_py sample_index)))];
     log := []; annotated := []; removed := []; results := [] |}.



(** A folder with a PDF whose OCR pass raises, an image, a document whose
    conversion fails and a document that converts. *)
Definition mixed_env : env :=
  with_listdir [str "a.pdf"; str "b.png"; str "c.docx"; str "d.docx"]
    (with_soffice (fun p => if endswith p (str "c.docx")
                            then Some (str "conversion failed") else None)
       (with_ocr (fun _ p => if endswith p (str "a.pdf")
                             then Raised (Exn OtherError (str "corrupt file"))
                             else Done [one_word_page (str "Total")
                                          [[0.1; 0.25]; [0.5; 0.9]]%float])
          quiet_env)).



(* ================================================================= *)
(** ** Further definitions for the properties of the two scripts *)

(** The two texts the directory loop writes before it reads an answer. *)
Definition after_dir_prompt (documents_dir : pystr) (rest : list pystr)
           (st : state) : state :=
  set_stdin rest
    (add_stdout (str "Please enter a valid documents directory path: ")
       (add_stdout (str "Error: The documents directory " ++ documents_dir
                    ++ str " does not exist.") st)).

(** The state after the prompt for the word has read its line. *)
Definition after_word_prompt (rest : list pystr) (st : state) : state :=
  set_stdin rest (add_stdout (str "Enter the word to search: ") st).

(** An environment in which only "docs" is a directory and no file can be
    opened for writing. *)
Definition strict_env : env :=
  {| isdir := fun p => pystr_eqb p (str "docs");
     open_w_error := fun _ => Some (Exn OtherError (str "Permission denied"));
     listdir := fun _ => [];
     temp_dir := str "/tmp/tmpdir";
     soffice := fun _ => None;
     ocr := fun _ _ => Done [];
     rasterize := fun _ _ => None;
     image_size := fun _ => Done (1000, 2000)%Z;
     draw_error := fun _ => None;
     save_error := fun _ => None |}.

(** The same environment with every file writable. *)
Definition docs_env : env :=
  {| isdir := fun p => pystr_eqb p (str "docs");
     open_w_error := fun _ => None;
     listdir := fun _ => [];
     temp_dir := str "/tmp/tmpdir";
     soffice := fun _ => None;
     ocr := fun _ _ => Done [];
     rasterize := fun _ _ => None;
     image_size := fun _ => Done (1000, 2000)%Z;
     draw_error := fun _ => None;
     save_error := fun _ => None |}.

(** A state with the sample index saved and the given lines to be typed. *)
Definition indexed_state (lines : list pystr) : state :=
  set_stdin lines ghost_state.

(** Whether [entry["word"]] evaluates, and whether it is the query. *)
Definition has_word (entry : pyval) : bool :=
  match getitem entry (str "word") with
  | Done _ => true
  | Raised _ => false
  end.

Definition entry_word_is (q : pystr) (entry : pyval) : bool :=
  match getitem entry (str "word") with
  | Done w => py_eq_str w q
  | Raised _ => false
  end.


(** The state [search_word] leaves once the selection is made
    (search.py, lines 37-53), from the state in which the word was read. *)
Definition reported {FT : FloatText} (E : env) (output_json q : pystr)
           (matches : list pyval) (st : state) : state :=
  match matches with
  | _ :: _ =>
      match open_w_error E output_json with
      | None =>
          add_stdout (str "Results saved to " ++ output_json ++ str ".")
            (add_stdout (10 :: str "Found " ++ int_repr (Z.of_nat (length matches))
                         ++ str " occurrence(s) of the word '" ++ q ++ str "'.")
               (add_file output_json (Text (json_dumps (PList matches))) st))
      | Some e =>
          add_stdout (str "Error saving results to " ++ output_json ++ str ": "
                      ++ exn_str e) st
      end
  | [] =>
      match open_w_error E output_json with
      | None =>
          add_stdout (str "Empty results saved to " ++ output_json ++ str ".")
            (add_file output_json (Text (json_dumps (PList [])))
               (add_stdout (10 :: str "No matches found for the word '" ++ q
                            ++ str "'.") st))
      | Some e =>
          add_stdout (str "Error saving empty results to " ++ output_json
                      ++ str ": " ++ exn_str e)
            (add_stdout (10 :: str "No matches found for the word '" ++ q
                         ++ str "'.") st)
      end
  end.


(** A state with a given text saved as the index and the lines to be typed. *)
Definition state_with_index (text : pystr) (lines : list pystr) : state :=
  {| stdin := lines; stdout := [];
     files := [(str "word_index.json", Text text)];
     log := []; annotated := []; removed := []; results := [] |}.

(** A state in which the index file cannot be read. *)
Definition locked_state : state :=
  {| stdin := [str "total"]; stdout := [];
     files := [(str "word_index.json",
                Unreadable (Exn OtherError (str "[Errno 13] Permission denied")))];
     log := []; annotated := []; removed := []; results := [] |}.

(** The default paths of [main] (search.py, lines 58-60). *)
Definition default_documents_dir : pystr :=
  str "/home/litzchill/Boon_sai/doc_search/DATA/data".
Definition default_json_path : pystr :=
  str "/home/litzchill/Boon_sai/doc_search/word_index.json".
Definition default_output_json : pystr :=
  str "/home/litzchill/Boon_sai/doc_search/search_results.json".

(** [answer.strip() or default] *)
Definition or_default (answer default : pystr) : pystr :=
  match strip answer with
  | [] => default
  | a => a
  end.

(** A list whose second entry has no "word" key, and a state in which its
    text is the index. *)
Definition ragged_entries : list pyval :=
  [PDict [(str "word", PStr (str "total"))];
   PDict [(str "text", PStr (str "total"))]].

Definition ragged_state : state :=
  state_with_index (json_dumps (FT := sample_float_text) (PList ragged_entries))
                   [str "total"].

(** Entries with further keys and with words that are not strings. *)
Definition loose_entries : list pyval :=
  [PDict [(str "word", PStr (str "total")); (str "note", PInt 1)];
   PDict [(str "word", PInt 7)];
   PDict [(str "note", PNone); (str "word", PStr (str "total"))]].



(** The folder of [mixed_env] when no page can be turned into an image and
    no image can be opened, drawn on or saved. *)
Definition blind_env : env :=
  {| isdir := isdir mixed_env; open_w_error := open_w_error mixed_env;
     listdir := listdir mixed_env; temp_dir := temp_dir mixed_env;
     soffice := soffice mixed_env; ocr := ocr mixed_env;
     rasterize := fun _ _ => Some (Exn OtherError (str "poppler not installed"));
     image_size := fun _ => Raised (Exn OtherError (str "cannot identify image file"));
     draw_error := fun _ => Some (Exn OtherError (str "cannot draw"));
     save_error := fun _ => Some (Exn OtherError (str "cannot save")) |}.

(** Two environments that answer alike on what the index is built from:
    the folder, its listing, the conversions, the OCR pass and the index
    file. *)
Definition same_documents (E E' : env) : Prop :=
  isdir E folder_path = isdir E' folder_path
  /\ open_w_error E output_json = open_w_error E' output_json
  /\ listdir E folder_path = listdir E' folder_path
  /\ temp_dir E = temp_dir E'
  /\ (forall d, soffice E d = soffice E' d)
  /\ (forall b f, ocr E b f = ocr E' b f).

(** A word whose geometry has two points of two coordinates or more, the
    only words [word_record] builds a record for. *)
Definition well_formed (w : Word) : bool :=
  match geometry w with
  | (_ :: _ :: _) :: (_ :: _ :: _) :: _ => true
  | _ => false
  end.

Definition page_well_formed (p : Page) : bool :=
  forallb well_formed (words_of_page p).

(** The two coordinates of the first point, then those of the second. *)
Definition corners (w : Word) : list float :=
  match geometry w with
  | (x0 :: y0 :: _) :: (x1 :: y1 :: _) :: _ => [x0; y0; x1; y1]
  | _ => []
  end.

Definition record_of (file_path : pystr) (page_idx : nat) (w : Word)
  : WordRecord :=
  {| document := basename file_path; page := Z.of_nat page_idx + 1;
     word := value w; bounding_box := corners w |}.

(** One record per word, page after page, the pages numbered onwards from
    [page_idx + 1]. *)
Fixpoint numbered_records (file_path : pystr) (page_idx : nat)
         (pages : list Page) : list WordRecord :=
  match pages with
  | [] => []
  | p :: rest =>
      map (record_of file_path page_idx) (words_of_page p)
      ++ numbered_records file_path (S page_idx) rest
  end.

(** The name [process_file] gives the folder of a document's images. *)
Definition doc_name_of (file_path : pystr) : pystr :=
  replace (basename file_path) (str ".") (str "_").

(** The image a page is annotated on, and the annotated image. *)
Definition page_image_path (file_path : pystr) (page_idx : nat) : pystr :=
  if is_image file_path then file_path
  else path_join (path_join logs_dir (doc_name_of file_path))
                 (doc_name_of file_path ++ str "_page_"
                  ++ int_repr (Z.of_nat page_idx + 1) ++ str ".jpg").

Definition annotated_path (file_path : pystr) (page_idx : nat) : pystr :=
  path_join (path_join logs_dir (doc_name_of file_path))
            (str "annotated_" ++ doc_name_of file_path ++ str "_page_"
             ++ int_repr (Z.of_nat page_idx + 1) ++ str ".jpg").

(** A two-page document: two words on the first page, one on the second. *)
Definition two_pages : list Page :=
  [ {| blocks := [ {| lines := [ {| words :=
         [ {| value := str "Invoice"; geometry := [[0.1; 0.25]; [0.5; 0.9]]%float |};
           {| value := str "total"; geometry := [[0.1; 0.25]; [0.5; 0.9]]%float |} ]
       |} ] |} ] |};
    one_word_page (str "Total") [[0.1; 0.25]; [0.5; 0.9]]%float ].

(** A three-page document whose second page has a word with one point. *)
Definition broken_pages : list Page :=
  [ one_word_page (str "Invoice") [[0.1; 0.25]; [0.5; 0.9]]%float;
    {| blocks := [ {| lines := [ {| words :=
         [ {| value := str "total"; geometry := [[0.1; 0.25]; [0.5; 0.9]]%float |};
           {| value := str "smudge"; geometry := [[0.1; 0.25]]%float |} ]
       |} ] |} ] |};
    one_word_page (str "Total") [[0.1; 0.25]; [0.5; 0.9]]%float ].

Definition pages_env (pages : list Page) : env :=
  with_listdir [str "a.pdf"] (with_ocr (fun _ _ => Done pages) quiet_env).

(** An environment with two directories, "docs" and "other". *)
Definition two_dirs_env : env :=
  {| isdir := fun p => pystr_eqb p (str "docs") || pystr_eqb p (str "other");
     open_w_error := fun _ => None;
     listdir := fun _ => [];
     temp_dir := str "/tmp/tmpdir";
     soffice := fun _ => None;
     ocr := fun _ _ => Done [];
     rasterize := fun _ _ => None;
     image_size := fun _ => Done (1000, 2000)%Z;
     draw_error := fun _ => None;
     save_error := fun _ => None |}.

(* ================================================================= *)
(** * Properties *)

Unset Implicit Arguments.

(** ** Strings *)

Lemma pystr_eqb_eq (a b : pystr) : pystr_eqb a b = true <-> a = b.
Proof.
  revert b; induction a as [|x a IH]; intros [|y b]; simpl; split;
    try congruence; try reflexivity.
  - intros H. apply andb_true_iff in H as [H1 H2].
    apply N.eqb_eq in H1. apply IH in H2. congruence.
  - intros H. injection H as -> ->. rewrite N.eqb_refl. simpl.
    apply IH. reflexivity.
Qed.

Lemma pystr_eqb_refl (a : pystr) : pystr_eqb a a = true.
Proof. apply pystr_eqb_eq. reflexivity. Qed.


(** ** Paths *)

Lemma take_while_app_stop (p : N -> bool) (l1 l2 : pystr) (c : N) :
  Forall (fun x => p x = true) l1 -> p c = false ->
  take_while p (l1 ++ c :: l2) = l1.
Proof.
  induction 1 as [|x l1 Hx _ IH]; intros Hc; cbn.
  - rewrite Hc. reflexivity.
  - rewrite Hx, (IH Hc). reflexivity.
Qed.

Lemma take_while_all (p : N -> bool) (l : pystr) :
  Forall (fun x => p x = true) l -> take_while p l = l.
Proof.
  induction 1 as [|x l Hx _ IH]; cbn; [reflexivity|].
  rewrite Hx, IH. reflexivity.
Qed.

Lemma no_slash_rev_test (b : pystr) :
  no_slash b -> Forall (fun x => negb (x =? SLASH) = true) (rev b).
Proof.
  intros H. apply Forall_rev. eapply Forall_impl; [|exact H].
  intros c Hc. cbv beta. apply negb_true_iff. apply N.eqb_neq. exact Hc.
Qed.

Lemma basename_after_slash (a b : pystr) :
  no_slash b -> basename (a ++ SLASH :: b) = b.
Proof.
  intros Hb. unfold basename.
  rewrite rev_app_distr. cbn [rev]. rewrite <- List.app_assoc. cbn [app].
  rewrite take_while_app_stop.
  - apply rev_involutive.
  - apply no_slash_rev_test. exact Hb.
  - reflexivity.
Qed.

Lemma basename_no_slash (b : pystr) : no_slash b -> basename b = b.
Proof.
  intros Hb. unfold basename. rewrite take_while_all.
  - apply rev_involutive.
  - apply no_slash_rev_test. exact Hb.
Qed.

Lemma basename_path_join (a b : pystr) :
  no_slash b -> basename (path_join a b) = b.
Proof.
  intros Hb. unfold path_join.
  destruct (startswith b [SLASH]) eqn:Hs.
  - apply basename_no_slash. exact Hb.
  - destruct (pystr_eqb a []) eqn:Ha.
    + apply pystr_eqb_eq in Ha. subst a. cbn. apply basename_no_slash. exact Hb.
    + cbn [orb]. destruct (endswith a [SLASH]) eqn:He.
      * unfold endswith in He. cbn [rev app] in He.
        destruct (rev a) as [|c t] eqn:Hr; [discriminate|].
        cbn [startswith] in He. apply andb_true_iff in He as [He _].
        apply N.eqb_eq in He. subst c.
        assert (Ha' : a = rev t ++ [SLASH]).
        { rewrite <- (rev_involutive a), Hr. reflexivity. }
        rewrite Ha', <- List.app_assoc. cbn [app].
        apply basename_after_slash. exact Hb.
      * apply basename_after_slash. exact Hb.
Qed.

Lemma glob_star_in (E : env) (folder suffix f : pystr) :
  In f (glob_star E folder suffix) ->
  exists name, In name (listdir E folder) /\ endswith name suffix = true
               /\ f = path_join folder name.
Proof.
  unfold glob_star. intros H. apply in_map_iff in H as (name & <- & Hin).
  apply filter_In in Hin as [Hin Hm]. apply andb_true_iff in Hm as [Hm _].
  exists name. auto.
Qed.


(** ** Decimal texts of integers *)

Lemma text_uint_uint_text (d : Decimal.uint) : text_uint (uint_text d) = d.
Proof. induction d; cbn; rewrite ?IHd; reflexivity. Qed.

Lemma uint_text_digits (d : Decimal.uint) : Forall (fun c => is_digit c = true) (uint_text d).
Proof. induction d; cbn; constructor; auto. Qed.

Lemma span_digits_app (ds rest : pystr) :
  Forall (fun c => is_digit c = true) ds -> head_is_digit rest = false ->
  span_digits (ds ++ rest) = (ds, rest).
Proof.
  intros Hds Hrest. induction Hds as [|c ds Hc _ IH]; cbn [app].
  - destruct rest as [|c r]; [reflexivity|].
    cbn in Hrest. cbn. rewrite Hrest. reflexivity.
  - cbn [span_digits]. rewrite Hc, IH. reflexivity.
Qed.

Lemma nzhead_head (d : Decimal.uint) :
  match Decimal.nzhead d with
  | Decimal.D0 _ => False
  | _ => True
  end.
Proof. induction d; cbn; auto. Qed.

Lemma unorm_canonical (d : Decimal.uint) : canonical (Decimal.unorm d).
Proof.
  unfold Decimal.unorm. pose proof (nzhead_head d) as H.
  destruct (Decimal.nzhead d); try contradiction; try exact I; reflexivity.
Qed.

Lemma to_uint_canonical (n : N) : canonical (N.to_uint n).
Proof.
  rewrite <- (DecimalN.Unsigned.of_to n) at 1.
  rewrite DecimalN.Unsigned.to_of. apply unorm_canonical.
Qed.

Lemma lex_int_canonical (d : Decimal.uint) (rest : pystr) :
  canonical d -> head_is_digit rest = false ->
  lex_int (uint_text d ++ rest) = Some (uint_text d, rest)
  /\ lex_int (MINUS :: uint_text d ++ rest) = Some (MINUS :: uint_text d, rest).
Proof.
  intros Hd Hrest.
  assert (Hspan : forall r, span_digits (uint_text r ++ rest) = (uint_text r, rest)).
  { intros r. apply span_digits_app; [apply uint_text_digits | exact Hrest]. }
  destruct d; cbn in Hd; try contradiction; subst;
    unfold lex_int; cbn [uint_text app]; cbn -[span_digits uint_text];
    rewrite ?Hspan; split; reflexivity.
Qed.

Lemma int_repr_lex (z : Z) (rest : pystr) :
  head_is_digit rest = false ->
  lex_int (int_repr z ++ rest) = Some (int_repr z, rest).
Proof.
  intros Hrest. unfold int_repr.
  destruct (lex_int_canonical (N.to_uint (Z.abs_N z)) rest
              (to_uint_canonical _) Hrest) as [Hpos Hneg].
  destruct (z <? 0)%Z; [exact Hneg | exact Hpos].
Qed.

Lemma uint_text_head (d : Decimal.uint) :
  canonical d -> exists c r, uint_text d = c :: r /\ is_digit c = true.
Proof.
  destruct d; cbn; intros H; try contradiction; eexists _, _; split; reflexivity.
Qed.

Lemma int_of_text_int_repr (z : Z) : int_of_text (int_repr z) = z.
Proof.
  unfold int_repr.
  destruct (uint_text_head (N.to_uint (Z.abs_N z)) (to_uint_canonical _))
    as (c & r & Htext & Hc).
  destruct (z <? 0)%Z eqn:Hz.
  - cbn [int_of_text]. rewrite N.eqb_refl.
    rewrite text_uint_uint_text, DecimalN.Unsigned.of_to.
    apply Z.ltb_lt in Hz. rewrite N2Z.inj_abs_N. lia.
  - rewrite Htext. cbn [int_of_text].
    assert (Hm : (c =? MINUS) = false).
    { unfold is_digit in Hc. apply andb_true_iff in Hc as [H1 H2].
      apply N.leb_le in H1. apply N.eqb_neq. unfold MINUS. lia. }
    rewrite Hm, <- Htext, text_uint_uint_text, DecimalN.Unsigned.of_to.
    apply Z.ltb_ge in Hz. rewrite N2Z.inj_abs_N. lia.
Qed.

(** ** The number pattern on a text followed by a delimiter *)

Lemma token_end_not_digit (rest : pystr) :
  token_end rest -> head_is_digit rest = false.
Proof. destruct rest as [|c r]; cbn; [reflexivity|]. intros [->| ->]; reflexivity. Qed.

Lemma lex_frac_end (rest : pystr) : token_end rest -> lex_frac rest = ([], rest).
Proof. destruct rest as [|c r]; cbn; [reflexivity|]. intros [->| ->]; reflexivity. Qed.

Lemma lex_exp_end (rest : pystr) : token_end rest -> lex_exp rest = ([], rest).
Proof. destruct rest as [|c r]; cbn; [reflexivity|]. intros [->| ->]; reflexivity. Qed.

Lemma match_number_int_repr (z : Z) (rest : pystr) :
  token_end rest ->
  match_number (int_repr z ++ rest) = Some (int_repr z, [], [], rest).
Proof.
  intros H. unfold match_number.
  rewrite (int_repr_lex z rest (token_end_not_digit rest H)).
  rewrite (lex_frac_end rest H), (lex_exp_end rest H). reflexivity.
Qed.

Lemma span_digits_append (s rest : pystr) :
  head_is_digit rest = false ->
  span_digits (s ++ rest) = (fst (span_digits s), snd (span_digits s) ++ rest).
Proof.
  intros Hrest. induction s as [|c s IH]; cbn [app span_digits].
  - destruct rest as [|c r]; [reflexivity|].
    cbn in Hrest. cbn. rewrite Hrest. reflexivity.
  - destruct (is_digit c); [|reflexivity].
    rewrite IH. destruct (span_digits s). reflexivity.
Qed.

Lemma span_digits_split (s : pystr) :
  s = fst (span_digits s) ++ snd (span_digits s).
Proof.
  induction s as [|c s IH]; cbn; [reflexivity|].
  destruct (is_digit c); [|reflexivity].
  destruct (span_digits s) as [d t]. cbn in *. congruence.
Qed.

Lemma lex_int_append (s rest i r : pystr) :
  head_is_digit rest = false ->
  lex_int s = Some (i, r) -> lex_int (s ++ rest) = Some (i, r ++ rest).
Proof.
  intros Hrest. unfold lex_int.
  assert (Hbody : forall sign s1,
             match s1 with
             | [] => None
             | c :: r0 =>
                 if c =? 48 then Some (sign ++ [c], r0)
                 else if is_digit c
                      then let (d, t) := span_digits r0 in Some (sign ++ c :: d, t)
                      else None
             end = Some (i, r) ->
             match s1 ++ rest with
             | [] => None
             | c :: r0 =>
                 if c =? 48 then Some (sign ++ [c], r0)
                 else if is_digit c
                      then let (d, t) := span_digits r0 in Some (sign ++ c :: d, t)
                      else None
             end = Some (i, r ++ rest)).
  { intros sign [|c r0]; [discriminate|]. cbn [app].
    destruct (c =? 48).
    - intros H. injection H as <- <-. reflexivity.
    - destruct (is_digit c); [|discriminate].
      rewrite (span_digits_append r0 rest Hrest).
      destruct (span_digits r0) as [d t]. cbn [fst snd].
      intros H. injection H as <- <-. reflexivity. }
  destruct s as [|c s']; [discriminate|]. cbn [app].
  destruct (c =? MINUS).
  - apply Hbody.
  - apply (Hbody [] (c :: s')).
Qed.

Lemma lex_int_split (s i r : pystr) : lex_int s = Some (i, r) -> s = i ++ r.
Proof.
  unfold lex_int.
  assert (Hbody : forall sign s1,
             match s1 with
             | [] => None
             | c :: r0 =>
                 if c =? 48 then Some (sign ++ [c], r0)
                 else if is_digit c
                      then let (d, t) := span_digits r0 in Some (sign ++ c :: d, t)
                      else None
             end = Some (i, r) -> sign ++ s1 = i ++ r).
  { intros sign [|c r0]; [discriminate|].
    destruct (c =? 48).
    - intros H. injection H as <- <-. rewrite <- List.app_assoc. reflexivity.
    - destruct (is_digit c); [|discriminate].
      pose proof (span_digits_split r0) as Hs.
      destruct (span_digits r0) as [d t]. cbn [fst snd] in Hs.
      intros H. injection H as <- <-. rewrite <- List.app_assoc. cbn [app].
      congruence. }
  destruct s as [|c s']; [discriminate|].
  destruct (c =? MINUS) eqn:Hc.
  - apply N.eqb_eq in Hc. subst c. apply (Hbody [MINUS] s').
  - apply (Hbody [] (c :: s')).
Qed.

Lemma lex_int_head (s i r : pystr) :
  lex_int s = Some (i, r) ->
  exists c t, s = c :: t /\ ((c =? MINUS) || is_digit c) = true.
Proof.
  unfold lex_int. destruct s as [|c s']; [discriminate|].
  destruct (c =? MINUS) eqn:Hc.
  - intros _. exists c, s'. rewrite Hc. auto.
  - destruct (c =? 48) eqn:H0.
    + intros _. exists c, s'. apply N.eqb_eq in H0. subst c. auto.
    + destruct (is_digit c) eqn:Hd; [|discriminate].
      intros _. exists c, s'. rewrite Hd, orb_true_r. auto.
Qed.

Lemma lex_frac_append (s rest : pystr) :
  token_end rest ->
  lex_frac (s ++ rest) = (fst (lex_frac s), snd (lex_frac s) ++ rest).
Proof.
  intros Hrest. destruct s as [|c r]; cbn [app].
  - rewrite (lex_frac_end rest Hrest). reflexivity.
  - unfold lex_frac. destruct (c =? 46); [|reflexivity].
    rewrite (span_digits_append r rest (token_end_not_digit rest Hrest)).
    destruct (span_digits r) as [[|d0 d] t]; reflexivity.
Qed.

Lemma lex_frac_split (s : pystr) : s = fst (lex_frac s) ++ snd (lex_frac s).
Proof.
  destruct s as [|c r]; [reflexivity|]. unfold lex_frac.
  destruct (c =? 46); [|reflexivity].
  pose proof (span_digits_split r) as Hs.
  destruct (span_digits r) as [[|d0 d] t]; cbn [fst snd app] in *; [reflexivity|].
  congruence.
Qed.

Lemma lex_exp_append (s rest : pystr) :
  token_end rest ->
  lex_exp (s ++ rest) = (fst (lex_exp s), snd (lex_exp s) ++ rest).
Proof.
  intros Hrest. destruct s as [|c r]; cbn [app].
  - rewrite (lex_exp_end rest Hrest). reflexivity.
  - unfold lex_exp. destruct ((c =? 101) || (c =? 69)); [|reflexivity].
    assert (Hd := token_end_not_digit rest Hrest).
    destruct r as [|x r']; cbn [app].
    + cbn [span_digits fst snd].
      destruct rest as [|y rest']; [reflexivity|].
      cbn in Hd. destruct Hrest as [->| ->]; reflexivity.
    + destruct ((x =? MINUS) || (x =? 43)).
      * rewrite (span_digits_append r' _ Hd).
        destruct (span_digits r') as [[|d0 d] t]; reflexivity.
      * change (x :: r' ++ rest) with ((x :: r') ++ rest).
        rewrite (span_digits_append (x :: r') _ Hd).
        destruct (span_digits (x :: r')) as [[|d0 d] t]; reflexivity.
Qed.

Lemma lex_exp_split (s : pystr) : s = fst (lex_exp s) ++ snd (lex_exp s).
Proof.
  destruct s as [|c r]; [reflexivity|]. unfold lex_exp.
  destruct ((c =? 101) || (c =? 69)); [|reflexivity].
  destruct r as [|x r'].
  - reflexivity.
  - destruct ((x =? MINUS) || (x =? 43)).
    + pose proof (span_digits_split r') as Hs.
      destruct (span_digits r') as [[|d0 d] t]; cbn [fst snd app] in *;
        [reflexivity|]. congruence.
    + pose proof (span_digits_split (x :: r')) as Hs.
      destruct (span_digits (x :: r')) as [[|d0 d] t]; cbn [fst snd app] in *;
        [reflexivity|]. congruence.
Qed.

Lemma match_number_append (t rest i f e : pystr) :
  token_end rest ->
  match_number t = Some (i, f, e, []) ->
  match_number (t ++ rest) = Some (i, f, e, rest) /\ t = i ++ f ++ e.
Proof.
  intros Hrest. unfold match_number.
  destruct (lex_int t) as [[i0 s1]|] eqn:Hi; [|discriminate].
  rewrite (lex_int_append t rest i0 s1 (token_end_not_digit rest Hrest) Hi).
  rewrite (lex_frac_append s1 rest Hrest).
  pose proof (lex_frac_split s1) as Hf.
  destruct (lex_frac s1) as [f0 s2]. cbn [fst snd] in *.
  rewrite (lex_exp_append s2 rest Hrest).
  pose proof (lex_exp_split s2) as He.
  destruct (lex_exp s2) as [e0 s3]. cbn [fst snd] in *.
  intros H. injection H as <- <- <- ->. split; [reflexivity|].
  apply lex_int_split in Hi. rewrite List.app_nil_r in He. congruence.
Qed.

(** ** Escapes: arithmetic *)

Lemma below_forallb (k : nat) (P : N -> bool) :
  forallb P (map N.of_nat (seq 0 k)) = true ->
  forall n, n < N.of_nat k -> P n = true.
Proof.
  intros H n Hn. rewrite forallb_forall in H. apply H.
  apply in_map_iff. exists (N.to_nat n). split; [apply N2Nat.id|].
  apply in_seq. lia.
Qed.

Lemma hex_val_hex_char (d : N) : d < 16 -> hex_val (hex_char d) = Some d.
Proof.
  intros Hd.
  assert (H : (match hex_val (hex_char d) with
               | Some x => x =? d
               | None => false
               end) = true).
  { apply (below_forallb 16 (fun d => match hex_val (hex_char d) with
                                      | Some x => x =? d
                                      | None => false
                                      end)); [reflexivity | exact Hd]. }
  destruct (hex_val (hex_char d)); [|discriminate].
  apply N.eqb_eq in H. congruence.
Qed.

Lemma hex_digits_sum (n : N) :
  n < 65536 ->
  (n / 4096 mod 16) * 4096 + (n / 256 mod 16) * 256 + (n / 16 mod 16) * 16
  + n mod 16 = n.
Proof.
  intros Hn.
  assert (H1 : n = 4096 * (n / 4096) + n mod 4096) by (apply N.div_mod; discriminate).
  assert (H2 : n mod 4096 < 4096) by (apply N.mod_lt; discriminate).
  zify. Z.to_euclidean_division_equations. lia.
Qed.

Lemma decode_u_escape (n : N) (t : pystr) :
  n < 65536 ->
  exists h1 h2 h3 h4,
    u_escape n ++ t = BACKSLASH :: 117 :: h1 :: h2 :: h3 :: h4 :: t
    /\ decode_hex4 h1 h2 h3 h4 = Some n.
Proof.
  intros Hn. unfold u_escape. eexists _, _, _, _. split; [reflexivity|].
  unfold decode_hex4.
  rewrite !hex_val_hex_char by (apply N.mod_lt; discriminate).
  f_equal. apply hex_digits_sum. exact Hn.
Qed.

Lemma lor_high_bits (base x : N) :
  (base = 55296 \/ base = 56320) -> x < 1024 -> N.lor base x = base + x.
Proof.
  intros Hb Hx.
  assert (H : (N.lor 55296 x =? 55296 + x) && (N.lor 56320 x =? 56320 + x) = true).
  { apply (below_forallb 1024
             (fun x => (N.lor 55296 x =? 55296 + x) && (N.lor 56320 x =? 56320 + x)));
      [vm_compute; reflexivity | exact Hx]. }
  apply andb_true_iff in H as [H1 H2].
  apply N.eqb_eq in H1. apply N.eqb_eq in H2.
  destruct Hb as [-> | ->]; assumption.
Qed.

Lemma lor_shifted (x y : N) :
  y < 1024 -> N.lor (N.shiftl x 10) y = x * 1024 + y.
Proof.
  intros Hy. rewrite N.shiftl_mul_pow2.
  change (2 ^ 10) with 1024.
  assert (Hland : N.land (x * 2 ^ 10) y = 0).
  { apply N.bits_inj. intros i. rewrite N.land_spec, N.bits_0.
    destruct (N.lt_ge_cases i 10) as [Hi|Hi].
    - rewrite N.mul_pow2_bits_low by exact Hi. reflexivity.
    - rewrite <- (N.mod_small y (2 ^ 10)) by exact Hy.
      rewrite N.mod_pow2_bits_high by exact Hi. apply andb_false_r. }
  change (2 ^ 10) with 1024 in Hland.
  rewrite <- (N.lxor_lor _ _ Hland). symmetry. apply N.add_nocarry_lxor. exact Hland.
Qed.

Lemma surrogate_halves (c : N) :
  65536 <= c -> c < 1114112 ->
  let n := c - 65536 in
  let hi := N.lor 55296 (N.land (N.shiftr n 10) 1023) in
  let lo := N.lor 56320 (N.land n 1023) in
  hi < 65536 /\ is_high_surrogate hi = true /\ is_low_surrogate hi = false
  /\ lo < 65536 /\ is_low_surrogate lo = true
  /\ 65536 + N.lor (N.shiftl (hi - 55296) 10) (lo - 56320) = c.
Proof.
  intros Hlo Hhi. cbv zeta.
  set (n := c - 65536).
  assert (Hn : n < 1048576) by (unfold n; lia).
  change 1023 with (N.ones 10). rewrite !N.land_ones, N.shiftr_div_pow2.
  change (2 ^ 10) with 1024.
  assert (Hx : n / 1024 mod 1024 < 1024) by (apply N.mod_lt; discriminate).
  assert (Hy : n mod 1024 < 1024) by (apply N.mod_lt; discriminate).
  rewrite (lor_high_bits 55296 _ (or_introl eq_refl) Hx).
  rewrite (lor_high_bits 56320 _ (or_intror eq_refl) Hy).
  assert (Hsub : forall a b : N, a + b - a = b) by (intros; lia).
  rewrite !Hsub.
  rewrite (lor_shifted _ _ Hy).
  unfold is_high_surrogate, is_low_surrogate.
  assert (Hq : n / 1024 mod 1024 = n / 1024).
  { apply N.mod_small. apply N.Div0.div_lt_upper_bound. lia. }
  assert (Hdm : n = 1024 * (n / 1024) + n mod 1024) by (apply N.div_mod; discriminate).
  rewrite Hq in *.
  assert (Hc : c = n + 65536) by (unfold n; lia).
  clearbody n.
  set (x := n / 1024) in *. set (y := n mod 1024) in *. clearbody x y.
  repeat split.
  - lia.
  - apply andb_true_iff. split; apply N.leb_le; lia.
  - apply andb_false_iff. left. apply N.leb_gt. lia.
  - lia.
  - apply andb_true_iff. split; apply N.leb_le; lia.
  - lia.
Qed.

(** ** Escapes: the scanner on the encoder's output *)

Lemma escape_char_cases (c : N) :
  c < 1114112 ->
  (exists e, escape_char c = [BACKSLASH; e] /\ (e =? 117) = false
             /\ unescape e = Some c)
  \/ (escape_char c = [c] /\ (c =? QUOTE) = false /\ (c =? BACKSLASH) = false
      /\ (c <? 32) = false)
  \/ (escape_char c = u_escape c /\ c < 65536)
  \/ (65536 <= c
      /\ escape_char c
         = u_escape (N.lor 55296 (N.land (N.shiftr (c - 65536) 10) 1023))
           ++ u_escape (N.lor 56320 (N.land (c - 65536) 1023))).
Proof.
  intros Hc. unfold escape_char.
  destruct (c =? BACKSLASH) eqn:H1.
  { apply N.eqb_eq in H1. subst c. left. exists BACKSLASH. auto. }
  destruct (c =? QUOTE) eqn:H2.
  { apply N.eqb_eq in H2. subst c. left. exists QUOTE. auto. }
  destruct (c =? 8) eqn:H3.
  { apply N.eqb_eq in H3. subst c. left. exists 98. auto. }
  destruct (c =? 12) eqn:H4.
  { apply N.eqb_eq in H4. subst c. left. exists 102. auto. }
  destruct (c =? 10) eqn:H5.
  { apply N.eqb_eq in H5. subst c. left. exists 110. auto. }
  destruct (c =? 13) eqn:H6.
  { apply N.eqb_eq in H6. subst c. left. exists 114. auto. }
  destruct (c =? 9) eqn:H7.
  { apply N.eqb_eq in H7. subst c. left. exists 116. auto. }
  destruct ((32 <=? c) && (c <=? 126)) eqn:H8.
  { right. left. apply andb_true_iff in H8 as [H8 _]. apply N.leb_le in H8.
    repeat split; try reflexivity. apply N.ltb_ge. exact H8. }
  destruct (c <? 65536) eqn:H9.
  { right. right. left. apply N.ltb_lt in H9. auto. }
  right. right. right. apply N.ltb_ge in H9. auto.
Qed.

Lemma scanstring_quote (t : pystr) : scanstring (QUOTE :: t) = Some ([], t).
Proof. reflexivity. Qed.

Lemma scanstring_literal (c : N) (t : pystr) :
  (c =? QUOTE) = false -> (c =? BACKSLASH) = false -> (c <? 32) = false ->
  scanstring (c :: t) = prepend c (scanstring t).
Proof. intros H1 H2 H3. cbn [scanstring]. rewrite H1, H2, H3. reflexivity. Qed.

Lemma scanstring_short (e x : N) (t : pystr) :
  (e =? 117) = false -> unescape e = Some x ->
  scanstring (BACKSLASH :: e :: t) = prepend x (scanstring t).
Proof.
  intros H1 H2. cbn [scanstring].
  change (BACKSLASH =? QUOTE) with false.
  change (BACKSLASH =? BACKSLASH) with true. cbv iota.
  rewrite H1, H2. reflexivity.
Qed.

Lemma scanstring_u (h1 h2 h3 h4 uni : N) (t : pystr) :
  decode_hex4 h1 h2 h3 h4 = Some uni ->
  scanstring (BACKSLASH :: 117 :: h1 :: h2 :: h3 :: h4 :: t)
  = if is_high_surrogate uni then
      match low_surrogate_ahead t with
      | NoPair => prepend uni (scanstring t)
      | BadEscape => None
      | Pair uni2 =>
          match t with
          | _ :: _ :: _ :: _ :: _ :: _ :: r11 =>
              prepend (65536 + N.lor (N.shiftl (uni - 55296) 10) (uni2 - 56320))
                      (scanstring r11)
          | _ => None
          end
      end
    else prepend uni (scanstring t).
Proof.
  intros H. cbn [scanstring].
  change (BACKSLASH =? QUOTE) with false.
  change (BACKSLASH =? BACKSLASH) with true.
  change (117 =? 117) with true. cbv iota.
  rewrite H. reflexivity.
Qed.

Lemma ahead_not_backslash (b : N) (t : pystr) :
  (b =? BACKSLASH) = false -> low_surrogate_ahead (b :: t) = NoPair.
Proof.
  intros H. unfold low_surrogate_ahead.
  destruct t as [|u [|g1 [|g2 [|g3 [|g4 t]]]]]; try reflexivity.
  rewrite H. reflexivity.
Qed.

Lemma ahead_not_u (e : N) (t : pystr) :
  (e =? 117) = false -> low_surrogate_ahead (BACKSLASH :: e :: t) = NoPair.
Proof.
  intros H. unfold low_surrogate_ahead.
  destruct t as [|g1 [|g2 [|g3 [|g4 t]]]]; try reflexivity.
  rewrite H, andb_false_r. reflexivity.
Qed.

Lemma ahead_u (h1 h2 h3 h4 uni : N) (t : pystr) :
  decode_hex4 h1 h2 h3 h4 = Some uni ->
  low_surrogate_ahead (BACKSLASH :: 117 :: h1 :: h2 :: h3 :: h4 :: t)
  = if is_low_surrogate uni then Pair uni else NoPair.
Proof. intros H. unfold low_surrogate_ahead. cbn. rewrite H. reflexivity. Qed.

Lemma ahead_encoded (s rest : pystr) :
  forallb (fun c => c <? 1114112) s = true -> head_not_low s ->
  low_surrogate_ahead (flat_map escape_char s ++ QUOTE :: rest) = NoPair.
Proof.
  intros Hrange Hhead. destruct s as [|c s].
  - cbn [flat_map app]. apply ahead_not_backslash. reflexivity.
  - cbn [forallb] in Hrange. apply andb_true_iff in Hrange as [Hc _].
    apply N.ltb_lt in Hc. cbn in Hhead.
    cbn [flat_map]. rewrite <- List.app_assoc.
    set (t := flat_map escape_char s ++ QUOTE :: rest).
    destruct (escape_char_cases c Hc)
      as [(e & -> & He & _) | [(-> & _ & Hb & _) | [(-> & Hlt) | (Hge & ->)]]].
    + cbn [app]. apply ahead_not_u. exact He.
    + cbn [app]. apply ahead_not_backslash. exact Hb.
    + destruct (decode_u_escape c t Hlt) as (h1 & h2 & h3 & h4 & -> & Hd).
      rewrite (ahead_u _ _ _ _ _ _ Hd), Hhead. reflexivity.
    + destruct (surrogate_halves c Hge Hc) as (Hhi & _ & Hnl & _).
      rewrite <- List.app_assoc.
      destruct (decode_u_escape _ (u_escape (N.lor 56320 (N.land (c - 65536) 1023)) ++ t) Hhi)
        as (h1 & h2 & h3 & h4 & -> & Hd).
      rewrite (ahead_u _ _ _ _ _ _ Hd), Hnl. reflexivity.
Qed.

Lemma text_ok_cons (c : N) (s : pystr) :
  text_ok (c :: s) = true ->
  c < 1114112 /\ text_ok s = true
  /\ (is_high_surrogate c = true -> head_not_low s).
Proof.
  unfold text_ok. cbn [forallb no_surrogate_pair]. intros H.
  apply andb_true_iff in H as [H1 H2].
  apply andb_true_iff in H1 as [Hc Hs].
  apply andb_true_iff in H2 as [Hp Hn].
  split; [apply N.ltb_lt; exact Hc|]. split; [rewrite Hs, Hn; reflexivity|].
  intros Hh. destruct s as [|b s]; [exact I|]. cbn.
  rewrite Hh in Hp. cbn in Hp. apply negb_true_iff in Hp. exact Hp.
Qed.

Lemma scanstring_encoded (s rest : pystr) :
  text_ok s = true ->
  scanstring (flat_map escape_char s ++ QUOTE :: rest) = Some (s, rest).
Proof.
  induction s as [|c s IH]; intros Hok.
  - reflexivity.
  - apply text_ok_cons in Hok as (Hc & Hs & Hpair).
    specialize (IH Hs).
    assert (Hrange : forallb (fun c => c <? 1114112) s = true).
    { unfold text_ok in Hs. apply andb_true_iff in Hs as [Hs _]. exact Hs. }
    cbn [flat_map]. rewrite <- List.app_assoc.
    set (t := flat_map escape_char s ++ QUOTE :: rest) in *.
    destruct (escape_char_cases c Hc)
      as [(e & -> & He & Hu) | [(-> & Hq & Hb & Hl) | [(-> & Hlt) | (Hge & ->)]]].
    + cbn [app]. rewrite (scanstring_short e c t He Hu), IH. reflexivity.
    + cbn [app]. rewrite (scanstring_literal c t Hq Hb Hl), IH. reflexivity.
    + destruct (decode_u_escape c t Hlt) as (h1 & h2 & h3 & h4 & -> & Hd).
      rewrite (scanstring_u _ _ _ _ _ _ Hd).
      destruct (is_high_surrogate c) eqn:Hh.
      * unfold t at 1. rewrite (ahead_encoded s rest Hrange (Hpair eq_refl)).
        rewrite IH. reflexivity.
      * rewrite IH. reflexivity.
    + destruct (surrogate_halves c Hge Hc) as (Hhi & Hish & _ & Hlo & Hisl & Hjoin).
      rewrite <- List.app_assoc.
      destruct (decode_u_escape _ (u_escape (N.lor 56320 (N.land (c - 65536) 1023)) ++ t) Hhi)
        as (h1 & h2 & h3 & h4 & -> & Hd).
      rewrite (scanstring_u _ _ _ _ _ _ Hd), Hish.
      destruct (decode_u_escape _ t Hlo) as (g1 & g2 & g3 & g4 & -> & Hd2).
      rewrite (ahead_u _ _ _ _ _ _ Hd2), Hisl.
      rewrite IH. cbn [prepend]. rewrite Hjoin. reflexivity.
Qed.

(** ** The scanner on the encoder's output: scalars *)

Lemma pyval_induction (P : pyval -> Prop) :
  P PNone -> (forall b, P (PBool b)) -> (forall z, P (PInt z)) ->
  (forall f, P (PFloat f)) -> (forall s, P (PStr s)) ->
  (forall l, Forall P l -> P (PList l)) ->
  (forall d, Forall (fun kv => P (snd kv)) d -> P (PDict d)) ->
  forall v, P v.
Proof.
  intros Hnone Hbool Hint Hfloat Hstr Hlist Hdict.
  fix IH 1. intros [ | b | z | f | s | l | d].
  - exact Hnone.
  - apply Hbool.
  - apply Hint.
  - apply Hfloat.
  - apply Hstr.
  - apply Hlist. induction l as [|x l IHl]; constructor; [apply IH | exact IHl].
  - apply Hdict. induction d as [|[k x] d IHd]; constructor; [apply IH | exact IHd].
Qed.

Lemma value_head_facts (c : N) :
  value_head c = true ->
  is_ws c = false /\ (c =? ch "]") = false /\ (c =? ch "}") = false
  /\ (c =? ch ",") = false.
Proof.
  unfold value_head, is_digit, is_ws. intros H.
  repeat (apply orb_true_iff in H as [H|H]);
    try (apply N.eqb_eq in H; subst c; repeat split; reflexivity).
  apply andb_true_iff in H as [H1 H2].
  apply N.leb_le in H1. apply N.leb_le in H2.
  repeat split; try (apply orb_false_iff; split); repeat (apply orb_false_iff; split);
    apply N.eqb_neq; cbn; lia.
Qed.

Lemma numeric_head_scalar (c : N) (t : pystr) :
  ((c =? MINUS) || is_digit c) = true ->
  (c =? ch "{") = false /\ (c =? ch "[") = false /\ (c =? QUOTE) = false
  /\ startswith (c :: t) (str "null") = false
  /\ startswith (c :: t) (str "true") = false
  /\ startswith (c :: t) (str "false") = false.
Proof.
  intros H.
  assert (Hne : forall k, ((k =? MINUS) || is_digit k) = false -> (c =? k) = false).
  { intros k Hk. apply N.eqb_neq. intros ->. congruence. }
  repeat split; try (apply Hne; reflexivity);
    cbn [startswith str map list_ascii_of_string];
    rewrite Hne by reflexivity; reflexivity.
Qed.

Lemma uint_text_numeric (z : Z) :
  exists c t, int_repr z = c :: t /\ ((c =? MINUS) || is_digit c) = true.
Proof.
  unfold int_repr. destruct (z <? 0)%Z.
  - eexists _, _. split; reflexivity.
  - destruct (uint_text_head (N.to_uint (Z.abs_N z)) (to_uint_canonical _))
      as (c & r & -> & Hc).
    exists c, r. rewrite Hc, orb_true_r. auto.
Qed.

Lemma scan_scalar_int {FT : FloatText} (z : Z) (rest : pystr) :
  token_end rest ->
  scan_scalar (int_repr z ++ rest) = Scanned (PInt z) rest.
Proof.
  intros Hrest.
  pose proof (match_number_int_repr z rest Hrest) as Hm.
  pose proof (int_of_text_int_repr z) as Hz.
  destruct (uint_text_numeric z) as (c & t & Ht & Hc).
  rewrite Ht in *. cbn [app] in *.
  destruct (numeric_head_scalar c (t ++ rest) Hc) as (_ & _ & Hq & Hn & Htr & Hf).
  unfold scan_scalar. rewrite Hq, Hn, Htr, Hf, Hm, Hz. reflexivity.
Qed.

Lemma float_literal_scan {FT : FloatText} (f : float) (rest : pystr) :
  float_roundtrips f -> token_end rest ->
  exists c t,
    floatstr f = c :: t /\ ((c =? MINUS) || is_digit c) = true
    /\ scan_scalar (floatstr f ++ rest) = Scanned (PFloat f) rest.
Proof.
  intros (Hfin & Hlit & Hback) Hrest.
  unfold is_finite in Hfin.
  apply andb_true_iff in Hfin as [Hfin Hninf].
  apply andb_true_iff in Hfin as [Hnan Hinf].
  apply negb_true_iff in Hinf. apply negb_true_iff in Hninf.
  unfold floatstr. rewrite Hnan, Hinf, Hninf. cbn [negb].
  unfold is_float_literal in Hlit.
  destruct (match_number (float_repr f)) as [[[[i fr] e] r]|] eqn:Hm;
    [|discriminate].
  destruct r; [|discriminate].
  destruct (match_number_append _ rest _ _ _ Hrest Hm) as [Happ Hsplit].
  assert (Hhead : exists c t, float_repr f = c :: t
                              /\ ((c =? MINUS) || is_digit c) = true).
  { unfold match_number in Hm.
    destruct (lex_int (float_repr f)) as [[i0 s1]|] eqn:Hi; [|discriminate].
    exact (lex_int_head _ _ _ Hi). }
  destruct Hhead as (c & t & Ht & Hc).
  exists c, t. split; [exact Ht|]. split; [exact Hc|].
  rewrite Ht in Happ. cbn [app] in Happ.
  destruct (numeric_head_scalar c (t ++ rest) Hc) as (_ & _ & Hq & Hn & Htr & Hfa).
  rewrite Ht. cbn [app]. unfold scan_scalar.
  rewrite Hq, Hn, Htr, Hfa, Happ.
  assert (Hval : float_of_string (i ++ fr ++ e) = f)
    by (rewrite <- Hsplit; exact Hback).
  destruct fr; destruct e; try discriminate; rewrite Hval; reflexivity.
Qed.

Lemma scan_scalar_string {FT : FloatText} (s rest : pystr) :
  text_ok s = true ->
  scan_scalar (encode_basestring_ascii s ++ rest) = Scanned (PStr s) rest.
Proof.
  intros Hok. unfold encode_basestring_ascii. cbn [app].
  rewrite <- List.app_assoc. cbn [app].
  unfold scan_scalar. change (QUOTE =? QUOTE) with true. cbv iota.
  rewrite (scanstring_encoded s rest Hok). reflexivity.
Qed.

(** ** The scanner, one step at a time *)

Lemma scan_once_scalar {FT : FloatText} (n : nat) (c : N) (t : pystr) :
  (c =? ch "{") = false -> (c =? ch "[") = false ->
  scan_once (S n) (c :: t) = scan_scalar (c :: t).
Proof. intros H1 H2. cbn [scan_once]. rewrite H1, H2. reflexivity. Qed.

Lemma scan_once_empty_list {FT : FloatText} (n : nat) (r r1 : pystr) :
  skip_ws r = ch "]" :: r1 ->
  scan_once (S n) (ch "[" :: r) = Scanned (PList []) r1.
Proof. intros H. cbn [scan_once]. rewrite H. reflexivity. Qed.

Lemma scan_once_list {FT : FloatText} (n : nat) (r r1 : pystr) (c1 : N) :
  skip_ws r = c1 :: r1 -> (c1 =? ch "]") = false ->
  scan_once (S n) (ch "[" :: r) = scan_elements n (c1 :: r1) [].
Proof.
  intros H H1. cbn [scan_once].
  change (ch "[" =? ch "{") with false. change (ch "[" =? ch "[") with true.
  cbv iota. rewrite H, H1. reflexivity.
Qed.

Lemma scan_once_empty_dict {FT : FloatText} (n : nat) (r r1 : pystr) :
  skip_ws r = ch "}" :: r1 ->
  scan_once (S n) (ch "{" :: r) = Scanned (PDict []) r1.
Proof. intros H. cbn [scan_once]. rewrite H. reflexivity. Qed.

Lemma scan_once_dict {FT : FloatText} (n : nat) (r r1 : pystr) :
  skip_ws r = QUOTE :: r1 ->
  scan_once (S n) (ch "{" :: r) = scan_members n r1 [].
Proof. intros H. cbn [scan_once]. rewrite H. reflexivity. Qed.

Lemma scan_elements_last {FT : FloatText} (m : nat) (s s1 r : pystr)
      (v : pyval) (acc : list pyval) :
  scan_once m s = Scanned v s1 -> skip_ws s1 = ch "]" :: r ->
  scan_elements (S m) s acc = Scanned (PList (rev (v :: acc))) r.
Proof. intros H1 H2. cbn [scan_elements]. rewrite H1, H2. reflexivity. Qed.

Lemma scan_elements_more {FT : FloatText} (m : nat) (s s1 r : pystr)
      (v : pyval) (acc : list pyval) :
  scan_once m s = Scanned v s1 -> skip_ws s1 = ch "," :: r ->
  scan_elements (S m) s acc = scan_elements m (skip_ws r) (v :: acc).
Proof. intros H1 H2. cbn [scan_elements]. rewrite H1, H2. reflexivity. Qed.

Lemma scan_members_last {FT : FloatText} (m : nat) (s s1 s2 s3 r key : pystr)
      (v : pyval) (acc : list (pystr * pyval)) :
  scanstring s = Some (key, s1) -> skip_ws s1 = ch ":" :: s2 ->
  scan_once m (skip_ws s2) = Scanned v s3 -> skip_ws s3 = ch "}" :: r ->
  scan_members (S m) s acc
  = Scanned (PDict (dict_of_pairs (rev ((key, v) :: acc)))) r.
Proof.
  intros H1 H2 H3 H4. cbn [scan_members]. rewrite H1, H2.
  change (ch ":" =? ch ":") with true. cbv iota. rewrite H3, H4. reflexivity.
Qed.

Lemma scan_members_more {FT : FloatText} (m : nat) (s s1 s2 s3 r r' key : pystr)
      (v : pyval) (acc : list (pystr * pyval)) :
  scanstring s = Some (key, s1) -> skip_ws s1 = ch ":" :: s2 ->
  scan_once m (skip_ws s2) = Scanned v s3 -> skip_ws s3 = ch "," :: r ->
  skip_ws r = QUOTE :: r' ->
  scan_members (S m) s acc = scan_members m r' ((key, v) :: acc).
Proof.
  intros H1 H2 H3 H4 H5. cbn [scan_members]. rewrite H1, H2.
  change (ch ":" =? ch ":") with true. cbv iota. rewrite H3, H4.
  change (ch "," =? ch "}") with false. change (ch "," =? ch ",") with true.
  cbv iota. rewrite H5. reflexivity.
Qed.

(** ** Whitespace and the heads of encoded values *)

Lemma skip_ws_spaces (n : nat) (s : pystr) : skip_ws (repeat 32 n ++ s) = skip_ws s.
Proof. induction n as [|n IH]; [reflexivity | exact IH]. Qed.

Lemma skip_ws_indent {FT : FloatText} (level : nat) (s : pystr) :
  skip_ws (newline_indent level ++ s) = skip_ws s.
Proof. unfold newline_indent. cbn [app]. apply (skip_ws_spaces (2 * level) s). Qed.

Lemma skip_ws_head (c : N) (t : pystr) : is_ws c = false -> skip_ws (c :: t) = c :: t.
Proof. intros H. unfold skip_ws. cbn [drop_while]. rewrite H. reflexivity. Qed.

Lemma numeric_value_head (c : N) :
  ((c =? MINUS) || is_digit c) = true -> value_head c = true.
Proof.
  unfold value_head. intros H. apply orb_true_iff in H as [H|H]; rewrite H;
    rewrite ?orb_true_r; reflexivity.
Qed.

Lemma encode_head {FT : FloatText} (v : pyval) (level : nat) :
  serializable v ->
  exists c t, encode level v = c :: t /\ value_head c = true.
Proof.
  intros Hv. destruct Hv as [ | b | z | f Hf | s Hs | l Hl | d Hn Hd].
  - eexists _, _. split; reflexivity.
  - destruct b; eexists _, _; split; reflexivity.
  - destruct (uint_text_numeric z) as (c & t & Ht & Hc).
    exists c, t. split; [exact Ht | apply numeric_value_head; exact Hc].
  - destruct (float_literal_scan f [] Hf I) as (c & t & Ht & Hc & _).
    exists c, t. split; [exact Ht | apply numeric_value_head; exact Hc].
  - eexists _, _. split; reflexivity.
  - destruct l; eexists _, _; split; reflexivity.
  - destruct d; eexists _, _; split; reflexivity.
Qed.

Lemma skip_ws_encode {FT : FloatText} (v : pyval) (level : nat) (rest : pystr) :
  serializable v ->
  skip_ws (encode level v ++ rest) = encode level v ++ rest.
Proof.
  intros Hv. destruct (encode_head v level Hv) as (c & t & -> & Hc).
  cbn [app]. apply skip_ws_head. apply (value_head_facts c Hc).
Qed.

(** ** The scanner on the encoder's output: arrays and objects *)

Lemma join_items_cons {FT : FloatText} (sep a b : pystr) (rest : list pystr) :
  join_items sep (a :: b :: rest) = a ++ sep ++ join_items sep (b :: rest).
Proof. reflexivity. Qed.

Lemma token_end_indent {FT : FloatText} (level : nat) (s : pystr) :
  token_end (newline_indent level ++ s).
Proof. cbn. right. reflexivity. Qed.

Lemma scan_elements_encoded {FT : FloatText} (level : nat) (rest : pystr)
      (xs : list pyval) :
  Forall (fun x => serializable x /\ scans_back x) xs ->
  forall x acc fuel,
    serializable x -> scans_back x ->
    (S (cost x + elements_cost xs) <= fuel)%nat ->
    scan_elements fuel
      (join_items (item_separator level) (map (encode (S level)) (x :: xs))
       ++ newline_indent level ++ ch "]" :: rest) acc
    = Scanned (PList (rev acc ++ x :: xs)) rest.
Proof.
  induction 1 as [|y ys [Hy Hby] _ IH]; intros x acc fuel Hx Hbx Hfuel.
  - destruct fuel as [|m]; [lia|]. cbn [map join_items].
    cbn [elements_cost fold_right] in Hfuel.
    rewrite (scan_elements_last m _ (newline_indent level ++ ch "]" :: rest) rest x acc).
    + reflexivity.
    + apply Hbx; [lia | apply token_end_indent].
    + rewrite skip_ws_indent. reflexivity.
  - destruct fuel as [|m]; [lia|].
    cbn [map]. rewrite join_items_cons. rewrite <- !List.app_assoc.
    cbn [elements_cost fold_right] in Hfuel. fold (elements_cost ys) in Hfuel.
    unfold item_separator at 1. cbn [app].
    rewrite (scan_elements_more m _
               (ch "," :: newline_indent (S level)
                ++ join_items (item_separator level)
                     (encode (S level) y :: map (encode (S level)) ys)
                ++ newline_indent level ++ ch "]" :: rest)
               (newline_indent (S level)
                ++ join_items (item_separator level)
                     (encode (S level) y :: map (encode (S level)) ys)
                ++ newline_indent level ++ ch "]" :: rest) x acc).
    + rewrite skip_ws_indent.
      assert (Hskip : forall t,
                 skip_ws (join_items (item_separator level)
                            (encode (S level) y :: map (encode (S level)) ys) ++ t)
                 = join_items (item_separator level)
                     (encode (S level) y :: map (encode (S level)) ys) ++ t).
      { intros t. destruct (encode_head y (S level) Hy) as (c & u & Hc & Hv).
        destruct (map (encode (S level)) ys) as [|z zs].
        - cbn [join_items]. apply skip_ws_encode. exact Hy.
        - rewrite join_items_cons, <- List.app_assoc. apply skip_ws_encode. exact Hy. }
      rewrite Hskip.
      change (encode (S level) y :: map (encode (S level)) ys)
        with (map (encode (S level)) (y :: ys)).
      rewrite (IH y (x :: acc) m Hy Hby) by lia.
      cbn [rev]. rewrite <- List.app_assoc. reflexivity.
    + apply Hbx; [lia|]. cbn. left. reflexivity.
    + reflexivity.
Qed.

Lemma member_text_split {FT : FloatText} (level : nat) (k : pystr) (v : pyval)
      (t : pystr) :
  member_text level (k, v) ++ t
  = QUOTE :: flat_map escape_char k
    ++ QUOTE :: ch ":" :: 32 :: encode (S level) v ++ t.
Proof.
  unfold member_text, encode_basestring_ascii. cbn [fst snd app].
  rewrite <- !List.app_assoc. reflexivity.
Qed.

Lemma scan_members_encoded {FT : FloatText} (level : nat) (rest : pystr)
      (d : list (pystr * pyval)) :
  Forall (fun kv => text_ok (fst kv) = true /\ serializable (snd kv)
                    /\ scans_back (snd kv)) d ->
  forall k v acc fuel body,
    text_ok k = true -> serializable v -> scans_back v ->
    (S (cost v + members_cost d) <= fuel)%nat ->
    QUOTE :: body
    = join_items (item_separator level) (map (member_text level) ((k, v) :: d))
      ++ newline_indent level ++ ch "}" :: rest ->
    scan_members fuel body acc
    = Scanned (PDict (dict_of_pairs (rev acc ++ (k, v) :: d))) rest.
Proof.
  induction 1 as [|[k' v'] d' (Hk' & Hv' & Hb') _ IH];
    intros k v acc fuel body Hk Hv Hb Hfuel Hbody.
  - destruct fuel as [|m]; [lia|].
    cbn [map join_items] in Hbody. rewrite member_text_split in Hbody.
    injection Hbody as ->.
    cbn [members_cost fold_right] in Hfuel.
    rewrite (scan_members_last m _ _ (32 :: encode (S level) v
                                      ++ newline_indent level ++ ch "}" :: rest)
               (newline_indent level ++ ch "}" :: rest) rest k v acc
               (scanstring_encoded k _ Hk)).
    + reflexivity.
    + reflexivity.
    + change (skip_ws (32 :: ?t)) with (skip_ws t).
      rewrite (skip_ws_encode v (S level) _ Hv).
      apply Hb; [lia | apply token_end_indent].
    + rewrite skip_ws_indent. reflexivity.
  - destruct fuel as [|m]; [lia|].
    cbn [map] in Hbody. rewrite join_items_cons in Hbody.
    rewrite <- !List.app_assoc in Hbody. rewrite member_text_split in Hbody.
    injection Hbody as ->.
    cbn [members_cost fold_right snd] in Hfuel. fold (members_cost d') in Hfuel.
    set (tail := join_items (item_separator level)
                   (member_text level (k', v') :: map (member_text level) d')
                 ++ newline_indent level ++ ch "}" :: rest).
    assert (Htail : exists body', tail = QUOTE :: body').
    { unfold tail. destruct (map (member_text level) d') as [|z zs].
      - cbn [join_items]. rewrite member_text_split. eexists. reflexivity.
      - rewrite join_items_cons, <- List.app_assoc, member_text_split.
        eexists. reflexivity. }
    destruct Htail as (body' & Htail).
    rewrite (scan_members_more m _ _ (32 :: encode (S level) v
                                      ++ item_separator level ++ tail)
               (item_separator level ++ tail)
               (newline_indent (S level) ++ tail) body' k v acc
               (scanstring_encoded k _ Hk)).
    + rewrite (IH k' v' ((k, v) :: acc) m body' Hk' Hv' Hb').
      * cbn [rev]. rewrite <- List.app_assoc. reflexivity.
      * lia.
      * rewrite <- Htail. reflexivity.
    + reflexivity.
    + change (skip_ws (32 :: ?t)) with (skip_ws t).
      rewrite (skip_ws_encode v (S level) _ Hv).
      apply Hb; [lia|]. cbn. left. reflexivity.
    + reflexivity.
    + rewrite skip_ws_indent, Htail. reflexivity.
Qed.

Lemma dict_set_fresh (d : list (pystr * pyval)) (k : pystr) (v : pyval) :
  ~ In k (map fst d) -> dict_set d k v = d ++ [(k, v)].
Proof.
  induction d as [|[k' v'] d IH]; intros Hk; cbn [dict_set app].
  - reflexivity.
  - cbn [map fst In] in Hk.
    destruct (pystr_eqb k' k) eqn:He.
    + apply pystr_eqb_eq in He. tauto.
    + rewrite IH by tauto. reflexivity.
Qed.

Lemma dict_of_pairs_from (d acc : list (pystr * pyval)) :
  NoDup (map fst (acc ++ d)) ->
  fold_left (fun d kv => dict_set d (fst kv) (snd kv)) d acc = acc ++ d.
Proof.
  revert acc. induction d as [|[k v] d IH]; intros acc Hnd; cbn [fold_left].
  - symmetry. apply List.app_nil_r.
  - cbn [fst snd]. rewrite dict_set_fresh.
    + rewrite IH.
      * rewrite <- List.app_assoc. reflexivity.
      * rewrite <- List.app_assoc. exact Hnd.
    + rewrite map_app in Hnd. cbn [map fst] in Hnd.
      apply NoDup_remove_2 in Hnd. intros Hin. apply Hnd.
      apply in_or_app. left. exact Hin.
Qed.

Lemma dict_of_pairs_nodup (d : list (pystr * pyval)) :
  NoDup (map fst d) -> dict_of_pairs d = d.
Proof. intros H. unfold dict_of_pairs. apply (dict_of_pairs_from d [] H). Qed.

Lemma joined_head {FT : FloatText} (sep c : pystr) (cs : list pystr) (t : pystr)
      (h : N) (u : pystr) :
  c = h :: u -> exists r, join_items sep (c :: cs) ++ t = h :: r.
Proof.
  intros ->. destruct cs as [|c' cs].
  - cbn [join_items app]. eexists. reflexivity.
  - rewrite join_items_cons. cbn [app]. eexists. reflexivity.
Qed.

(** Every serializable value is scanned back from its text. *)
Lemma encode_scans_back {FT : FloatText} (v : pyval) :
  serializable v -> scans_back v.
Proof.
  induction v as [ | b | z | f | s | l IHl | d IHd] using pyval_induction;
    intros Hser level rest fuel Hfuel Hrest;
    (destruct fuel as [|n]; [cbn in Hfuel; lia|]).
  - reflexivity.
  - destruct b; reflexivity.
  - cbn [encode]. destruct (uint_text_numeric z) as (c & t & Ht & Hc).
    pose proof (scan_scalar_int z rest Hrest) as Hscan.
    rewrite Ht in *. cbn [app] in *.
    destruct (numeric_head_scalar c (t ++ rest) Hc) as (H1 & H2 & _).
    rewrite (scan_once_scalar n c _ H1 H2). exact Hscan.
  - cbn [encode]. inversion Hser as [ | | | f' Hf | | | ]; subst.
    destruct (float_literal_scan f rest Hf Hrest) as (c & t & Ht & Hc & Hscan).
    rewrite Ht in *. cbn [app] in *.
    destruct (numeric_head_scalar c (t ++ rest) Hc) as (H1 & H2 & _).
    rewrite (scan_once_scalar n c _ H1 H2). exact Hscan.
  - cbn [encode]. inversion Hser as [ | | | | s' Hs | | ]; subst.
    pose proof (scan_scalar_string s rest Hs) as Hscan.
    unfold encode_basestring_ascii in *. cbn [app] in *.
    rewrite (scan_once_scalar n QUOTE _ eq_refl eq_refl). exact Hscan.
  - inversion Hser as [ | | | | | l' Hl | ]; subst.
    destruct l as [|x xs].
    + cbn [encode str map list_ascii_of_string app].
      apply scan_once_empty_list. reflexivity.
    + inversion Hl as [|x' xs' Hx Hxs]; subst.
      inversion IHl as [|x' xs' IHx IHxs]; subst.
      assert (Hall : Forall (fun y => serializable y /\ scans_back y) xs).
      { clear - Hxs IHxs. induction Hxs as [|y ys Hy _ IH]; constructor.
        - inversion IHxs; subst. auto.
        - apply IH. inversion IHxs; subst. assumption. }
      cbn [encode]. cbn [app]. rewrite <- !List.app_assoc. cbn [app].
      change (ch "," :: newline_indent (S level)) with (item_separator level).
      destruct (encode_head x (S level) Hx) as (c & t & Hc & Hv).
      destruct (joined_head (item_separator level) (encode (S level) x)
                  (map (encode (S level)) xs)
                  (newline_indent level ++ ch "]" :: rest) c t Hc) as (r & Hr).
      cbn [cost] in Hfuel. fold (elements_cost (x :: xs)) in Hfuel.
      cbn [elements_cost fold_right] in Hfuel. fold (elements_cost xs) in Hfuel.
      rewrite (scan_once_list n _ r c).
      * rewrite <- Hr.
        apply (scan_elements_encoded level rest xs Hall x [] n Hx (IHx Hx)). lia.
      * rewrite skip_ws_indent. cbn [map]. rewrite Hr. apply skip_ws_head.
        apply (value_head_facts c Hv).
      * apply (value_head_facts c Hv).
  - inversion Hser as [ | | | | | | d' Hnd Hd]; subst.
    destruct d as [|[k v] d].
    + cbn [encode str map list_ascii_of_string app].
      apply scan_once_empty_dict. reflexivity.
    + inversion Hd as [|kv' d' [Hk Hv] Hds]; subst. cbn [fst snd] in Hk, Hv.
      inversion IHd as [|kv' d' IHv IHds]; subst. cbn [snd] in IHv.
      assert (Hall : Forall (fun kv => text_ok (fst kv) = true
                                       /\ serializable (snd kv)
                                       /\ scans_back (snd kv)) d).
      { clear - Hds IHds. induction Hds as [|y ys [Hy1 Hy2] _ IH]; constructor.
        - inversion IHds; subst. auto.
        - apply IH. inversion IHds; subst. assumption. }
      cbn [encode]. cbn [app]. rewrite <- !List.app_assoc. cbn [app].
      change (ch "," :: newline_indent (S level)) with (item_separator level).
      change (fun kv : pystr * pyval =>
                encode_basestring_ascii (fst kv) ++ str ": "
                ++ encode (S level) (snd kv))
        with (member_text level).
      cbn [cost] in Hfuel. fold (members_cost ((k, v) :: d)) in Hfuel.
      cbn [members_cost fold_right snd] in Hfuel. fold (members_cost d) in Hfuel.
      assert (Hbody : exists body,
                 join_items (item_separator level)
                            (map (member_text level) ((k, v) :: d))
                 ++ newline_indent level ++ ch "}" :: rest = QUOTE :: body).
      { cbn [map]. apply (joined_head _ _ _ _ QUOTE
                            (flat_map escape_char k ++ [QUOTE] ++ str ": "
                             ++ encode (S level) v)).
        unfold member_text, encode_basestring_ascii. cbn [fst snd app].
        rewrite <- !List.app_assoc. reflexivity. }
      destruct Hbody as (body & Hbody).
      rewrite (scan_once_dict n _ body).
      * rewrite (scan_members_encoded level rest d Hall k v [] n body
                   Hk Hv (IHv Hv)).
        -- cbn [rev app]. rewrite (dict_of_pairs_nodup _ Hnd). reflexivity.
        -- lia.
        -- symmetry. exact Hbody.
      * rewrite skip_ws_indent.
        transitivity (skip_ws (QUOTE :: body)); [|reflexivity].
        f_equal. exact Hbody.
Qed.

(** ** The fuel of [decode] covers the text of every value *)

Lemma join_items_cost {FT : FloatText} (sep : pystr) (level : nat) (l : list pyval) :
  (2 <= length sep)%nat ->
  Forall (fun x => forall level, (cost x <= length (encode level x) + 1)%nat) l ->
  (elements_cost l <= length (join_items sep (map (encode level) l)) + 2)%nat.
Proof.
  intros Hsep Hl. induction Hl as [|x xs Hx _ IH]; [cbn; lia|].
  cbn [elements_cost fold_right]. fold (elements_cost xs).
  specialize (Hx level). destruct xs as [|y ys].
  - cbn [map join_items elements_cost fold_right]. lia.
  - cbn [map]. rewrite join_items_cons. rewrite !length_app.
    cbn [map] in IH. lia.
Qed.

Lemma join_members_cost {FT : FloatText} (sep : pystr) (level : nat)
      (d : list (pystr * pyval)) :
  (2 <= length sep)%nat ->
  Forall (fun kv => forall level,
              (cost (snd kv) <= length (encode level (snd kv)) + 1)%nat) d ->
  (members_cost d <= length (join_items sep (map (member_text level) d)) + 2)%nat.
Proof.
  intros Hsep Hd. induction Hd as [|[k v] d Hx _ IH]; [cbn; lia|].
  cbn [members_cost fold_right snd]. fold (members_cost d).
  specialize (Hx (S level)). cbn [snd] in Hx.
  assert (Hm : (length (encode (S level) v) <= length (member_text level (k, v)))%nat).
  { unfold member_text. rewrite !length_app. cbn [snd]. lia. }
  destruct d as [|kv' d'].
  - cbn [map join_items members_cost fold_right]. lia.
  - cbn [map]. rewrite join_items_cons. rewrite !length_app.
    cbn [map] in IH. lia.
Qed.

Lemma cost_le_length {FT : FloatText} (v : pyval) :
  forall level, (cost v <= length (encode level v) + 1)%nat.
Proof.
  induction v as [ | b | z | f | s | l IHl | d IHd] using pyval_induction;
    intros level; try (cbn [cost]; lia).
  - destruct l as [|x xs]; [cbn; lia|].
    pose proof (join_items_cost (item_separator level) (S level) (x :: xs)) as H.
    cbn [cost]. fold (elements_cost (x :: xs)).
    cbn [encode]. change (ch "," :: newline_indent (S level)) with (item_separator level).
    cbn [length]. rewrite !length_app. cbn [length newline_indent].
    specialize (H ltac:(cbn; lia) IHl).
    assert (Hsum : forall c a b j : nat,
               (c <= j + 2 -> S c <= S (S a + (j + (S b + 1))) + 1)%nat)
      by (intros; lia).
    apply Hsum. exact H.
  - destruct d as [|kv d']; [cbn; lia|].
    pose proof (join_members_cost (item_separator level) level (kv :: d')) as H.
    cbn [cost]. fold (members_cost (kv :: d')).
    cbn [encode]. change (ch "," :: newline_indent (S level)) with (item_separator level).
    change (fun kv : pystr * pyval =>
              encode_basestring_ascii (fst kv) ++ str ": "
              ++ encode (S level) (snd kv))
      with (member_text level).
    cbn [length]. rewrite !length_app. cbn [length newline_indent].
    specialize (H ltac:(cbn; lia) IHd).
    assert (Hsum : forall c a b j : nat,
               (c <= j + 2 -> S c <= S (S a + (j + (S b + 1))) + 1)%nat)
      by (intros; lia).
    apply Hsum. exact H.
Qed.

(** Saving a serializable value and loading the text gives the value back. *)
Lemma json_roundtrip {FT : FloatText} (v : pyval) :
  serializable v -> json_loads (json_dumps v) = Some v.
Proof.
  intros Hv. unfold json_loads, decode, json_dumps.
  pose proof (skip_ws_encode v 0 [] Hv) as Hskip.
  rewrite List.app_nil_r in Hskip. rewrite Hskip.
  pose proof (encode_scans_back v Hv 0%nat [] (2 * length (encode 0 v) + 2)%nat) as Hscan.
  rewrite List.app_nil_r in Hscan. rewrite Hscan.
  - reflexivity.
  - pose proof (cost_le_length v 0). lia.
  - exact I.
Qed.

(** ** The fuel of [decode] is never used up *)










(** ** The query engine: matching *)

Lemma getitem_word_record (r : WordRecord) :
  getitem (record_to_py r) (str "word") = Done (PStr (word r)).
Proof. reflexivity. Qed.

Lemma select_entries_records (idx : list WordRecord) (q : pystr) :
  select_entries (map record_to_py idx) q
  = Done (map record_to_py (filter (fun r => pystr_eqb (word r) q) idx)).
Proof.
  induction idx as [|r idx IH].
  - reflexivity.
  - cbn [map select_entries filter].
    rewrite getitem_word_record, IH.
    cbn [py_eq_str]. destruct (pystr_eqb (word r) q); reflexivity.
Qed.



(** ** The query engine: runs *)

Lemma validate_documents_dir_ok (E : env) (turns : nat) (dir : pystr) (st : state) :
  isdir E dir = true ->
  validate_documents_dir E turns dir st = (Done (Some dir), st).
Proof. intros H. destruct turns; cbn; rewrite H; reflexivity. Qed.



Lemma load_json_file_ok {FT : FloatText} (json_path text : pystr) (v : pyval)
      (st : state) :
  lookup_file json_path (files st) = Some (Text text) ->
  json_loads text = Some v ->
  load_json_file json_path st = (Done v, st).
Proof.
  intros H Hv. unfold load_json_file, try_except, bind, read_text, json_load.
  rewrite H, Hv. reflexivity.
Qed.

Lemma validate_documents_dir_unfold (E : env) (turns : nat) (dir : pystr) :
  validate_documents_dir E turns dir
  = if isdir E dir then ret (Some dir)
    else
      print (str "Error: The documents directory " ++ dir
             ++ str " does not exist.") ;;
      answer <- input (str "Please enter a valid documents directory path: ") ;;
      match strip answer with
      | [] => print (str "No path provided. Exiting.") ;; ret None
      | _ :: _ =>
          match turns with
          | S n => validate_documents_dir E n (strip answer)
          | O => raise (Exn EOFError (str "EOF when reading a line"))
          end
      end.
Proof. destruct turns; reflexivity. Qed.

(** The directory loop never runs out of turns: with at least as many turns
    as there are lines of input, one more turn changes nothing. *)
Lemma validate_documents_dir_turns (E : env) (turns : nat) :
  forall (dir : pystr) (st : state),
    (length (stdin st) <= turns)%nat ->
    validate_documents_dir E (S turns) dir st
    = validate_documents_dir E turns dir st.
Proof.
  induction turns as [|n IH]; intros dir st Hlen;
    rewrite (validate_documents_dir_unfold E (S _) dir);
    rewrite (validate_documents_dir_unfold E _ dir);
    (destruct (isdir E dir); [reflexivity|]);
    unfold bind, print, modify, input; cbn [stdin add_stdout];
    (destruct (stdin st) as [|answer rest]; [reflexivity|]);
    (destruct (strip answer) as [|c d]; [reflexivity|]).
  - cbn in Hlen. lia.
  - apply IH. cbn [stdin set_stdin add_stdout]. cbn [length] in Hlen. lia.
Qed.





(** C8.  On a loaded index in which no entry has the query as its word, the
    run ends normally: it prints the "No matches found" message and not the
    "Found" message, writes the text [[]] to the output file, which parses
    back to the empty list, and confirms the write. *)
Theorem empty_result_is_not_an_error {FT : FloatText} (E : env)
        (documents_dir json_path output_json text line : pystr)
        (rest : list pystr) (data : pyval) (st : state) :
  isdir E documents_dir = true ->
  lookup_file json_path (files st) = Some (Text text) ->
  json_loads text = Some data ->
  data <> PNone ->
  stdin st = line :: rest ->
  find_matches data (strip line) = Done [] ->
  open_w_error E output_json = None ->
  let q := strip line in
  let st1 := set_stdin rest (add_stdout (str "Enter the word to search: ") st) in
  let st2 := add_stdout (10 :: str "No matches found for the word '" ++ q ++ str "'.") st1 in
  let st3 := add_file output_json (Text (str "[]")) st2 in
  search_word E documents_dir json_path output_json st
  = (Done tt,
     add_stdout (str "Empty results saved to " ++ output_json ++ str ".") st3)
  /\ json_loads (str "[]") = Some (PList [])
  /\ ~ In (10 :: str "Found 0 occurrence(s) of the word '" ++ q ++ str "'.")
          [str "Enter the word to search: ";
           10 :: str "No matches found for the word '" ++ q ++ str "'.";
           str "Empty results saved to " ++ output_json ++ str "."].
Proof.
  intros Hdir Hfile Hload Hdata Hin Hnone Hw. cbv zeta.
  split; [|split].
  - unfold search_word, bind.
    rewrite (validate_documents_dir_ok E _ _ st Hdir).
    rewrite (load_json_file_ok json_path text data st Hfile Hload).
    assert (Hrun : forall A (k1 k2 : M A),
               match data with PNone => k1 | _ => k2 end = k2).
    { intros. destruct data; congruence. }
    rewrite Hrun. unfold input. rewrite Hin.
    unfold lift. rewrite Hnone.
    unfold print, modify, try_except, bind, dump_to_file. rewrite Hw.
    reflexivity.
  - reflexivity.
  - cbn [In]. intros [H|[H|[H|[]]]]; discriminate H.
Qed.

Lemma empty_result_is_not_an_error_witness :
  files (snd (search_word (FT := sample_float_text) quiet_env (str "docs")
                          (str "word_index.json") (str "out.json") ghost_state))
  = (str "out.json", Text (str "[]")) :: files ghost_state
  /\ stdout (snd (search_word (FT := sample_float_text) quiet_env (str "docs")
                              (str "word_index.json") (str "out.json") ghost_state))
     = [str "Enter the word to search: ";
        10 :: str "No matches found for the word 'ghost'.";
        str "Empty results saved to out.json."].
Proof.
  pose proof (empty_result_is_not_an_error (FT := sample_float_text) quiet_env
                (str "docs") (str "word_index.json") (str "out.json")
                (json_dumps (FT := sample_float_text) (index_to_py sample_index))
                (str " ghost ") [] (index_to_py sample_index) ghost_state
                eq_refl eq_refl eq_refl) as H.
  cbv zeta in H.
  destruct H as [H _]; [discriminate | reflexivity | reflexivity | reflexivity |].
  rewrite H. split; reflexivity.
Defined.

(** ** The index file *)

Lemma text_ok_literal_keys :
  text_ok (str "document") = true /\ text_ok (str "page") = true
  /\ text_ok (str "word") = true /\ text_ok (str "bounding_box") = true
  /\ NoDup [str "document"; str "page"; str "word"; str "bounding_box"].
Proof.
  repeat split; try reflexivity.
  repeat constructor; cbn [In]; intros H;
    repeat (destruct H as [H|H]; [discriminate H|]); exact H.
Qed.

Lemma record_to_py_serializable {FT : FloatText} (r : WordRecord) :
  record_serializable r -> serializable (record_to_py r).
Proof.
  intros (Hd & Hw & Hb).
  destruct text_ok_literal_keys as (K1 & K2 & K3 & K4 & Knd).
  unfold record_to_py. apply ser_dict; [exact Knd|].
  repeat constructor; cbn [fst snd]; try assumption.
  induction Hb as [|f fs Hf _ IH]; constructor; [constructor; exact Hf | exact IH].
Qed.

Lemma index_to_py_serializable {FT : FloatText} (idx : list WordRecord) :
  Forall record_serializable idx -> serializable (index_to_py idx).
Proof.
  intros H. unfold index_to_py. constructor.
  induction H as [|r rs Hr _ IH]; constructor;
    [apply record_to_py_serializable; exact Hr | exact IH].
Qed.







(** ** The geometry recorder *)

Lemma word_record_two_points
      (file_path : pystr) (page_idx : nat) (text : pystr)
      (x0 y0 x1 y1 : float) (more0 more1 : list float)
      (others : list (list float)) :
  word_record file_path page_idx
    {| value := text;
       geometry := (x0 :: y0 :: more0) :: (x1 :: y1 :: more1) :: others |}
  = Done {| document := basename file_path;
            page := Z.of_nat page_idx + 1;
            word := text;
            bounding_box := [x0; y0; x1; y1] |}.
Proof. reflexivity. Qed.

(** ** The annotation renderer *)

Lemma scale_box_four (a b c d : float) (w h : Z) :
  scale_box [a; b; c; d] w h
  = Done ((PrimFloat.mul a (float_of_int w), PrimFloat.mul b (float_of_int h)),
          (PrimFloat.mul c (float_of_int w), PrimFloat.mul d (float_of_int h))).
Proof. reflexivity. Qed.

Lemma draw_words_scaled (E : env) (image_path : pystr) (w h : Z)
      (page_words : list WordRecord) :
  forall st rects st',
    draw_words E image_path w h page_words st = (Done rects, st') ->
    map (fun r => scale_box (bounding_box r) w h) page_words = map Done rects.
Proof.
  induction page_words as [|r rest IH]; intros st rects st' Hrun.
  - cbn in Hrun. injection Hrun as <- _. reflexivity.
  - cbn [draw_words] in Hrun. unfold bind, lift in Hrun.
    destruct (scale_box (bounding_box r) w h) as [rect|e] eqn:Hbox;
      [|discriminate].
    destruct (draw_error E rect); [discriminate|].
    unfold logging, modify in Hrun.
    destruct (draw_words E image_path w h rest (add_log _ st))
      as [[more|e] st1] eqn:Hrest; [|discriminate].
    cbn in Hrun. injection Hrun as <- _.
    cbn [map]. rewrite Hbox. f_equal. eapply IH. exact Hrest.
Qed.



(** ** The pipeline: what each step does to the state *)

Lemma frame_refl (st : state) : frame st st.
Proof.
  unfold frame. repeat split. exists []. symmetry. apply List.app_nil_r.
Qed.

Lemma frame_trans (a b c : state) : frame a b -> frame b c -> frame a c.
Proof.
  unfold frame. intros (H1 & H2 & H3 & H4 & l & H5) (K1 & K2 & K3 & K4 & m & K5).
  repeat split; try congruence.
  exists (l ++ m). rewrite K5, H5. symmetry. apply List.app_assoc.
Qed.

Lemma frame_add_log (e : log_entry) (st : state) : frame st (add_log e st).
Proof. unfold frame. cbn. repeat split. exists [e]. reflexivity. Qed.

Lemma frame_add_annotated (p : pystr) (r : list rectangle) (st : state) :
  frame st (add_annotated p r st).
Proof. unfold frame. cbn. repeat split. exists []. symmetry. apply List.app_nil_r. Qed.

Lemma frame_set_results (r : list WordRecord) (st : state) :
  frame st (set_results r st).
Proof. unfold frame. cbn. repeat split. exists []. symmetry. apply List.app_nil_r. Qed.

Lemma frame_log_in (st st' : state) (e : log_entry) :
  frame st st' -> In e (log st) -> In e (log st').
Proof.
  intros (_ & _ & _ & _ & l & H) Hin. rewrite H. apply in_or_app. now left.
Qed.

Lemma draw_words_frame (E : env) (image_path : pystr) (w h : Z)
      (page_words : list WordRecord) :
  forall st, frame st (snd (draw_words E image_path w h page_words st))
             /\ results (snd (draw_words E image_path w h page_words st))
                = results st.
Proof.
  induction page_words as [|r rest IH]; intros st.
  - cbn. split; [apply frame_refl | reflexivity].
  - cbn [draw_words]. unfold bind, lift.
    destruct (scale_box (bounding_box r) w h) as [rect|e].
    + destruct (draw_error E rect).
      * cbn. split; [apply frame_refl | reflexivity].
      * unfold logging, modify.
        specialize (IH (add_log (LogDrew (word r) (bounding_box r) image_path) st)).
        destruct (draw_words E image_path w h rest (add_log _ st)) as [[more|e] st1];
          cbn in *; destruct IH as [IH1 IH2];
          (split; [eapply frame_trans; [apply frame_add_log | exact IH1]
                  | exact IH2]).
    + cbn. split; [apply frame_refl | reflexivity].
Qed.

Lemma draw_bounding_boxes_frame (E : env) (image_path : pystr)
      (page_words : list WordRecord) (output_dir doc_name : pystr) (page_num : Z)
      (st : state) :
  exists r st',
    draw_bounding_boxes E image_path page_words output_dir doc_name page_num st
    = (Done r, st')
    /\ frame st st' /\ results st' = results st.
Proof.
  unfold draw_bounding_boxes, try_except, bind, lift.
  destruct (image_size E image_path) as [[w h]|e].
  - pose proof (draw_words_frame E image_path w h page_words st) as [Hf Hr].
    destruct (draw_words E image_path w h page_words st) as [[rects|e] st1];
      cbn in Hf, Hr.
    + destruct (save_error E _) as [e|].
      * cbn. eexists _, _. split; [reflexivity|]. split.
        -- eapply frame_trans; [exact Hf | apply frame_add_log].
        -- exact Hr.
      * cbn. eexists _, _. split; [reflexivity|]. split.
        -- eapply frame_trans; [exact Hf|].
           eapply frame_trans; [apply frame_add_annotated | apply frame_add_log].
        -- exact Hr.
    + cbn. eexists _, _. split; [reflexivity|]. split.
      * eapply frame_trans; [exact Hf | apply frame_add_log].
      * exact Hr.
  - cbn. eexists _, _. split; [reflexivity|]. split.
    + apply frame_add_log.
    + reflexivity.
Qed.

Lemma convert_page_to_image_frame (E : env) (pdf_path : pystr) (page_num : Z)
      (output_dir doc_name : pystr) (st : state) :
  exists r st',
    convert_page_to_image E pdf_path page_num output_dir doc_name st = (Done r, st')
    /\ frame st st' /\ results st' = results st.
Proof.
  unfold convert_page_to_image.
  destruct (rasterize E pdf_path page_num); cbn;
    eexists _, _; (split; [reflexivity|]); (split; [apply frame_add_log | reflexivity]).
Qed.

Lemma process_page_run (E : env) (file_path doc_name image_dir : pystr)
      (page_idx : nat) (p : Page) (st : state) :
  match word_records file_path page_idx (words_of_page p) with
  | Raised e =>
      process_page E file_path doc_name image_dir page_idx p st = (Raised e, st)
  | Done rs =>
      exists st',
        process_page E file_path doc_name image_dir page_idx p st = (Done tt, st')
        /\ frame st st' /\ results st' = results st ++ rs
  end.
Proof.
  unfold process_page, bind, lift.
  destruct (word_records file_path page_idx (words_of_page p)) as [rs|e];
    [|reflexivity].
  unfold modify.
  set (st1 := set_results (results st ++ rs) st).
  assert (Hf1 : frame st st1) by apply frame_set_results.
  assert (Hr1 : results st1 = results st ++ rs) by reflexivity.
  clearbody st1.
  assert (Himg : exists o st2,
             (if is_image file_path then ret (Some file_path)
              else convert_page_to_image E file_path (Z.of_nat page_idx + 1)
                                         image_dir doc_name) st1 = (Done o, st2)
             /\ frame st1 st2 /\ results st2 = results st1).
  { destruct (is_image file_path).
    - eexists _, _. split; [reflexivity|]. split; [apply frame_refl | reflexivity].
    - apply convert_page_to_image_frame. }
  destruct Himg as (o & st2 & -> & Hf2 & Hr2).
  destruct o as [[|c path]|].
  - exists st2. split; [reflexivity|]. split; [eapply frame_trans; eassumption|].
    congruence.
  - destruct (draw_bounding_boxes_frame E (c :: path) rs image_dir doc_name
                (Z.of_nat page_idx + 1) st2) as (r & st3 & Hd & Hf3 & Hr3).
    cbv beta. rewrite Hd.
    exists st3. split; [reflexivity|]. split.
    + eapply frame_trans; [exact Hf1|]. eapply frame_trans; eassumption.
    + congruence.
  - exists st2. split; [reflexivity|]. split; [eapply frame_trans; eassumption|].
    congruence.
Qed.

Lemma process_pages_run (E : env) (file_path doc_name image_dir : pystr)
      (pages : list Page) :
  forall (page_idx : nat) (st : state),
  exists o st',
    process_pages E file_path doc_name image_dir page_idx pages st = (o, st')
    /\ frame st st'
    /\ results st' = results st ++ pages_records file_path page_idx pages.
Proof.
  induction pages as [|p rest IH]; intros page_idx st.
  - exists (Done tt), st. split; [reflexivity|]. split; [apply frame_refl|].
    cbn. symmetry. apply List.app_nil_r.
  - cbn [process_pages pages_records]. unfold bind.
    pose proof (process_page_run E file_path doc_name image_dir page_idx p st) as Hp.
    destruct (word_records file_path page_idx (words_of_page p)) as [rs|e].
    + destruct Hp as (st1 & -> & Hf1 & Hr1).
      destruct (IH (S page_idx) st1) as (o & st2 & -> & Hf2 & Hr2).
      exists o, st2. split; [reflexivity|]. split.
      * eapply frame_trans; eassumption.
      * rewrite Hr2, Hr1. symmetry. apply List.app_assoc.
    + rewrite Hp. exists (Raised e), st. split; [reflexivity|].
      split; [apply frame_refl|]. symmetry. apply List.app_nil_r.
Qed.

Lemma process_file_run (E : env) (file_path : pystr) (st : state) :
  exists st',
    process_file E file_path st = (Done tt, st')
    /\ frame st st'
    /\ results st' = results st ++ doc_records E file_path
    /\ (forall e, ocr E (is_pdf file_path) file_path = Raised e ->
                  In (LogProcessError file_path (exn_str e)) (log st')).
Proof.
  unfold process_file, doc_records, try_except, bind, lift, logging, modify.
  set (st0 := add_log (LogProcessing file_path) st).
  assert (Hf0 : frame st st0) by apply frame_add_log.
  assert (Hr0 : results st0 = results st) by reflexivity.
  clearbody st0.
  destruct (ocr E (is_pdf file_path) file_path) as [pages|e].
  - set (st1 := add_log (LogOcrCompleted file_path (length pages)) st0).
    assert (Hf1 : frame st0 st1) by apply frame_add_log.
    assert (Hr1 : results st1 = results st0) by reflexivity.
    clearbody st1.
    destruct (process_pages_run E file_path
                (replace (basename file_path) (str ".") (str "_"))
                (path_join logs_dir (replace (basename file_path) (str ".") (str "_")))
                pages 0 st1) as (o & st2 & -> & Hf2 & Hr2).
    destruct o as [[]|e].
    + exists st2. split; [reflexivity|]. split.
      * eapply frame_trans; [exact Hf0|]. eapply frame_trans; eassumption.
      * split; [congruence | discriminate].
    + eexists. split; [reflexivity|]. split.
      * eapply frame_trans; [exact Hf0|]. eapply frame_trans; [exact Hf1|].
        eapply frame_trans; [exact Hf2 | apply frame_add_log].
      * split; [cbn; congruence | discriminate].
  - eexists. split; [reflexivity|]. split.
    + eapply frame_trans; [exact Hf0 | apply frame_add_log].
    + split.
      * cbn. rewrite Hr0. symmetry. apply List.app_nil_r.
      * intros e' He. injection He as <-. cbn. apply in_or_app. right. now left.
Qed.

Lemma process_files_run (E : env) (file_paths : list pystr) :
  forall st,
  exists st',
    for_each file_paths (process_file E) st = (Done tt, st')
    /\ frame st st'
    /\ results st' = results st ++ flat_map (doc_records E) file_paths
    /\ (forall f e, In f file_paths -> ocr E (is_pdf f) f = Raised e ->
                    In (LogProcessError f (exn_str e)) (log st')).
Proof.
  induction file_paths as [|f rest IH]; intros st.
  - exists st. split; [reflexivity|]. split; [apply frame_refl|]. split.
    + cbn. symmetry. apply List.app_nil_r.
    + intros f e [].
  - cbn [for_each flat_map]. unfold bind.
    destruct (process_file_run E f st) as (st1 & -> & Hf1 & Hr1 & He1).
    destruct (IH st1) as (st2 & -> & Hf2 & Hr2 & He2).
    exists st2. split; [reflexivity|]. split; [eapply frame_trans; eassumption|].
    split.
    + rewrite Hr2, Hr1. symmetry. apply List.app_assoc.
    + intros f' e [<-|Hin] Hocr.
      * eapply frame_log_in; [exact Hf2 | apply He1; exact Hocr].
      * eapply He2; eassumption.
Qed.

Lemma preprocess_docx_loop_run (E : env) (output_folder : pystr)
      (docx_files : list pystr) :
  forall st,
  exists st',
    preprocess_docx_loop E output_folder docx_files st
    = (Done (map (fun d => path_join output_folder
                              (replace (basename d) (str ".docx") (str ".pdf")))
                 (filter (conversion_ok E) docx_files)), st')
    /\ frame st st' /\ results st' = results st
    /\ (forall d msg, In d docx_files -> soffice E d = Some msg ->
                      In (LogConvertError d msg) (log st')).
Proof.
  induction docx_files as [|d rest IH]; intros st.
  - exists st. split; [reflexivity|]. split; [apply frame_refl|].
    split; [reflexivity|]. intros d msg [].
  - cbn [preprocess_docx_loop filter]. unfold preprocess_docx_file.
    assert (Hc : conversion_ok E d
                 = match soffice E d with None => true | Some _ => false end)
      by reflexivity.
    rewrite Hc. clear Hc.
    destruct (soffice E d) as [msg|] eqn:Hs;
      unfold bind, logging, modify, ret; cbv beta iota.
    + destruct (IH (add_log (LogConvertError d msg) st))
        as (st1 & -> & Hf1 & Hr1 & He1).
      exists st1. split; [reflexivity|]. split.
      * eapply frame_trans; [apply frame_add_log | exact Hf1].
      * split; [exact Hr1|].
        intros d' msg' [<-|Hin] Hs'.
        -- rewrite Hs in Hs'. injection Hs' as <-.
           eapply frame_log_in; [exact Hf1|]. cbn. apply in_or_app. right. now left.
        -- eapply He1; eassumption.
    + destruct (IH (add_log (LogConverted d (path_join output_folder
                  (replace (basename d) (str ".docx") (str ".pdf")))) st))
        as (st1 & -> & Hf1 & Hr1 & He1).
      exists st1. split; [reflexivity|]. split.
      * eapply frame_trans; [apply frame_add_log | exact Hf1].
      * split; [exact Hr1|].
        intros d' msg' [<-|Hin] Hs'.
        -- congruence.
        -- eapply He1; eassumption.
Qed.

Lemma preprocess_documents_run {FT : FloatText} (E : env) (st : state) :
  isdir E folder_path = true ->
  exists st1,
    preprocess_documents E st
    = match open_w_error E output_json with
      | Some e => (Raised e, st1)
      | None =>
          (Done (expected_index E),
           add_log (LogSavedIndex output_json)
             (add_file output_json
                (Text (json_dumps (index_to_py (expected_index E)))) st1))
      end
    /\ results st1 = expected_index E
    /\ stdin st1 = stdin st /\ stdout st1 = stdout st /\ files st1 = files st
    /\ removed st1 = removed st ++ [temp_dir E]
    /\ (forall d msg, In d (glob_star E folder_path (str ".docx")) ->
                      soffice E d = Some msg ->
                      In (LogConvertError d msg) (log st1))
    /\ (forall f e, In f (all_files E (converted E)) ->
                    ocr E (is_pdf f) f = Raised e ->
                    In (LogProcessError f (exn_str e)) (log st1)).
Proof.
  intros Hdir. unfold preprocess_documents. rewrite Hdir. cbn [negb].
  unfold bind at 1. unfold modify at 1.
  unfold bind at 1. unfold try_finally, preprocess_docx.
  unfold bind at 1.
  destruct (preprocess_docx_loop_run E (temp_dir E)
              (glob_star E folder_path (str ".docx")) (set_results [] st))
    as (sa & -> & Hfa & Hra & Hea).
  fold (converted_path E). fold (converted E).
  destruct (process_files_run E (all_files E (converted E)) sa)
    as (sb & -> & Hfb & Hrb & Heb).
  unfold modify at 1.
  unfold bind at 1. unfold bind at 1. unfold dump_to_file.
  assert (Hres : results (add_removed (temp_dir E) sb) = expected_index E).
  { cbn. rewrite Hrb, Hra. reflexivity. }
  destruct Hfa as (A1 & A2 & A3 & A4 & la & A5).
  destruct Hfb as (B1 & B2 & B3 & B4 & lb & B5).
  exists (add_removed (temp_dir E) sb).
  split.
  - rewrite Hres. destruct (open_w_error E output_json); reflexivity.
  - split; [exact Hres|].
    cbn [stdin stdout files removed log add_removed set_results] in *.
    repeat split; try congruence.
    + intros d msg Hin Hs. rewrite B5. apply in_or_app. left.
      eapply Hea; eassumption.
    + exact Heb.
Qed.

Lemma preprocess_documents_done {FT : FloatText} (E : env) (st st' : state)
      (res : list WordRecord) :
  preprocess_documents E st = (Done res, st') ->
  isdir E folder_path = true /\ open_w_error E output_json = None
  /\ res = expected_index E.
Proof.
  intros Hrun. destruct (isdir E folder_path) eqn:Hdir.
  - destruct (preprocess_documents_run E st Hdir) as (st1 & Heq & _).
    rewrite Heq in Hrun.
    destruct (open_w_error E output_json); [discriminate|].
    injection Hrun as <- _. auto.
  - unfold preprocess_documents in Hrun. rewrite Hdir in Hrun.
    cbn in Hrun. discriminate.
Qed.

(** ** Where the records of the index come from *)

Lemma word_records_origin (file_path : pystr) (page_idx : nat) (ws : list Word) :
  forall rs r,
    word_records file_path page_idx ws = Done rs -> In r rs ->
    exists w, In w ws /\ word_record file_path page_idx w = Done r.
Proof.
  induction ws as [|w ws IH]; intros rs r Hrs Hin.
  - cbn in Hrs. injection Hrs as <-. destruct Hin.
  - cbn [word_records] in Hrs.
    destruct (word_record file_path page_idx w) as [r0|e] eqn:Hw; [|discriminate].
    destruct (word_records file_path page_idx ws) as [rs0|e]; [|discriminate].
    injection Hrs as <-. destruct Hin as [<-|Hin].
    + exists w. split; [now left | exact Hw].
    + destruct (IH rs0 r eq_refl Hin) as (w' & Hw' & Hr).
      exists w'. split; [now right | exact Hr].
Qed.

Lemma pages_records_origin (file_path : pystr) (pages : list Page) :
  forall start r,
    In r (pages_records file_path start pages) ->
    exists page_idx p w,
      In p pages /\ In w (words_of_page p)
      /\ word_record file_path page_idx w = Done r.
Proof.
  induction pages as [|p rest IH]; intros start r Hin.
  - destruct Hin.
  - cbn [pages_records] in Hin.
    destruct (word_records file_path start (words_of_page p)) as [rs|e] eqn:Hrs;
      [|destruct Hin].
    apply in_app_or in Hin as [Hin|Hin].
    + destruct (word_records_origin _ _ _ _ _ Hrs Hin) as (w & Hw & Hr).
      exists start, p, w. split; [now left|]. split; assumption.
    + destruct (IH _ _ Hin) as (i & p' & w & Hp & Hw & Hr).
      exists i, p', w. split; [now right|]. split; assumption.
Qed.

Lemma expected_index_origin (E : env) (r : WordRecord) :
  In r (expected_index E) ->
  exists f pages page_idx p w,
    In f (all_files E (converted E))
    /\ ocr E (is_pdf f) f = Done pages /\ In p pages /\ In w (words_of_page p)
    /\ word_record f page_idx w = Done r.
Proof.
  unfold expected_index. intros Hin.
  apply in_flat_map in Hin as (f & Hf & Hin).
  unfold doc_records in Hin.
  destruct (ocr E (is_pdf f) f) as [pages|e] eqn:Hocr; [|destruct Hin].
  destruct (pages_records_origin _ _ _ _ Hin) as (i & p & w & Hp & Hw & Hr).
  exists f, pages, i, p, w. auto.
Qed.

Lemma word_record_done (file_path : pystr) (page_idx : nat) (w : Word)
      (r : WordRecord) :
  word_record file_path page_idx w = Done r ->
  exists x0 y0 m0 x1 y1 m1 others,
    geometry w = (x0 :: y0 :: m0) :: (x1 :: y1 :: m1) :: others
    /\ r = {| document := basename file_path;
              page := Z.of_nat page_idx + 1;
              word := value w;
              bounding_box := [x0; y0; x1; y1] |}.
Proof.
  unfold word_record, index. intros H.
  destruct (geometry w) as [|[|x0 [|y0 m0]] [|[|x1 [|y1 m1]] others]];
    cbn in H; try discriminate.
  injection H as <-. exists x0, y0, m0, x1, y1, m1, others. auto.
Qed.

(** ** The pipeline: failures and empty runs *)






(** ** The pipeline: invariants of the records *)




(** ** The pipeline: the document field *)






(** ** The pipeline: the geometry of the records *)

(** C4.  For a word whose geometry has two or more points, the record built
    has as its bounding box the two coordinates of the first point followed
    by the two coordinates of the second point, whatever further points and
    coordinates the geometry has; and every record of a completed run is
    built this way from a word the OCR collaborator returned. *)
Theorem bounding_box_from_first_two_points {FT : FloatText} (E : env)
        (st st' : state) (res : list WordRecord) :
  (forall file_path page_idx text x0 y0 x1 y1 more0 more1 others,
      word_record file_path page_idx
        {| value := text;
           geometry := (x0 :: y0 :: more0) :: (x1 :: y1 :: more1) :: others |}
      = Done {| document := basename file_path;
                page := Z.of_nat page_idx + 1;
                word := text;
                bounding_box := [x0; y0; x1; y1] |})
  /\ (preprocess_documents E st = (Done res, st') ->
      forall r, In r res ->
        exists f pages p w x0 y0 more0 x1 y1 more1 others,
          ocr E (is_pdf f) f = Done pages /\ In p pages /\ In w (words_of_page p)
          /\ geometry w = (x0 :: y0 :: more0) :: (x1 :: y1 :: more1) :: others
          /\ word r = value w
          /\ bounding_box r = [x0; y0; x1; y1]).
Proof.
  split.
  - intros. apply word_record_two_points.
  - intros Hrun r Hin.
    apply preprocess_documents_done in Hrun as (_ & _ & ->).
    destruct (expected_index_origin E r Hin)
      as (f & pages & i & p & w & _ & Hpages & Hp & Hw & Hr).
    apply word_record_done in Hr
      as (x0 & y0 & m0 & x1 & y1 & m1 & others & Hg & ->).
    exists f, pages, p, w, x0, y0, m0, x1, y1, m1, others.
    repeat split; assumption.
Qed.

Lemma bounding_box_from_first_two_points_witness :
  exists f pages p w x0 y0 more0 x1 y1 more1 others,
    ocr mixed_env (is_pdf f) f = Done pages /\ In p pages /\ In w (words_of_page p)
    /\ geometry w = (x0 :: y0 :: more0) :: (x1 :: y1 :: more1) :: others
    /\ word (sample_record (str "b.png") 1 (str "Total")) = value w
    /\ bounding_box (sample_record (str "b.png") 1 (str "Total"))
       = [x0; y0; x1; y1].
Proof.
  apply (proj2 (bounding_box_from_first_two_points (FT := sample_float_text)
                  mixed_env empty_state
                  (snd (preprocess_documents (FT := sample_float_text)
                          mixed_env empty_state))
                  [sample_record (str "b.png") 1 (str "Total");
                   sample_record (str "d.pdf") 1 (str "Total")]) eq_refl).
  left. reflexivity.
Defined.

(* ================================================================= *)
(** * Further properties of the two scripts *)

(** ** The query engine: the directory prompt *)

(** X1.  When the documents directory does not exist and the answer to the
    prompt is empty or blank, [search_word] prints "No path provided.
    Exiting." and returns: the index file is not read, no word is asked
    for and no file is written. *)
Theorem blank_answer_ends_search {FT : FloatText} (E : env)
        (documents_dir json_path output_json answer : pystr)
        (rest : list pystr) (st : state) :
  isdir E documents_dir = false ->
  stdin st = answer :: rest ->
  strip answer = [] ->
  search_word E documents_dir json_path output_json st
  = (Done tt,
     add_stdout (str "No path provided. Exiting.")
                (after_dir_prompt documents_dir rest st)).
Proof.
  intros Hdir Hin Hblank. unfold search_word, bind.
  rewrite validate_documents_dir_unfold, Hdir.
  unfold bind, print, modify, input. cbn [stdin add_stdout].
  rewrite Hin, Hblank. reflexivity.
Qed.

Lemma blank_answer_ends_search_witness :
  search_word (FT := sample_float_text) docs_env (str "nowhere")
              (str "word_index.json") (str "out.json") (indexed_state [str "  "])
  = (Done tt,
     add_stdout (str "No path provided. Exiting.")
                (after_dir_prompt (str "nowhere") [] (indexed_state [str "  "]))).
Proof.
  apply (blank_answer_ends_search (FT := sample_float_text) docs_env
           (str "nowhere") (str "word_index.json") (str "out.json")
           (str "  ") [] (indexed_state [str "  "])); reflexivity.
Defined.

(** X2.  When the documents directory does not exist and the answer to the
    prompt is not blank, the run goes on exactly as a run started with the
    stripped answer as its documents directory, from the state in which the
    error message and the prompt have been written and the line read. *)
Theorem answer_replaces_directory {FT : FloatText} (E : env)
        (documents_dir json_path output_json answer : pystr)
        (rest : list pystr) (st : state) :
  isdir E documents_dir = false ->
  stdin st = answer :: rest ->
  strip answer <> [] ->
  search_word E documents_dir json_path output_json st
  = search_word E (strip answer) json_path output_json
                (after_dir_prompt documents_dir rest st).
Proof.
  intros Hdir Hin Hans. unfold search_word at 1. unfold bind at 1.
  rewrite Hin. cbn [length].
  rewrite validate_documents_dir_unfold, Hdir.
  unfold bind at 1. unfold print at 1. unfold modify at 1.
  unfold bind at 1. unfold input at 1. cbn [stdin add_stdout]. rewrite Hin.
  destruct (strip answer) as [|c d] eqn:Hs; [contradiction|].
  reflexivity.
Qed.

Lemma answer_replaces_directory_witness :
  search_word (FT := sample_float_text) docs_env (str "nowhere")
              (str "word_index.json") (str "out.json")
              (indexed_state [str " docs "; str "total"])
  = search_word (FT := sample_float_text) docs_env (str "docs")
                (str "word_index.json") (str "out.json")
                (after_dir_prompt (str "nowhere") [str "total"]
                   (indexed_state [str " docs "; str "total"])).
Proof.
  apply (answer_replaces_directory (FT := sample_float_text) docs_env
           (str "nowhere") (str "word_index.json") (str "out.json")
           (str " docs ") [str "total"]
           (indexed_state [str " docs "; str "total"]));
    [reflexivity | reflexivity | discriminate].
Defined.

(** ** The query engine: after the index is loaded *)

Lemma search_word_loaded {FT : FloatText} (E : env)
      (documents_dir json_path output_json text line : pystr)
      (rest : list pystr) (data : pyval) (st : state) :
  isdir E documents_dir = true ->
  lookup_file json_path (files st) = Some (Text text) ->
  json_loads text = Some data ->
  data <> PNone ->
  stdin st = line :: rest ->
  search_word E documents_dir json_path output_json st
  = match find_matches data (strip line) with
    | Raised e => (Raised e, after_word_prompt rest st)
    | Done matches =>
        (Done tt,
         reported E output_json (strip line) matches (after_word_prompt rest st))
    end.
Proof.
  intros Hdir Hfile Hload Hdata Hin.
  unfold search_word, bind.
  rewrite (validate_documents_dir_ok E _ _ st Hdir).
  rewrite (load_json_file_ok json_path text data st Hfile Hload).
  assert (Hrun : forall A (k1 k2 : M A),
             match data with PNone => k1 | _ => k2 end = k2).
  { intros. destruct data; congruence. }
  rewrite Hrun. unfold input. rewrite Hin.
  unfold lift. fold (after_word_prompt rest st).
  destruct (find_matches data (strip line)) as [[|m ms]|e]; [| |reflexivity];
    unfold reported, print, modify, try_except, bind, dump_to_file;
    destruct (open_w_error E output_json); reflexivity.
Qed.

Lemma records_not_none (idx : list WordRecord) : index_to_py idx <> PNone.
Proof. discriminate. Qed.

(** X3.  When the output file cannot be opened for writing, the run still
    ends by returning: the exception is caught and its text printed after
    "Error saving results to" (or "Error saving empty results to" when
    nothing matched), no "Found" or "saved" message is printed, and no
    file is written. *)
Theorem save_failure_is_reported {FT : FloatText} (E : env)
        (documents_dir json_path output_json text line : pystr)
        (rest : list pystr) (data : pyval) (matches : list pyval)
        (e : exn) (st : state) :
  isdir E documents_dir = true ->
  lookup_file json_path (files st) = Some (Text text) ->
  json_loads text = Some data ->
  data <> PNone ->
  stdin st = line :: rest ->
  find_matches data (strip line) = Done matches ->
  open_w_error E output_json = Some e ->
  search_word E documents_dir json_path output_json st
  = (Done tt,
     match matches with
     | _ :: _ =>
         add_stdout (str "Error saving results to " ++ output_json ++ str ": "
                     ++ exn_str e) (after_word_prompt rest st)
     | [] =>
         add_stdout (str "Error saving empty results to " ++ output_json
                     ++ str ": " ++ exn_str e)
           (add_stdout (10 :: str "No matches found for the word '"
                        ++ strip line ++ str "'.") (after_word_prompt rest st))
     end)
  /\ files (snd (search_word E documents_dir json_path output_json st))
     = files st.
Proof.
  intros Hdir Hfile Hload Hdata Hin Hsel Hw.
  rewrite (search_word_loaded E documents_dir json_path output_json text line
             rest data st Hdir Hfile Hload Hdata Hin).
  rewrite Hsel. unfold reported. rewrite Hw.
  destruct matches; split; reflexivity.
Qed.

Lemma save_failure_is_reported_witness :
  search_word (FT := sample_float_text) strict_env (str "docs")
              (str "word_index.json") (str "out.json")
              (indexed_state [str "total"])
  = (Done tt,
     add_stdout (str "Error saving results to out.json: Permission denied")
                (after_word_prompt [] (indexed_state [str "total"]))).
Proof.
  apply (save_failure_is_reported (FT := sample_float_text) strict_env
           (str "docs") (str "word_index.json") (str "out.json")
           (json_dumps (FT := sample_float_text) (index_to_py sample_index))
           (str "total") [] (index_to_py sample_index)
           [record_to_py (sample_record (str "a.pdf") 2 (str "total"))]
           (Exn OtherError (str "Permission denied"))
           (indexed_state [str "total"]));
    try reflexivity.
  discriminate.
Defined.

(** X4.  When some records of the index have the query as their word and
    the output file is writable, the run prints the prompt, then "Found n
    occurrence(s) of the word 'q'." with n the number of records selected,
    then "Results saved to ...", and the file it wrote loads back, with
    [load_json_file], as exactly the records selected. *)
Theorem found_matches_are_counted_and_saved {FT : FloatText} (E : env)
        (documents_dir json_path output_json text line : pystr)
        (rest : list pystr) (idx : list WordRecord) (st : state) :
  isdir E documents_dir = true ->
  lookup_file json_path (files st) = Some (Text text) ->
  json_loads text = Some (index_to_py idx) ->
  stdin st = line :: rest ->
  open_w_error E output_json = None ->
  Forall record_serializable idx ->
  filter (fun r => pystr_eqb (word r) (strip line)) idx <> [] ->
  let selected := filter (fun r => pystr_eqb (word r) (strip line)) idx in
  exists st',
    search_word E documents_dir json_path output_json st = (Done tt, st')
    /\ stdout st'
       = stdout st
         ++ [str "Enter the word to search: ";
             10 :: str "Found " ++ int_repr (Z.of_nat (length selected))
             ++ str " occurrence(s) of the word '" ++ strip line ++ str "'.";
             str "Results saved to " ++ output_json ++ str "."]
    /\ load_json_file output_json st' = (Done (index_to_py selected), st').
Proof.
  intros Hdir Hfile Hload Hin Hw Hser Hsome. cbv zeta.
  rewrite (search_word_loaded E documents_dir json_path output_json text line
             rest (index_to_py idx) st Hdir Hfile Hload
             (records_not_none idx) Hin).
  unfold find_matches, index_to_py, py_iter. rewrite select_entries_records.
  assert (Hsel : Forall record_serializable
                        (filter (fun r => pystr_eqb (word r) (strip line)) idx)).
  { apply Forall_forall. intros r Hr. apply filter_In in Hr as [Hr _].
    rewrite Forall_forall in Hser. apply Hser. exact Hr. }
  destruct (filter (fun r => pystr_eqb (word r) (strip line)) idx)
    as [|r rs] eqn:Hf; [congruence|].
  eexists. split; [reflexivity|].
  unfold reported. cbn [map]. rewrite Hw. split.
  - cbn [stdout add_stdout add_file after_word_prompt set_stdin].
    cbn [length]. rewrite length_map.
    repeat rewrite <- List.app_assoc. reflexivity.
  - apply (load_json_file_ok output_json
             (json_dumps (index_to_py (r :: rs)))).
    + cbn [files add_stdout add_file lookup_file].
      rewrite pystr_eqb_refl. reflexivity.
    + apply (json_roundtrip (index_to_py (r :: rs))).
      exact (index_to_py_serializable (r :: rs) Hsel).
Qed.

Lemma found_matches_are_counted_and_saved_witness :
  exists st',
    search_word (FT := sample_float_text) docs_env (str "docs")
                (str "word_index.json") (str "out.json")
                (indexed_state [str " Invoice "])
    = (Done tt, st')
    /\ stdout st'
       = [str "Enter the word to search: ";
          10 :: str "Found 2 occurrence(s) of the word 'Invoice'.";
          str "Results saved to out.json."]
    /\ load_json_file (FT := sample_float_text) (str "out.json") st'
       = (Done (index_to_py [sample_record (str "a.pdf") 1 (str "Invoice");
                             sample_record (str "a.pdf") 3 (str "Invoice")]), st').
Proof.
  assert (Hser : Forall (record_serializable (FT := sample_float_text)) sample_index).
  { repeat constructor. }
  apply (found_matches_are_counted_and_saved (FT := sample_float_text) docs_env
           (str "docs") (str "word_index.json") (str "out.json")
           (json_dumps (FT := sample_float_text) (index_to_py sample_index))
           (str " Invoice ") [] sample_index (indexed_state [str " Invoice "])
           eq_refl eq_refl eq_refl eq_refl eq_refl Hser).
  discriminate.
Defined.

(** X5.  When the index file holds the JSON text of [null], [load_json_file]
    returns [None] without a message and [search_word] returns at once: it
    prints nothing, asks for no word and writes no file. *)
Theorem null_index_ends_silently {FT : FloatText} (E : env)
        (documents_dir json_path output_json text : pystr) (st : state) :
  isdir E documents_dir = true ->
  lookup_file json_path (files st) = Some (Text text) ->
  json_loads text = Some PNone ->
  search_word E documents_dir json_path output_json st = (Done tt, st).
Proof.
  intros Hdir Hfile Hload. unfold search_word, bind.
  rewrite (validate_documents_dir_ok E _ _ st Hdir).
  rewrite (load_json_file_ok json_path text PNone st Hfile Hload).
  reflexivity.
Qed.

Lemma null_index_ends_silently_witness :
  search_word (FT := sample_float_text) docs_env (str "docs")
              (str "word_index.json") (str "out.json")
              (state_with_index (str " null ") [str "total"])
  = (Done tt, state_with_index (str " null ") [str "total"]).
Proof.
  apply (null_index_ends_silently (FT := sample_float_text) docs_env
           (str "docs") (str "word_index.json") (str "out.json") (str " null ")
           (state_with_index (str " null ") [str "total"]));
    reflexivity.
Defined.

(** ** The query engine: indexes that are not lists of records *)

Lemma getitem_raises (entry : pyval) (key : pystr) (e : exn) :
  getitem entry key = Raised e ->
  exn_cls e = KeyError \/ exn_cls e = TypeError.
Proof.
  unfold getitem. intros H.
  destruct entry as [| | | | | |d]; try (injection H as <-; right; reflexivity).
  destruct (dict_get d key); [discriminate|].
  injection H as <-. left. reflexivity.
Qed.

Lemma select_entries_raises (entries : list pyval) (q : pystr) (entry : pyval) :
  In entry entries -> has_word entry = false ->
  exists e, select_entries entries q = Raised e
            /\ (exn_cls e = KeyError \/ exn_cls e = TypeError).
Proof.
  intros Hin Hno. induction entries as [|x rest IH]; [destruct Hin|].
  cbn [select_entries].
  destruct (getitem x (str "word")) as [w|e] eqn:Hx.
  - destruct Hin as [->|Hin].
    + unfold has_word in Hno. rewrite Hx in Hno. discriminate.
    + destruct (IH Hin) as (e & -> & Hcls). exists e. split; [reflexivity|exact Hcls].
  - exists e. split; [reflexivity|]. eapply getitem_raises. exact Hx.
Qed.

Lemma select_entries_filter (entries : list pyval) (q : pystr) :
  Forall (fun entry => has_word entry = true) entries ->
  select_entries entries q = Done (filter (entry_word_is q) entries).
Proof.
  induction 1 as [|x rest Hx _ IH]; [reflexivity|].
  cbn [select_entries filter]. rewrite IH.
  unfold has_word in Hx. unfold entry_word_is.
  destruct (getitem x (str "word")) as [w|e]; [|discriminate].
  destruct (py_eq_str w q); reflexivity.
Qed.

(** X6.  The list comprehension is all or nothing: when one entry of the
    loaded list has no "word" key, or is not an object, the run raises
    [KeyError] or [TypeError] after the word has been read, whatever the
    other entries hold; nothing is printed after the prompt and no file is
    written. *)
Theorem entry_without_word_raises {FT : FloatText} (E : env)
        (documents_dir json_path output_json text line : pystr)
        (rest : list pystr) (entries : list pyval) (entry : pyval)
        (st : state) :
  isdir E documents_dir = true ->
  lookup_file json_path (files st) = Some (Text text) ->
  json_loads text = Some (PList entries) ->
  stdin st = line :: rest ->
  In entry entries ->
  has_word entry = false ->
  exists e,
    search_word E documents_dir json_path output_json st
    = (Raised e, after_word_prompt rest st)
    /\ (exn_cls e = KeyError \/ exn_cls e = TypeError).
Proof.
  intros Hdir Hfile Hload Hin Hentry Hno.
  assert (Hdata : PList entries <> PNone) by discriminate.
  rewrite (search_word_loaded E documents_dir json_path output_json text line
             rest (PList entries) st Hdir Hfile Hload Hdata Hin).
  unfold find_matches, py_iter.
  destruct (select_entries_raises entries (strip line) entry Hentry Hno)
    as (e & -> & Hcls).
  exists e. split; [reflexivity | exact Hcls].
Qed.

Lemma entry_without_word_raises_witness :
  exists e,
    search_word (FT := sample_float_text) docs_env (str "docs")
                (str "word_index.json") (str "out.json") ragged_state
    = (Raised e, after_word_prompt [] ragged_state)
    /\ (exn_cls e = KeyError \/ exn_cls e = TypeError).
Proof.
  apply (entry_without_word_raises (FT := sample_float_text) docs_env
           (str "docs") (str "word_index.json") (str "out.json")
           (json_dumps (FT := sample_float_text) (PList ragged_entries))
           (str "total") [] ragged_entries
           (PDict [(str "text", PStr (str "total"))]) ragged_state
           eq_refl eq_refl eq_refl eq_refl).
  - right. left. reflexivity.
  - reflexivity.
Defined.

(** X7.  On any loaded list whose entries all have a "word" key, the
    selection is the sublist of the entries whose "word" equals the query,
    in order and as loaded, further keys included; an entry whose word is
    not a string is never selected; and an object is selected if and only
    if it is in the list and its "word" is the query string. *)
Theorem selection_on_any_list (entries : list pyval) (q : pystr) :
  Forall (fun entry => has_word entry = true) entries ->
  find_matches (PList entries) q = Done (filter (entry_word_is q) entries)
  /\ (forall entry w,
         getitem entry (str "word") = Done w -> (forall s, w <> PStr s) ->
         ~ In entry (filter (entry_word_is q) entries))
  /\ (forall d,
         In (PDict d) (filter (entry_word_is q) entries)
         <-> In (PDict d) entries /\ dict_get d (str "word") = Some (PStr q)).
Proof.
  intros Hall. split; [|split].
  - unfold find_matches, py_iter. apply select_entries_filter. exact Hall.
  - intros entry w Hw Hnot Hin. apply filter_In in Hin as [_ His].
    unfold entry_word_is in His. rewrite Hw in His.
    destruct w; try discriminate His. eapply Hnot. reflexivity.
  - intros d. rewrite filter_In. unfold entry_word_is, getitem.
    split; intros [Hin H]; (split; [exact Hin|]).
    + destruct (dict_get d (str "word")) as [w|]; [|discriminate].
      destruct w; try discriminate H. cbn [py_eq_str] in H.
      apply pystr_eqb_eq in H. subst. reflexivity.
    + rewrite H. cbn [py_eq_str]. apply pystr_eqb_refl.
Qed.

Lemma selection_on_any_list_witness :
  find_matches (PList loose_entries) (str "total")
  = Done [PDict [(str "word", PStr (str "total")); (str "note", PInt 1)];
          PDict [(str "note", PNone); (str "word", PStr (str "total"))]].
Proof.
  apply (selection_on_any_list loose_entries (str "total")).
  repeat constructor.
Defined.



(** X9.  [load_json_file] catches two classes of exception only.  When
    opening or reading the index file raises anything else (a permission
    error, say), the exception leaves [load_json_file] and [search_word]:
    nothing is printed and nothing is written. *)
Theorem other_read_errors_propagate {FT : FloatText} (E : env)
        (documents_dir json_path output_json : pystr) (e : exn) (st : state) :
  isdir E documents_dir = true ->
  lookup_file json_path (files st) = Some (Unreadable e) ->
  exn_cls e <> FileNotFoundError ->
  exn_cls e <> JSONDecodeError ->
  load_json_file json_path st = (Raised e, st)
  /\ search_word E documents_dir json_path output_json st = (Raised e, st).
Proof.
  intros Hdir Hfile Hnf Hnj.
  assert (Hload : load_json_file json_path st = (Raised e, st)).
  { unfold load_json_file, try_except, bind, read_text. rewrite Hfile.
    destruct (exn_cls e); try reflexivity; congruence. }
  split; [exact Hload|].
  unfold search_word, bind.
  rewrite (validate_documents_dir_ok E _ _ st Hdir), Hload. reflexivity.
Qed.

Lemma other_read_errors_propagate_witness :
  search_word (FT := sample_float_text) docs_env (str "docs")
              (str "word_index.json") (str "out.json") locked_state
  = (Raised (Exn OtherError (str "[Errno 13] Permission denied")), locked_state).
Proof.
  apply (other_read_errors_propagate (FT := sample_float_text) docs_env
           (str "docs") (str "word_index.json") (str "out.json")
           (Exn OtherError (str "[Errno 13] Permission denied")) locked_state);
    [reflexivity | reflexivity | discriminate | discriminate].
Defined.

(** ** The query engine: what a run may touch *)












(** X24.  The documents directory is checked and never read: two runs that
    differ only in which existing directory they are given return the same
    result and leave the same state, the same output file included. *)
Theorem documents_dir_is_only_checked {FT : FloatText} (E : env)
        (dir1 dir2 json_path output_json : pystr) (st : state) :
  isdir E dir1 = true ->
  isdir E dir2 = true ->
  search_word E dir1 json_path output_json st
  = search_word E dir2 json_path output_json st.
Proof.
  intros H1 H2. unfold search_word, bind.
  rewrite (validate_documents_dir_ok E _ _ st H1).
  rewrite (validate_documents_dir_ok E _ _ st H2).
  reflexivity.
Qed.

Lemma documents_dir_is_only_checked_witness :
  search_word (FT := sample_float_text) two_dirs_env (str "docs")
              (str "word_index.json") (str "out.json")
              (indexed_state [str "total"])
  = search_word (FT := sample_float_text) two_dirs_env (str "other")
                (str "word_index.json") (str "out.json")
                (indexed_state [str "total"]).
Proof.
  apply (documents_dir_is_only_checked (FT := sample_float_text) two_dirs_env
           (str "docs") (str "other") (str "word_index.json") (str "out.json")
           (indexed_state [str "total"]));
    reflexivity.
Defined.

(** ** The query engine: the three prompts of [main] *)

Lemma input_or_run (prompt default answer : pystr) (rest : list pystr)
      (st : state) :
  stdin st = answer :: rest ->
  input_or prompt default st
  = (Done (or_default answer default), set_stdin rest (add_stdout prompt st)).
Proof.
  intros Hin. unfold input_or, or_default, bind, input. rewrite Hin.
  destruct (strip answer); reflexivity.
Qed.

(** X11.  [main] reads three lines, the documents directory, the index file
    and the output file, and runs [search_word] on the three answers
    stripped of surrounding whitespace; an answer that is empty or blank
    is replaced by the default path of its prompt. *)
Theorem main_defaults_blank_answers {FT : FloatText} (E : env)
        (a b c : pystr) (rest : list pystr) (st : state) :
  stdin st = a :: b :: c :: rest ->
  search_main E st
  = search_word E (or_default a default_documents_dir)
                (or_default b default_json_path)
                (or_default c default_output_json)
                (set_stdin rest
                   (add_stdout (str "Enter the output JSON file path: ")
                      (add_stdout (str "Enter the JSON file path: ")
                         (add_stdout (str "Enter the do cuments directory path: ")
                                     st)))).
Proof.
  intros Hin. unfold search_main. unfold bind at 1.
  rewrite (input_or_run (str "Enter the do cuments directory path: ")
             (str "/home/litzchill/Boon_sai/doc_search/DATA/data")
             a (b :: c :: rest) st Hin).
  unfold bind at 1.
  rewrite (input_or_run (str "Enter the JSON file path: ")
             (str "/home/litzchill/Boon_sai/doc_search/word_index.json")
             b (c :: rest)
             (set_stdin (b :: c :: rest)
                (add_stdout (str "Enter the do cuments directory path: ") st))
             eq_refl).
  unfold bind at 1.
  rewrite (input_or_run (str "Enter the output JSON file path: ")
             (str "/home/litzchill/Boon_sai/doc_search/search_results.json")
             c rest
             (set_stdin (c :: rest)
                (add_stdout (str "Enter the JSON file path: ")
                   (set_stdin (b :: c :: rest)
                      (add_stdout (str "Enter the do cuments directory path: ")
                                  st))))
             eq_refl).
  reflexivity.
Qed.

Lemma main_defaults_blank_answers_witness :
  search_main (FT := sample_float_text) docs_env
              (indexed_state [[]; str "  "; str " out.json "; str "total"])
  = search_word (FT := sample_float_text) docs_env
                (str "/home/litzchill/Boon_sai/doc_search/DATA/data")
                (str "/home/litzchill/Boon_sai/doc_search/word_index.json")
                (str "out.json")
                (set_stdin [str "total"]
                   (add_stdout (str "Enter the output JSON file path: ")
                      (add_stdout (str "Enter the JSON file path: ")
                         (add_stdout (str "Enter the do cuments directory path: ")
                            (indexed_state
                               [[]; str "  "; str " out.json "; str "total"]))))).
Proof.
  apply (main_defaults_blank_answers (FT := sample_float_text) docs_env
           [] (str "  ") (str " out.json ") [str "total"]
           (indexed_state [[]; str "  "; str " out.json "; str "total"])).
  reflexivity.
Defined.

(** ** The pipeline: the run as a whole *)

(** X12.  When the hard-coded document folder is not a directory, the
    pipeline logs one error and raises [ValueError] with the text "Invalid
    folder path: ..."; [main] prints no summary, no file is written and no
    directory is removed. *)
Theorem invalid_folder_stops_pipeline {FT : FloatText} (E : env) (st : state) :
  isdir E folder_path = false ->
  preprocess_documents E st
  = (Raised (Exn ValueError (str "Invalid folder path: " ++ folder_path)),
     add_log (LogInvalidFolder folder_path) st)
  /\ preprocess_main E st
     = (Raised (Exn ValueError (str "Invalid folder path: " ++ folder_path)),
        add_log (LogInvalidFolder folder_path) st).
Proof.
  intros Hdir.
  assert (H : preprocess_documents E st
              = (Raised (Exn ValueError (str "Invalid folder path: " ++ folder_path)),
                 add_log (LogInvalidFolder folder_path) st)).
  { unfold preprocess_documents. rewrite Hdir. reflexivity. }
  split; [exact H|]. unfold preprocess_main, bind. rewrite H. reflexivity.
Qed.

Lemma invalid_folder_stops_pipeline_witness :
  preprocess_main (FT := sample_float_text) strict_env empty_state
  = (Raised (Exn ValueError
               (str "Invalid folder path: /home/litzchill/Boon_sai/doc_search/DATA/data")),
     add_log (LogInvalidFolder folder_path) empty_state).
Proof.
  apply (invalid_folder_stops_pipeline (FT := sample_float_text) strict_env
           empty_state).
  reflexivity.
Defined.





(** X15.  The index is rebuilt from nothing at every run: whatever records
    and files the state holds, a second run from the state the first one
    left returns the same records, keeps the same list of results (nothing
    is added twice) and leaves the same text in the index file. *)
Theorem second_run_rebuilds_same_index {FT : FloatText} (E : env) (st : state) :
  isdir E folder_path = true ->
  open_w_error E output_json = None ->
  fst (preprocess_documents E (snd (preprocess_documents E st)))
  = fst (preprocess_documents E st)
  /\ results (snd (preprocess_documents E (snd (preprocess_documents E st))))
     = results (snd (preprocess_documents E st))
  /\ lookup_file output_json
       (files (snd (preprocess_documents E (snd (preprocess_documents E st)))))
     = lookup_file output_json (files (snd (preprocess_documents E st))).
Proof.
  intros Hdir Hw.
  destruct (preprocess_documents_run E st Hdir) as (st1 & Hrun & Hres & _).
  rewrite Hw in Hrun. rewrite Hrun. cbn [fst snd].
  destruct (preprocess_documents_run E
              (add_log (LogSavedIndex output_json)
                 (add_file output_json
                    (Text (json_dumps (index_to_py (expected_index E)))) st1)) Hdir)
    as (st2 & Hrun2 & Hres2 & _).
  rewrite Hw in Hrun2. rewrite Hrun2. cbn [fst snd].
  split; [reflexivity|].
  cbn [results files add_log add_file lookup_file].
  rewrite pystr_eqb_refl. split; [congruence | reflexivity].
Qed.

Lemma second_run_rebuilds_same_index_witness :
  fst (preprocess_documents (FT := sample_float_text) mixed_env
         (snd (preprocess_documents (FT := sample_float_text) mixed_env
                 empty_state)))
  = fst (preprocess_documents (FT := sample_float_text) mixed_env empty_state).
Proof.
  apply (second_run_rebuilds_same_index (FT := sample_float_text) mixed_env
           empty_state eq_refl eq_refl).
Defined.

Lemma expected_index_same (E E' : env) :
  same_documents E E' -> expected_index E = expected_index E'.
Proof.
  intros (_ & _ & Hl & Ht & Hs & Ho).
  assert (Hg : forall suffix,
             glob_star E folder_path suffix = glob_star E' folder_path suffix).
  { intros suffix. unfold glob_star. rewrite Hl. reflexivity. }
  assert (Hc : converted E = converted E').
  { unfold converted. rewrite Hg.
    rewrite (filter_ext (conversion_ok E) (conversion_ok E')).
    - apply map_ext. intros d. unfold converted_path. rewrite Ht. reflexivity.
    - intros d. unfold conversion_ok. rewrite Hs. reflexivity. }
  unfold expected_index, all_files. rewrite Hc.
  cbn [flat_map]. rewrite !Hg.
  apply flat_map_ext. intros f. unfold doc_records. rewrite Ho. reflexivity.
Qed.

(** X16.  The index does not depend on the rendering of the pages: two
    environments that agree on the folder, the conversions, the OCR pass
    and the index file give the same result, the same records and the same
    index file, whether or not a page can be turned into an image and an
    image be opened, drawn on or saved. *)
Theorem index_ignores_rendering {FT : FloatText} (E E' : env) (st : state) :
  same_documents E E' ->
  fst (preprocess_documents E st) = fst (preprocess_documents E' st)
  /\ results (snd (preprocess_documents E st))
     = results (snd (preprocess_documents E' st))
  /\ files (snd (preprocess_documents E st))
     = files (snd (preprocess_documents E' st)).
Proof.
  intros Hsame. pose proof (expected_index_same E E' Hsame) as Hidx.
  destruct Hsame as (Hd & Hw & _).
  destruct (isdir E folder_path) eqn:Hdir.
  - symmetry in Hd.
    destruct (preprocess_documents_run E st Hdir)
      as (st1 & -> & Hres & _ & _ & Hfiles & _).
    destruct (preprocess_documents_run E' st Hd)
      as (st2 & -> & Hres' & _ & _ & Hfiles' & _).
    rewrite <- Hw, <- Hidx.
    destruct (open_w_error E output_json);
      cbn [fst snd results files add_log add_file];
      repeat split; congruence.
  - symmetry in Hd. unfold preprocess_documents. rewrite Hdir, Hd.
    repeat split; reflexivity.
Qed.

Lemma index_ignores_rendering_witness :
  fst (preprocess_documents (FT := sample_float_text) blind_env empty_state)
  = fst (preprocess_documents (FT := sample_float_text) mixed_env empty_state).
Proof.
  apply (index_ignores_rendering (FT := sample_float_text) blind_env mixed_env
           empty_state).
  repeat split; reflexivity.
Defined.

(** ** The pipeline and the query engine together *)



(** ** The pipeline: the records of one document *)

Lemma word_record_well_formed (file_path : pystr) (page_idx : nat) (w : Word) :
  well_formed w = true ->
  word_record file_path page_idx w = Done (record_of file_path page_idx w).
Proof.
  unfold well_formed, word_record, record_of, corners, index. intros H.
  destruct (geometry w) as [|[|x0 [|y0 m0]] [|[|x1 [|y1 m1]] others]];
    try discriminate H; reflexivity.
Qed.

Lemma word_record_ill_formed (file_path : pystr) (page_idx : nat) (w : Word) :
  well_formed w = false ->
  exists e, word_record file_path page_idx w = Raised e
            /\ exn_cls e = IndexError.
Proof.
  unfold well_formed, word_record, index. intros H.
  destruct (geometry w) as [|[|x0 [|y0 m0]] [|[|x1 [|y1 m1]] others]];
    try discriminate H; eexists; split; reflexivity.
Qed.

Lemma word_records_well_formed (file_path : pystr) (page_idx : nat)
      (ws : list Word) :
  forallb well_formed ws = true ->
  word_records file_path page_idx ws
  = Done (map (record_of file_path page_idx) ws).
Proof.
  induction ws as [|w ws IH]; [reflexivity|].
  cbn [forallb]. intros H. apply andb_true_iff in H as [Hw Hws].
  cbn [word_records map].
  rewrite (word_record_well_formed file_path page_idx w Hw), (IH Hws).
  reflexivity.
Qed.

Lemma word_records_ill_formed (file_path : pystr) (page_idx : nat)
      (ws : list Word) :
  forallb well_formed ws = false ->
  exists e, word_records file_path page_idx ws = Raised e
            /\ exn_cls e = IndexError.
Proof.
  induction ws as [|w ws IH]; [discriminate|].
  cbn [forallb word_records]. intros H.
  destruct (well_formed w) eqn:Hw.
  - rewrite (word_record_well_formed file_path page_idx w Hw).
    destruct (IH H) as (e & -> & Hcls). exists e. split; [reflexivity|exact Hcls].
  - destruct (word_record_ill_formed file_path page_idx w Hw) as (e & -> & Hcls).
    exists e. split; [reflexivity|exact Hcls].
Qed.

Lemma pages_records_well_formed (file_path : pystr) (pages : list Page) :
  forall page_idx,
    forallb page_well_formed pages = true ->
    pages_records file_path page_idx pages
    = numbered_records file_path page_idx pages.
Proof.
  induction pages as [|p rest IH]; intros page_idx H; [reflexivity|].
  cbn [forallb] in H. apply andb_true_iff in H as [Hp Hrest].
  cbn [pages_records numbered_records].
  rewrite (word_records_well_formed file_path page_idx (words_of_page p) Hp).
  rewrite (IH (S page_idx) Hrest). reflexivity.
Qed.

Lemma numbered_records_words (file_path : pystr) (pages : list Page) :
  forall page_idx,
    map word (numbered_records file_path page_idx pages)
    = map value (flat_map words_of_page pages).
Proof.
  induction pages as [|p rest IH]; intros page_idx; [reflexivity|].
  cbn [numbered_records flat_map]. rewrite !map_app, map_map, IH. reflexivity.
Qed.

(** X18.  When every word the OCR pass returns for a document has a
    geometry of two points or more, [process_file] adds to the results one
    record per word and nothing else: the words of each page in the order
    of the blocks, lines and words, page after page, the pages numbered
    from 1, every record with the basename of the file.  No word is
    dropped, merged or reordered. *)
Theorem words_are_indexed_in_reading_order (E : env) (file_path : pystr)
        (pages : list Page) (st : state) :
  ocr E (is_pdf file_path) file_path = Done pages ->
  forallb page_well_formed pages = true ->
  exists st',
    process_file E file_path st = (Done tt, st')
    /\ results st' = results st ++ numbered_records file_path 0 pages
    /\ map word (numbered_records file_path 0 pages)
       = map value (flat_map words_of_page pages).
Proof.
  intros Hocr Hwf.
  destruct (process_file_run E file_path st) as (st' & Hrun & _ & Hres & _).
  exists st'. split; [exact Hrun|]. split.
  - rewrite Hres. unfold doc_records. rewrite Hocr.
    rewrite (pages_records_well_formed file_path pages 0 Hwf). reflexivity.
  - apply numbered_records_words.
Qed.

Lemma words_are_indexed_in_reading_order_witness :
  exists st',
    process_file (pages_env two_pages) (str "docs/a.pdf") empty_state
    = (Done tt, st')
    /\ results st'
       = [sample_record (str "a.pdf") 1 (str "Invoice");
          sample_record (str "a.pdf") 1 (str "total");
          sample_record (str "a.pdf") 2 (str "Total")].
Proof.
  destruct (words_are_indexed_in_reading_order (pages_env two_pages)
              (str "docs/a.pdf") two_pages empty_state eq_refl eq_refl)
    as (st' & Hrun & Hres & _).
  exists st'. split; [exact Hrun | exact Hres].
Defined.

Lemma process_pages_stops (E : env) (file_path doc_name image_dir : pystr)
      (bad : Page) (after : list Page) (e : exn) (before : list Page) :
  forall (page_idx : nat) (st : state),
    forallb page_well_formed before = true ->
    word_records file_path (page_idx + length before) (words_of_page bad)
    = Raised e ->
    exists st',
      process_pages E file_path doc_name image_dir page_idx
                    (before ++ bad :: after) st = (Raised e, st')
      /\ frame st st'
      /\ results st' = results st ++ numbered_records file_path page_idx before.
Proof.
  induction before as [|p rest IH]; intros page_idx st Hwf Hbad.
  - cbn [length] in Hbad. rewrite Nat.add_0_r in Hbad.
    cbn [app process_pages numbered_records]. unfold bind.
    pose proof (process_page_run E file_path doc_name image_dir page_idx bad st)
      as Hp.
    rewrite Hbad in Hp. rewrite Hp.
    exists st. split; [reflexivity|]. split; [apply frame_refl|].
    symmetry. apply List.app_nil_r.
  - cbn [forallb] in Hwf. apply andb_true_iff in Hwf as [Hp Hrest].
    cbn [length] in Hbad. rewrite Nat.add_succ_r in Hbad.
    cbn [app process_pages numbered_records]. unfold bind.
    pose proof (process_page_run E file_path doc_name image_dir page_idx p st)
      as Hrun.
    rewrite (word_records_well_formed file_path page_idx (words_of_page p) Hp)
      in Hrun.
    destruct Hrun as (st1 & -> & Hf1 & Hr1).
    destruct (IH (S page_idx) st1 Hrest Hbad) as (st2 & -> & Hf2 & Hr2).
    exists st2. split; [reflexivity|]. split.
    + eapply frame_trans; eassumption.
    + rewrite Hr2, Hr1. symmetry. apply List.app_assoc.
Qed.

(** X19.  When a page of a document has a word whose geometry has fewer
    than two points, or a point with fewer than two coordinates, the
    [IndexError] ends the processing of that document: the records of the
    pages before it stay in the results, that page contributes no record,
    not even for its well-formed words, the pages after it are not
    visited, the error is the last entry logged, and [process_file] returns
    normally so the next file is processed. *)
Theorem malformed_geometry_truncates_document (E : env) (file_path : pystr)
        (before : list Page) (bad : Page) (after : list Page) (st : state) :
  ocr E (is_pdf file_path) file_path = Done (before ++ bad :: after) ->
  forallb page_well_formed before = true ->
  page_well_formed bad = false ->
  exists st' e,
    process_file E file_path st = (Done tt, st')
    /\ results st' = results st ++ numbered_records file_path 0 before
    /\ exn_cls e = IndexError
    /\ exists l, log st' = log st ++ l ++ [LogProcessError file_path (exn_str e)].
Proof.
  intros Hocr Hwf Hbad.
  destruct (word_records_ill_formed file_path (0 + length before)
              (words_of_page bad) Hbad) as (e & He & Hcls).
  unfold process_file, try_except, bind, lift, logging, modify.
  rewrite Hocr.
  destruct (process_pages_stops E file_path
              (replace (basename file_path) (str ".") (str "_"))
              (path_join logs_dir (replace (basename file_path) (str ".") (str "_")))
              bad after e before 0
              (add_log (LogOcrCompleted file_path (length (before ++ bad :: after)))
                 (add_log (LogProcessing file_path) st)) Hwf He)
    as (st2 & -> & (_ & _ & _ & _ & l & Hlog) & Hres).
  exists (add_log (LogProcessError file_path (exn_str e)) st2), e.
  split; [reflexivity|]. split; [exact Hres|]. split; [exact Hcls|].
  exists ([LogProcessing file_path;
           LogOcrCompleted file_path (length (before ++ bad :: after))] ++ l).
  cbn [log add_log] in Hlog |- *. rewrite Hlog.
  repeat rewrite <- List.app_assoc. reflexivity.
Qed.

Lemma malformed_geometry_truncates_document_witness :
  exists st' e,
    process_file (pages_env broken_pages) (str "docs/a.pdf") empty_state
    = (Done tt, st')
    /\ results st' = [sample_record (str "a.pdf") 1 (str "Invoice")]
    /\ exn_cls e = IndexError
    /\ exists l, log st' = l ++ [LogProcessError (str "docs/a.pdf") (exn_str e)].
Proof.
  destruct (malformed_geometry_truncates_document (pages_env broken_pages)
              (str "docs/a.pdf")
              [one_word_page (str "Invoice") [[0.1; 0.25]; [0.5; 0.9]]%float]
              {| blocks := [ {| lines := [ {| words :=
                   [ {| value := str "total";
                        geometry := [[0.1; 0.25]; [0.5; 0.9]]%float |};
                     {| value := str "smudge";
                        geometry := [[0.1; 0.25]]%float |} ] |} ] |} ] |}
              [one_word_page (str "Total") [[0.1; 0.25]; [0.5; 0.9]]%float]
              empty_state eq_refl eq_refl eq_refl)
    as (st' & e & Hrun & Hres & Hcls & l & Hlog).
  exists st', e. split; [exact Hrun|]. split; [exact Hres|].
  split; [exact Hcls|]. exists l. exact Hlog.
Defined.

(** ** The annotated images *)

Lemma draw_words_annotated (E : env) (image_path : pystr) (w h : Z)
      (page_words : list WordRecord) :
  forall st,
    annotated (snd (draw_words E image_path w h page_words st)) = annotated st.
Proof.
  induction page_words as [|r rest IH]; intros st; [reflexivity|].
  cbn [draw_words]. unfold bind, lift.
  destruct (scale_box (bounding_box r) w h) as [rect|e]; [|reflexivity].
  destruct (draw_error E rect); [reflexivity|].
  unfold logging, modify.
  specialize (IH (add_log (LogDrew (word r) (bounding_box r) image_path) st)).
  destruct (draw_words E image_path w h rest (add_log _ st)) as [[more|e] st1];
    cbn in *; exact IH.
Qed.

Lemma draw_words_length (E : env) (image_path : pystr) (w h : Z)
      (page_words : list WordRecord) (st st' : state) (rects : list rectangle) :
  draw_words E image_path w h page_words st = (Done rects, st') ->
  length rects = length page_words.
Proof.
  intros H. apply draw_words_scaled in H.
  apply (f_equal (@length _)) in H. rewrite !length_map in H. congruence.
Qed.

(** X20.  [draw_bounding_boxes] never raises and never touches the results
    or the files.  When it returns a path, that path is
    "annotated_<doc_name>_page_<n>.jpg" in the output directory and one
    image was saved there, with one rectangle per word of the page; when
    opening the image, reading a box, a drawing or the save fails, it
    returns [None], saves no image and its last log entry is the error. *)
Theorem annotation_never_raises (E : env) (image_path : pystr)
        (page_words : list WordRecord) (output_dir doc_name : pystr)
        (page_num : Z) (st : state) :
  exists r st',
    draw_bounding_boxes E image_path page_words output_dir doc_name page_num st
    = (Done r, st')
    /\ results st' = results st /\ files st' = files st
    /\ match r with
       | Some p =>
           p = path_join output_dir
                 (str "annotated_" ++ doc_name ++ str "_page_"
                  ++ int_repr page_num ++ str ".jpg")
           /\ exists rects,
                annotated st' = annotated st ++ [(p, rects)]
                /\ length rects = length page_words
       | None =>
           annotated st' = annotated st
           /\ exists l msg, log st' = log st ++ l ++ [LogDrawError image_path msg]
       end.
Proof.
  unfold draw_bounding_boxes, try_except, bind, lift.
  destruct (image_size E image_path) as [[w h]|e].
  - pose proof (draw_words_frame E image_path w h page_words st) as [Hf Hr].
    pose proof (draw_words_annotated E image_path w h page_words st) as Ha.
    destruct (draw_words E image_path w h page_words st) as [[rects|e] st1] eqn:Hd;
      cbn [snd] in Hf, Hr, Ha; destruct Hf as (_ & _ & Hfiles & _ & l & Hlog).
    + destruct (save_error E _) as [e|]; cbn.
      * eexists _, _. split; [reflexivity|]. cbn.
        split; [exact Hr|]. split; [exact Hfiles|]. split; [exact Ha|].
        exists l, (exn_str e). rewrite Hlog. symmetry. apply List.app_assoc.
      * eexists _, _. split; [reflexivity|]. cbn.
        split; [exact Hr|]. split; [exact Hfiles|]. split; [reflexivity|].
        exists rects. split; [rewrite Ha; reflexivity|].
        eapply draw_words_length. exact Hd.
    + cbn. eexists _, _. split; [reflexivity|]. cbn.
      split; [exact Hr|]. split; [exact Hfiles|]. split; [exact Ha|].
      exists l, (exn_str e). rewrite Hlog. symmetry. apply List.app_assoc.
  - cbn. eexists _, _. split; [reflexivity|]. cbn.
    repeat split. exists [], (exn_str e). reflexivity.
Qed.

Lemma draw_words_ok (E : env) (image_path : pystr) (w h : Z)
      (page_words : list WordRecord) :
  (forall rect, draw_error E rect = None) ->
  Forall (fun r => exists rect, scale_box (bounding_box r) w h = Done rect)
         page_words ->
  forall st,
  exists rects st',
    draw_words E image_path w h page_words st = (Done rects, st').
Proof.
  intros Hdraw Hall. induction Hall as [|r rest (rect & Hr) _ IH]; intros st.
  - eexists _, _. reflexivity.
  - cbn [draw_words]. unfold bind, lift. rewrite Hr, (Hdraw rect).
    unfold logging, modify.
    destruct (IH (add_log (LogDrew (word r) (bounding_box r) image_path) st))
      as (more & st1 & ->).
    eexists _, _. reflexivity.
Qed.

Lemma word_records_scalable (file_path : pystr) (page_idx : nat)
      (ws : list Word) (rs : list WordRecord) (w h : Z) :
  word_records file_path page_idx ws = Done rs ->
  Forall (fun r => exists rect, scale_box (bounding_box r) w h = Done rect) rs.
Proof.
  intros Hrs. apply Forall_forall. intros r Hin.
  destruct (word_records_origin file_path page_idx ws rs r Hrs Hin)
    as (wd & _ & Hr).
  apply word_record_done in Hr
    as (x0 & y0 & m0 & x1 & y1 & m1 & others & _ & ->).
  eexists. apply scale_box_four.
Qed.

Lemma path_join_nonempty (a b : pystr) : b <> [] -> path_join a b <> [].
Proof.
  intros Hb. unfold path_join.
  destruct (startswith b [SLASH]); [exact Hb|].
  destruct (pystr_eqb a [] || endswith a [SLASH]).
  - intros H. apply app_eq_nil in H as [_ H]. contradiction.
  - intros H. apply app_eq_nil in H as [_ H]. discriminate.
Qed.

(** X22.  When the words of a page have well-formed geometries and the
    rendering succeeds (the page of a document that is not an image is
    turned into an image, the image opens with size [w] x [h], every
    rectangle is drawn and the result is saved), [process_page] adds the
    records of the page to the results and saves one annotated image, at
    "logs/<doc_name>/annotated_<doc_name>_page_<n>.jpg", whose rectangles
    are, in order, the boxes of exactly those records scaled by [w] and
    [h].  An image file is annotated on the file itself. *)
Theorem page_annotation_is_saved (E : env) (file_path : pystr) (page_idx : nat)
        (p : Page) (rs : list WordRecord) (w h : Z) (st : state) :
  word_records file_path page_idx (words_of_page p) = Done rs ->
  (is_image file_path = false ->
   rasterize E file_path (Z.of_nat page_idx + 1) = None) ->
  image_size E (page_image_path file_path page_idx) = Done (w, h) ->
  (forall rect, draw_error E rect = None) ->
  save_error E (annotated_path file_path page_idx) = None ->
  exists st' rects,
    process_page E file_path (doc_name_of file_path)
                 (path_join logs_dir (doc_name_of file_path)) page_idx p st
    = (Done tt, st')
    /\ results st' = results st ++ rs
    /\ annotated st' = annotated st ++ [(annotated_path file_path page_idx, rects)]
    /\ map Done rects = map (fun r => scale_box (bounding_box r) w h) rs.
Proof.
  intros Hrs Hraster Hsize Hdraw Hsave.
  assert (Hbox : forall st1,
             exists st2 rects,
               draw_bounding_boxes E (page_image_path file_path page_idx) rs
                 (path_join logs_dir (doc_name_of file_path))
                 (doc_name_of file_path) (Z.of_nat page_idx + 1) st1
               = (Done (Some (annotated_path file_path page_idx)), st2)
               /\ results st2 = results st1
               /\ annotated st2
                  = annotated st1 ++ [(annotated_path file_path page_idx, rects)]
               /\ map Done rects
                  = map (fun r => scale_box (bounding_box r) w h) rs).
  { intros st1. unfold draw_bounding_boxes, try_except, bind, lift.
    rewrite Hsize.
    destruct (draw_words_ok E (page_image_path file_path page_idx) w h rs Hdraw
                (word_records_scalable file_path page_idx (words_of_page p)
                                       rs w h Hrs) st1)
      as (rects & st2 & Hd).
    pose proof (draw_words_frame E (page_image_path file_path page_idx) w h rs st1)
      as [_ Hr].
    pose proof (draw_words_annotated E (page_image_path file_path page_idx)
                                     w h rs st1) as Ha.
    pose proof (draw_words_scaled E (page_image_path file_path page_idx) w h rs
                                  st1 rects st2 Hd) as Hs.
    rewrite Hd in Hr, Ha |- *. cbn [snd] in Hr, Ha.
    fold (annotated_path file_path page_idx). rewrite Hsave.
    eexists _, rects. split; [reflexivity|]. cbn.
    split; [exact Hr|]. split; [rewrite Ha; reflexivity|]. symmetry. exact Hs. }
  unfold process_page, bind, lift. rewrite Hrs. unfold modify.
  unfold page_image_path in Hbox.
  destruct (is_image file_path) eqn:Himg.
  - unfold ret at 1. destruct file_path as [|c path]; [discriminate Himg|].
    destruct (Hbox (set_results (results st ++ rs) st))
      as (st2 & rects & -> & Hr & Ha & Hs).
    exists st2, rects. split; [reflexivity|]. auto.
  - unfold convert_page_to_image. rewrite (Hraster eq_refl).
    unfold bind, logging, modify, ret. cbv beta iota.
    fold (doc_name_of file_path).
    destruct (path_join (path_join logs_dir (doc_name_of file_path))
                (doc_name_of file_path ++ str "_page_"
                 ++ int_repr (Z.of_nat page_idx + 1) ++ str ".jpg"))
      as [|c path] eqn:Hpath.
    + exfalso. revert Hpath. apply path_join_nonempty.
      intros H. apply app_eq_nil in H as [_ H]. discriminate H.
    + destruct (Hbox (add_log
                        (LogPageImage (Z.of_nat page_idx + 1) file_path (c :: path))
                        (set_results (results st ++ rs) st)))
        as (st2 & rects & -> & Hr & Ha & Hs).
      exists st2, rects. split; [reflexivity|]. auto.
Qed.

Lemma page_annotation_is_saved_witness :
  exists st' rects,
    process_page quiet_env (str "docs/scan.png") (str "scan_png")
                 (str "logs/scan_png") 0
                 (one_word_page (str "Total") [[0.1; 0.1]; [0.5; 0.5]]%float)
                 empty_state
    = (Done tt, st')
    /\ results st'
       = [ {| document := str "scan.png"; page := 1; word := str "Total";
              bounding_box := [0.1; 0.1; 0.5; 0.5]%float |} ]
    /\ annotated st'
       = [(str "logs/scan_png/annotated_scan_png_page_1.jpg", rects)]
    /\ map Done rects = [Done ((100, 200), (500, 1000))%float].
Proof.
  apply (page_annotation_is_saved quiet_env (str "docs/scan.png") 0
           (one_word_page (str "Total") [[0.1; 0.1]; [0.5; 0.5]]%float)
           [ {| document := str "scan.png"; page := 1; word := str "Total";
                bounding_box := [0.1; 0.1; 0.5; 0.5]%float |} ]
           1000%Z 2000%Z empty_state);
    reflexivity.
Defined.

(** ** The folder of a document's images *)

Lemma replace_one_char (a b : N) (s : pystr) :
  replace s [a] [b] = map (fun c => if c =? a then b else c) s.
Proof.
  unfold replace. induction s as [|c r IH]; [reflexivity|].
  cbn [replace_from startswith length Nat.sub map app].
  rewrite andb_true_r. destruct (c =? a); rewrite IH; reflexivity.
Qed.

Lemma take_while_forall (p : N -> bool) (s : pystr) :
  Forall (fun c => p c = true) (take_while p s).
Proof.
  induction s as [|c r IH]; cbn [take_while]; [constructor|].
  destruct (p c) eqn:Hc; constructor; assumption.
Qed.

Lemma basename_has_no_slash (p : pystr) : no_slash (basename p).
Proof.
  unfold no_slash, basename. apply Forall_rev.
  eapply Forall_impl; [|apply take_while_forall].
  intros c Hc. cbv beta in Hc. apply negb_true_iff in Hc.
  apply N.eqb_neq. exact Hc.
Qed.

(** X21.  The folder name [process_file] derives from a file path is the
    basename of the path with every dot replaced by an underscore: it has
    the length of the basename, no dot and no slash, so the folder of a
    document's images is a direct child of the logs directory. *)
Theorem doc_name_has_no_dot (file_path : pystr) :
  doc_name_of file_path
  = map (fun c => if c =? ch "." then ch "_" else c) (basename file_path)
  /\ length (doc_name_of file_path) = length (basename file_path)
  /\ Forall (fun c => c <> ch "." /\ c <> SLASH) (doc_name_of file_path)
  /\ basename (path_join logs_dir (doc_name_of file_path))
     = doc_name_of file_path.
Proof.
  assert (Heq : doc_name_of file_path
                = map (fun c => if c =? ch "." then ch "_" else c)
                      (basename file_path)).
  { unfold doc_name_of. apply (replace_one_char (ch ".") (ch "_")). }
  assert (Hall : Forall (fun c => c <> ch "." /\ c <> SLASH)
                        (doc_name_of file_path)).
  { rewrite Heq. apply Forall_map.
    eapply Forall_impl; [|apply basename_has_no_slash].
    intros c Hc. cbv beta in Hc |- *.
    destruct (c =? ch ".") eqn:Hdot.
    - split; discriminate.
    - split; [apply N.eqb_neq; exact Hdot | exact Hc]. }
  split; [exact Heq|]. split; [rewrite Heq; apply length_map|].
  split; [exact Hall|].
  apply basename_path_join. unfold no_slash.
  eapply Forall_impl; [|exact Hall]. intros c [_ Hc]. exact Hc.
Qed.

(** ** The files handed to the OCR step *)

Lemma startswith_app (p r : pystr) : startswith (p ++ r) p = true.
Proof.
  induction p as [|c p IH]; [destruct r; reflexivity|].
  cbn [app startswith]. rewrite N.eqb_refl, IH. reflexivity.
Qed.

Lemma startswith_split (p : pystr) :
  forall s, startswith s p = true -> exists r, s = p ++ r.
Proof.
  induction p as [|c p IH]; intros s H.
  - exists s. reflexivity.
  - destruct s as [|d s]; [discriminate H|].
    cbn [startswith] in H. apply andb_true_iff in H as [Hc Hs].
    apply N.eqb_eq in Hc. subst d.
    destruct (IH s Hs) as (r & ->). exists r. reflexivity.
Qed.

Lemma endswith_app (x suf : pystr) : endswith (x ++ suf) suf = true.
Proof. unfold endswith. rewrite rev_app_distr. apply startswith_app. Qed.

Lemma endswith_split (s suf : pystr) :
  endswith s suf = true -> exists x, s = x ++ suf.
Proof.
  unfold endswith. intros H. apply startswith_split in H as (r & Hr).
  exists (rev r). rewrite <- (rev_involutive s), Hr, rev_app_distr, rev_involutive.
  reflexivity.
Qed.

Lemma path_join_suffix (a b : pystr) : exists x, path_join a b = x ++ b.
Proof.
  unfold path_join. destruct (startswith b [SLASH]); [exists []; reflexivity|].
  destruct (pystr_eqb a [] || endswith a [SLASH]).
  - exists a. reflexivity.
  - exists (a ++ [SLASH]). rewrite <- List.app_assoc. reflexivity.
Qed.

Lemma basename_app_suffix (x suf : pystr) :
  no_slash suf -> basename (x ++ suf) = basename x ++ suf.
Proof.
  intros Hs. unfold basename. rewrite rev_app_distr.
  assert (H : forall l t : pystr,
             Forall (fun c => c <> SLASH) l ->
             take_while (fun c => negb (c =? SLASH)) (l ++ t)
             = l ++ take_while (fun c => negb (c =? SLASH)) t).
  { induction l as [|c l IH]; intros t Hl; [reflexivity|].
    inversion Hl as [|? ? Hc Hl']; subst. cbn [app take_while].
    apply N.eqb_neq in Hc. rewrite Hc. cbn [negb]. rewrite (IH t Hl').
    reflexivity. }
  rewrite H by (apply Forall_rev; exact Hs).
  rewrite rev_app_distr, rev_involutive. reflexivity.
Qed.

Lemma replace_from_hit (old new r : pystr) (c : N) :
  startswith (c :: r) old = true ->
  replace_from old new 0 (c :: r)
  = new ++ replace_from old new (length old - 1) r.
Proof. intros H. cbn [replace_from]. rewrite H. reflexivity. Qed.

Lemma replace_from_miss (old new r : pystr) (c : N) :
  startswith (c :: r) old = false ->
  replace_from old new 0 (c :: r) = c :: replace_from old new 0 r.
Proof. intros H. cbn [replace_from]. rewrite H. reflexivity. Qed.

(** [".docx"] cannot overlap itself: an occurrence at the head of a text
    that ends with [".docx"] is the whole text or is followed by a text
    that ends with [".docx"]. *)
Lemma replace_docx_suffix (n : nat) :
  forall pre : pystr,
    (length pre <= n)%nat ->
    exists t, replace_from (str ".docx") (str ".pdf") 0 (pre ++ str ".docx")
              = t ++ str ".pdf".
Proof.
  change (str ".docx") with [46; 100; 111; 99; 120].
  change (str ".pdf") with [46; 112; 100; 102].
  induction n as [|n IH]; intros pre Hlen.
  - destruct pre; [|cbn in Hlen; lia]. exists []. reflexivity.
  - destruct pre as [|c pre]; [exists []; reflexivity|].
    cbn [length] in Hlen. rewrite <- app_comm_cons.
    destruct (startswith (c :: pre ++ [46; 100; 111; 99; 120])
                         [46; 100; 111; 99; 120]) eqn:Hst.
    + rewrite (replace_from_hit _ _ _ _ Hst).
      apply startswith_split in Hst as (r & Hr).
      destruct pre as [|c1 [|c2 [|c3 [|c4 pre]]]];
        cbn [app] in Hr; try congruence.
      destruct (IH pre) as (t & Ht); [cbn [length] in Hlen; lia|].
      exists ([46; 112; 100; 102] ++ t).
      cbn [length Nat.sub]. rewrite <- !app_comm_cons.
      cbn [replace_from]. rewrite Ht. rewrite <- List.app_assoc. reflexivity.
    + rewrite (replace_from_miss _ _ _ _ Hst).
      destruct (IH pre) as (t & Ht); [lia|].
      exists (c :: t). rewrite Ht. reflexivity.
Qed.

Lemma lower_suffix (x suf : pystr) :
  lower suf = suf -> endswith (lower (x ++ suf)) suf = true.
Proof.
  intros H. unfold lower in *. rewrite map_app, H. apply endswith_app.
Qed.

Lemma has_pdf_extension (x : pystr) :
  endswith (x ++ str ".pdf") (str ".pdf") = true
  /\ is_pdf (x ++ str ".pdf") = true /\ is_image (x ++ str ".pdf") = false.
Proof.
  split; [apply endswith_app|]. split.
  - apply lower_suffix. reflexivity.
  - unfold is_image, endswith, lower. rewrite map_app, rev_app_distr.
    reflexivity.
Qed.

(** X23.  Every file handed to the OCR step has one of the four extensions
    in lower case.  A path that ends with ".pdf" is loaded as a PDF and is
    not taken for an image; among these is every converted word-processor
    document, whose basename has had ".docx" replaced by ".pdf".  Any
    other path ends with ".jpg", ".jpeg" or ".png" and is loaded as an
    image, which is then annotated on the file itself. *)
Theorem processed_files_have_known_extension (E : env) (f : pystr) :
  In f (all_files E (converted E)) ->
  (endswith f (str ".pdf") = true /\ is_pdf f = true /\ is_image f = false)
  \/ (In true [endswith f (str ".jpg"); endswith f (str ".jpeg");
               endswith f (str ".png")]
      /\ is_pdf f = false /\ is_image f = true).
Proof.
  unfold all_files. intros Hin. apply in_app_or in Hin as [Hin|Hin].
  - apply in_flat_map in Hin as (suffix & Hsuf & Hin).
    apply glob_star_in in Hin as (name & _ & Hend & ->).
    apply endswith_split in Hend as (x & ->).
    destruct (path_join_suffix folder_path (x ++ suffix)) as (y & ->).
    rewrite List.app_assoc. set (z := y ++ x). clearbody z.
    destruct Hsuf as [<-|[<-|[<-|[<-|[]]]]].
    + left. apply has_pdf_extension.
    + right. split; [left; apply endswith_app|].
      unfold is_pdf, is_image, endswith, lower.
      rewrite map_app, rev_app_distr. split; reflexivity.
    + right. split; [right; left; apply endswith_app|].
      unfold is_pdf, is_image, endswith, lower.
      rewrite map_app, rev_app_distr. split; reflexivity.
    + right. split; [right; right; left; apply endswith_app|].
      unfold is_pdf, is_image, endswith, lower.
      rewrite map_app, rev_app_distr. split; reflexivity.
  - left. unfold converted in Hin. apply in_map_iff in Hin as (d & <- & Hd).
    apply filter_In in Hd as [Hd _].
    apply glob_star_in in Hd as (name & _ & Hend & ->).
    apply endswith_split in Hend as (x & ->).
    destruct (path_join_suffix folder_path (x ++ str ".docx")) as (y & ->).
    rewrite List.app_assoc. unfold converted_path.
    rewrite basename_app_suffix by (repeat constructor; discriminate).
    unfold replace.
    destruct (replace_docx_suffix (length (basename (y ++ x)))
                (basename (y ++ x)) (le_n _)) as (t & ->).
    destruct (path_join_suffix (temp_dir E) (t ++ str ".pdf")) as (u & ->).
    rewrite List.app_assoc. apply has_pdf_extension.
Qed.

Lemma processed_files_have_known_extension_witness :
  (endswith (str "/tmp/tmpdir/d.pdf") (str ".pdf") = true
   /\ is_pdf (str "/tmp/tmpdir/d.pdf") = true
   /\ is_image (str "/tmp/tmpdir/d.pdf") = false)
  \/ (In true [endswith (str "/tmp/tmpdir/d.pdf") (str ".jpg");
               endswith (str "/tmp/tmpdir/d.pdf") (str ".jpeg");
               endswith (str "/tmp/tmpdir/d.pdf") (str ".png")]
      /\ is_pdf (str "/tmp/tmpdir/d.pdf") = false
      /\ is_image (str "/tmp/tmpdir/d.pdf") = true).
Proof.
  apply (processed_files_have_known_extension mixed_env (str "/tmp/tmpdir/d.pdf")).
  vm_compute. auto.
Defined.
